(* ===== verification/_CoqProject ===== *)
-Q . S2P
Prelude.v
PyFloat.v
Text.v
NumText.v
PyVal.v
Schema.v
Adapt.v
Http.v
Db.v
Binding.v
Valuation.v
Cadastro.v
Construcoes.v
PlantaGenerica.v
Importar.v
Exportar.v
Usuarios.v
Config.v
Listing.v
App.v
