(* ===== verification/Prelude.v ===== *)
(** * A verification development of the REURB registry backend ([src/app.py])

    The program is a Flask application over SQLAlchemy/PostgreSQL that keeps
    land-regularisation (REURB) registrations, prices them, and manages user
    accounts.  Every route is a view function that reads the JSON body (or
    the uploaded file), queries and updates the database through the ORM
    session, and answers JSON (or a spreadsheet).  This library models the
    views as executable Rocq functions from a request and an explicit
    database state to a response and the next state, and proves what they
    do.

    ** Files, in dependency order, and the code they model

    - [Prelude.v] (this file): the result type with its bind notation
      [x <- m ;; k] in [reurb_scope], [first_match] (SQL [.first()] in
      storage order), the hint databases [reurb] and [reurb_rw], and the
      tactics [invc] and [case_if].
    - [PyFloat.v]: Python floats as [Fin q | Inf neg | NaN], exact on finite
      values with overflow to infinity at the binary64 threshold, IEEE rules
      for the special values, [Proper] instances for the equivalence [feq].
    - [Text.v]: UTF-8 strings split into characters, the character length
      of [VARCHAR(n)], PostgreSQL's lower-casing, [LIKE]/[ILIKE].
    - [NumText.v]: Python's [float(str)] and PostgreSQL's float8 input.
    - [PyVal.v]: JSON values ([pyval]), the exceptions the views raise
      ([exn]), [float()] and the numeric coercion of lines 217-224/289-296.
    - [Schema.v]: the eight [db.Model] classes (27-127) as column lists.
    - [Adapt.v], [Binding.v]: how psycopg2 and PostgreSQL turn a Python
      value into a column value (casts, [VARCHAR] length, [int4] range).
    - [Http.v]: responses, [request.get_json()] used as a dict, Flask's 404
      and 500 pages.
    - [Db.v]: tables with [SERIAL] sequences; the statements a flush emits
      ([INSERT], [UPDATE], [DELETE], the bulk delete of constructions) with
      their constraint checks; [run_tx], one [commit] with its rollback,
      which restores rows and keeps sequences.
    - [Valuation.v], [Listing.v]: [listar_cadastros_reurb] (234-268), the
      values [vvt], [vvc], [vvi], [iptu], the REURB class and the JSON list.
    - [Cadastro.v] (211-317), [Construcoes.v] (318-349),
      [PlantaGenerica.v] (351-390, with the abstract repository [Repo] it
      refines), [Importar.v] (397-458), [Exportar.v] (461-503),
      [Usuarios.v] (133-200, Werkzeug's hashing as Section parameters):
      one definition per view, every branch and exception path included.
    - [Config.v] (17-21): the [postgres://] to [postgresql://] rewrite, with
      [str.replace] defined by well-founded recursion (Equations).
    - [App.v]: the URL map of the [@app.route] decorators with Werkzeug's
      converters, 404 and 405; [serve], the call of a view on a request and
      a state; [serve_all], requests in order; the health check (203-209);
      [create_all] (130-131) and the port of [app.run] (510-512).

    ** What is proved

    - Valuation (C1-C7, C26): each value on every branch, the zero defaults, the
      tax lookup as case-insensitive containment (a refinement of the
      [ILIKE] query) and what it does with an unescaped [_], the REURB-S
      threshold.
    - Database (C8-C10, C17): every transaction preserves the invariant
      [wf_db] (distinct keys, filled [NOT NULL] columns, constructions
      naming stored registrations), so does every state the server reaches
      from start-up (rule induction on [App.reachable]); a failed
      transaction changes no row; the sequence can collide with keys set
      by hand.
    - Views (C11-C16, C18-C25, C27, C32-C38): the effect and answer of each
      view, the 404 and 400 paths, the numeric coercion and its errors,
      refinement of the repository contract by the reference-table views,
      atomicity of the import, export selection, login after account
      creation.
    - Application (C28-C31): the URL map is unambiguous, never hands a
      view a negative key, routes [str(id)] back to [id]; all
      registrations can be deleted through the API (liveness).
    - Configuration (C39-C40): the URL rewrite, a bound on [str.replace].

    ** Bounds and fuel

    Printing a float into a text column looks for its decimal scale up
    to 400 ([Adapt.decimal_scale], fuel 401): every float read from
    decimal text with at most 400 fraction digits has one; a float beyond
    it (a binary fraction of more than 400 digits) is reported as
    [UnmodelledAdaptation] rather than printed wrongly, and no property
    depends on it.  The
    float parser classifies the decimal magnitude before building the
    value (above 309 digits is infinity, below -324 zero).  [replace_count]
    recurses on the length of the text (Equations, [wf] on [lt]); every
    other function is structural, so all of them run with [vm_compute].
    [int4] keys are checked against [-2^31 .. 2^31-1] where a value is
    bound into an [integer] column.

    ** Not modelled

    The HTTP server loop and socket, the network round trip of [SELECT 1]
    (a parameter), pandas' parsing of [.xlsx]/[.csv] files (the frame it
    returns is the input) and openpyxl's writing of the workbook (the
    sheet is the output), numpy scalar types (modelled as Python values),
    the internals of Werkzeug's password hash (a parameter with the law
    [check_generated]), rounding of float arithmetic to 53 bits, HEAD and
    OPTIONS requests and Werkzeug's slash redirects, and non-ASCII digits
    in paths.  The [proprietarios] table is created but no view uses it. *)

From stdpp Require Export base list strings gmap.
From Stdlib Require Export ZArith QArith Lqa String Ascii.
Close Scope Q_scope.

(** [String] shadows the list [length]; lists are the common case here. *)
Abbreviation length := List.length (only parsing).

Declare Scope reurb_scope.
Delimit Scope reurb_scope with reurb.
Create HintDb reurb.
Create Rewrite HintDb reurb_rw.

(** ** Results: a value or an error *)

Inductive result (E A : Type) : Type :=
| Ok (a : A)
| Err (e : E).
Arguments Ok {E A} a.
Arguments Err {E A} e.

Definition res_bind {E A B} (m : result E A) (k : A -> result E B) : result E B :=
  match m with
  | Ok a => k a
  | Err e => Err e
  end.

#[export] Instance result_fmap {E} : FMap (result E) :=
  fun A B f m => match m with Ok a => Ok (f a) | Err e => Err e end.

Notation "x <- m ;; k" := (res_bind m (fun x => k))
  (at level 100, m at next level, right associativity) : reurb_scope.
Open Scope reurb_scope.

Lemma res_bind_Ok {E A B} (a : A) (k : A -> result E B) :
  res_bind (Ok a) k = k a.
Proof. reflexivity. Qed.

Lemma res_bind_Err {E A B} (e : E) (k : A -> result E B) :
  res_bind (Err e) k = Err e.
Proof. reflexivity. Qed.

Lemma res_bind_Ok_inv {E A B} (m : result E A) (k : A -> result E B) b :
  res_bind m k = Ok b -> exists a, m = Ok a /\ k a = Ok b.
Proof. destruct m; simpl; [eauto | discriminate]. Qed.

#[export] Hint Rewrite @res_bind_Ok @res_bind_Err : reurb_rw.

(** ** The first element of a list satisfying a test

    SQLAlchemy's [query.filter(...).first()] returns the first row the scan
    produces; the model scans a table in storage (insertion) order. *)

Section FirstMatch.
Context {A : Type} (p : A -> bool).

Fixpoint first_match (l : list A) : option A :=
  match l with
  | [] => None
  | x :: l' => if p x then Some x else first_match l'
  end.

Lemma first_match_Some l x :
  first_match l = Some x ->
  p x = true /\ exists l1 l2, l = l1 ++ x :: l2 /\ Forall (fun y => p y = false) l1.
Proof.
  induction l as [|y l IH]; simpl; [discriminate|].
  destruct (p y) eqn:Hy.
  - intros [= ->]. split; [done|]. exists [], l. split; [done | constructor].
  - intros H. destruct (IH H) as [Hp (l1 & l2 & -> & Hf)]. split; [done|].
    exists (y :: l1), l2. split; [done | by constructor].
Qed.

Lemma first_match_None l :
  first_match l = None <-> Forall (fun y => p y = false) l.
Proof.
  induction l as [|y l IH]; simpl; [split; [constructor | done]|].
  destruct (p y) eqn:Hy; split.
  - discriminate.
  - intros Hf. inversion Hf; congruence.
  - intros H. constructor; [done | by apply IH].
  - intros Hf. inversion Hf; subst. by apply IH.
Qed.

Lemma first_match_app_l l1 l2 x :
  first_match l1 = Some x -> first_match (l1 ++ l2) = Some x.
Proof.
  induction l1 as [|y l1 IH]; simpl; [discriminate|].
  destruct (p y); auto.
Qed.

Lemma first_match_app_r l1 l2 :
  first_match l1 = None -> first_match (l1 ++ l2) = first_match l2.
Proof.
  induction l1 as [|y l1 IH]; simpl; [done|].
  destruct (p y); [discriminate | auto].
Qed.
(** The first row satisfying [p] after rows that do not. *)
Lemma first_match_split pre x post :
  Forall (fun y => p y = false) pre -> p x = true ->
  first_match (pre ++ x :: post) = Some x.
Proof.
  intros Hpre Hx. rewrite first_match_app_r by by apply first_match_None.
  simpl. by rewrite Hx.
Qed.
End FirstMatch.

#[export] Hint Resolve first_match_app_l first_match_app_r : reurb.

(** A list with a positive length is not empty: on concrete data the
    length computes to a small number where the list itself would be a
    large term. *)
Lemma nonempty_length {A} (l : list A) : (0 < length l)%nat -> l <> [].
Proof. destruct l; simpl; [lia | discriminate]. Qed.

(** ** Tactics *)

Ltac invc H := inversion H; subst; clear H.

(** Case on the first boolean test of an [if] in the goal, keeping its
    equation. *)
Ltac case_if :=
  match goal with
  | |- context [if ?b then _ else _] =>
      lazymatch b with
      | context [if _ then _ else _] => fail
      | _ => let E := fresh "E" in destruct b eqn:E
      end
  end.
