(* ===== verification/PyFloat.v ===== *)
(** * Python floats

    The values a [db.Float] column and Python's [float] hold.  A finite
    float is a rational [Fin q]; [Inf neg] is [inf] or [-inf]; [NaN] is
    [nan].  Arithmetic on finite values is exact (rounding to 53 bits is
    not modelled), but a result whose magnitude reaches the overflow
    threshold of binary64 becomes an infinity, and the special values
    follow IEEE 754: [inf - inf], [0 * inf] are NaN, NaN propagates and
    compares false.  Signed zero is not modelled.

    Two floats are the same model value when [feq] relates them ([Qeq] on
    finite values); every operation respects [feq] ([Proper] instances), so
    setoid rewriting works inside the valuation formulas. *)

From S2P Require Import Prelude.
From Stdlib Require Import Morphisms.
Local Open Scope Q_scope.

Inductive pyfloat : Type :=
| Fin (q : Q)
| Inf (neg : bool)
| NaN.

(** The smallest magnitude that rounds to infinity in binary64:
    [2^1024 - 2^970] (half an ulp above the largest finite double, a tie
    broken to the even neighbour [2^1024]). *)
Definition overflow_threshold : Q := inject_Z (2 ^ 1024 - 2 ^ 970).
(** Proofs treat the threshold as a constant; [vm_compute] still evaluates
    it. *)
#[global] Opaque overflow_threshold.

(** A rational that is a finite double's value in the model. *)
Definition in_range (q : Q) : Prop :=
  - overflow_threshold < q /\ q < overflow_threshold.

(** Rounding an exact result to a float: overflow to a signed infinity. *)
Definition of_Q (q : Q) : pyfloat :=
  if Qle_bool overflow_threshold q then Inf false
  else if Qle_bool q (- overflow_threshold) then Inf true
  else Fin q.

Definition Qltb (a b : Q) : bool := negb (Qle_bool b a).

(** [x + y] *)
Definition fadd (x y : pyfloat) : pyfloat :=
  match x, y with
  | NaN, _ | _, NaN => NaN
  | Inf a, Inf b => if Bool.eqb a b then Inf a else NaN
  | Inf a, Fin _ | Fin _, Inf a => Inf a
  | Fin a, Fin b => of_Q (a + b)
  end.

(** [x * y] *)
Definition fmul (x y : pyfloat) : pyfloat :=
  match x, y with
  | NaN, _ | _, NaN => NaN
  | Inf a, Inf b => Inf (xorb a b)
  | Inf a, Fin q | Fin q, Inf a =>
      if Qeq_bool q 0 then NaN else Inf (xorb a (Qltb q 0))
  | Fin a, Fin b => of_Q (a * b)
  end.

(** [x / y]; [None] is Python's [ZeroDivisionError]. *)
Definition fdiv (x y : pyfloat) : option pyfloat :=
  match y with
  | Fin q =>
      if Qeq_bool q 0 then None
      else Some (match x with
                 | Fin a => of_Q (a / q)
                 | Inf s => Inf (xorb s (Qltb q 0))
                 | NaN => NaN
                 end)
  | Inf _ =>
      Some (match x with Fin _ => Fin 0 | _ => NaN end)
  | NaN => Some NaN
  end.

(** [x < y] and [x <= y]: false as soon as one side is NaN. *)
Definition flt (x y : pyfloat) : bool :=
  match x, y with
  | NaN, _ | _, NaN => false
  | Fin a, Fin b => Qltb a b
  | Inf true, Inf false => true
  | Inf _, Inf _ => false
  | Inf s, Fin _ => s
  | Fin _, Inf s => negb s
  end.

Definition fle (x y : pyfloat) : bool :=
  match x, y with
  | NaN, _ | _, NaN => false
  | Fin a, Fin b => Qle_bool a b
  | Inf a, Inf b => orb a (negb b)
  | Inf s, Fin _ => s
  | Fin _, Inf s => negb s
  end.

(** [bool(x)]: every float but zero is true, NaN included. *)
Definition ftruthy (x : pyfloat) : bool :=
  match x with
  | Fin q => negb (Qeq_bool q 0)
  | _ => true
  end.

(** Well-formed floats: finite values lie in the range of binary64. *)
Definition fwf (x : pyfloat) : Prop :=
  match x with Fin q => in_range q | _ => True end.

(** The model's equivalence (not Python's [==], under which NaN differs
    from itself). *)
Definition feq (x y : pyfloat) : Prop :=
  match x, y with
  | Fin a, Fin b => a == b
  | Inf a, Inf b => a = b
  | NaN, NaN => True
  | _, _ => False
  end.

Definition feqb (x y : pyfloat) : bool :=
  match x, y with
  | Fin a, Fin b => Qeq_bool a b
  | Inf a, Inf b => Bool.eqb a b
  | NaN, NaN => true
  | _, _ => false
  end.

Declare Scope float_scope.
Delimit Scope float_scope with F.
Infix "≡f" := feq (at level 70) : float_scope.
Infix "+f" := fadd (at level 50, left associativity) : float_scope.
Infix "*f" := fmul (at level 40, left associativity) : float_scope.
Open Scope float_scope.

(** ** Equivalence and morphisms *)

#[export] Instance feq_equiv : Equivalence feq.
Proof.
  split.
  - intros [q|b|]; simpl; reflexivity.
  - intros [q|b|] [q'|b'|]; simpl; auto; intros H; symmetry; exact H.
  - intros [q|b|] [q'|b'|] [q''|b''|]; simpl; try tauto; intros H1 H2;
      etransitivity; eauto.
Qed.

Lemma feqb_spec x y : feqb x y = true <-> x ≡f y.
Proof.
  destruct x, y; simpl; try (split; [discriminate | done]); try done.
  - apply Qeq_bool_iff.
  - rewrite Bool.eqb_true_iff. done.
Qed.

Lemma Qltb_iff a b : Qltb a b = true <-> a < b.
Proof.
  unfold Qltb. rewrite Bool.negb_true_iff.
  split; intros H.
  - apply Qnot_le_lt. intros Hle. apply Qle_bool_iff in Hle. congruence.
  - destruct (Qle_bool b a) eqn:E; [|done].
    apply Qle_bool_iff in E. lra.
Qed.

#[export] Instance Qltb_comp : Proper (Qeq ==> Qeq ==> eq) Qltb.
Proof. intros a a' Ha b b' Hb. unfold Qltb. by rewrite Ha, Hb. Qed.

(** Rewrite the boolean comparisons of the goal along [H : a == b]. *)
Ltac qbool_rw H :=
  match type of H with
  | ?a == ?b =>
      repeat first
        [ rewrite (Qeqb_comp a b H _ _ (Qeq_refl _))
        | rewrite (Qltb_comp a b H _ _ (Qeq_refl _))
        | rewrite (Qleb_comp a b H _ _ (Qeq_refl _))
        | rewrite (Qleb_comp _ _ (Qeq_refl _) a b H) ]
  end.

#[export] Instance Fin_comp : Proper (Qeq ==> feq) Fin.
Proof. intros a b H. exact H. Qed.

#[export] Instance of_Q_comp : Proper (Qeq ==> feq) of_Q.
Proof.
  intros a b H. unfold of_Q.
  rewrite (Qleb_comp _ _ (Qeq_refl _) a b H), (Qleb_comp a b H _ _ (Qeq_refl _)).
  repeat case_if; simpl; done.
Qed.

#[export] Instance fadd_comp : Proper (feq ==> feq ==> feq) fadd.
Proof.
  intros [a|s|] [a'|s'|] Ha [b|t|] [b'|t'|] Hb; simpl in Ha, Hb;
    try contradiction; subst; try reflexivity.
  cbn [fadd]. rewrite Ha, Hb. reflexivity.
Qed.

#[export] Instance fmul_comp : Proper (feq ==> feq ==> feq) fmul.
Proof.
  intros [a|s|] [a'|s'|] Ha [b|t|] [b'|t'|] Hb; simpl in Ha, Hb;
    try contradiction; subst; try reflexivity; cbn [fmul].
  - rewrite Ha, Hb. reflexivity.
  - qbool_rw Ha. reflexivity.
  - qbool_rw Hb. reflexivity.
Qed.

#[export] Instance flt_comp : Proper (feq ==> feq ==> eq) flt.
Proof.
  intros [a|s|] [a'|s'|] Ha [b|t|] [b'|t'|] Hb; simpl in Ha, Hb;
    try contradiction; subst; try reflexivity.
  simpl. by rewrite Ha, Hb.
Qed.

#[export] Instance fle_comp : Proper (feq ==> feq ==> eq) fle.
Proof.
  intros [a|s|] [a'|s'|] Ha [b|t|] [b'|t'|] Hb; simpl in Ha, Hb;
    try contradiction; subst; try reflexivity.
  simpl. by rewrite Ha, Hb.
Qed.

#[export] Instance ftruthy_comp : Proper (feq ==> eq) ftruthy.
Proof. intros [a|s|] [a'|s'|] H; simpl in *; try done. by rewrite H. Qed.

(** ** Finite arithmetic in range *)

Lemma of_Q_in_range q : in_range q -> of_Q q = Fin q.
Proof.
  intros [Hlo Hhi]. unfold of_Q.
  destruct (Qle_bool overflow_threshold q) eqn:E1;
    [apply Qle_bool_iff in E1; lra|].
  destruct (Qle_bool q (- overflow_threshold)) eqn:E2;
    [apply Qle_bool_iff in E2; lra|].
  done.
Qed.

Lemma of_Q_wf q : fwf (of_Q q).
Proof.
  unfold of_Q.
  destruct (Qle_bool overflow_threshold q) eqn:E1; [done|].
  destruct (Qle_bool q (- overflow_threshold)) eqn:E2; [done|].
  simpl. split; apply Qnot_le_lt; intros H; apply Qle_bool_iff in H; congruence.
Qed.

Lemma overflow_threshold_pos : 0 < overflow_threshold.
Proof. apply Qltb_iff. vm_compute. reflexivity. Qed.

Lemma in_range_0 : in_range 0.
Proof. pose proof overflow_threshold_pos. split; lra. Qed.

#[export] Hint Resolve of_Q_wf in_range_0 : reurb.

Lemma fadd_fin a b : in_range (a + b) -> Fin a +f Fin b = Fin (a + b).
Proof. apply of_Q_in_range. Qed.

Lemma fmul_fin a b : in_range (a * b) -> Fin a *f Fin b = Fin (a * b).
Proof. apply of_Q_in_range. Qed.

(** [0.0 + x] is [x] for every well-formed float. *)
Lemma fadd_0_l x : fwf x -> Fin 0 +f x ≡f x.
Proof.
  destruct x as [q|s|]; simpl; try done. intros Hq.
  assert (Hr : in_range (0 + q)) by (destruct Hq; split; lra).
  rewrite (of_Q_in_range _ Hr). simpl. lra.
Qed.

Lemma fadd_0_r x : fwf x -> x +f Fin 0 ≡f x.
Proof.
  destruct x as [q|s|]; simpl; try done. intros Hq.
  assert (Hr : in_range (q + 0)) by (destruct Hq; split; lra).
  rewrite (of_Q_in_range _ Hr). simpl. lra.
Qed.

Lemma fadd_wf x y : fwf x -> fwf y -> fwf (x +f y).
Proof.
  destruct x as [a|s|], y as [b|t|]; simpl; auto with reurb;
    try (destruct (Bool.eqb s t)); done.
Qed.

Lemma fmul_wf x y : fwf (x *f y).
Proof.
  destruct x as [a|s|], y as [b|t|]; simpl; auto with reurb;
    try case_if; done.
Qed.

#[export] Hint Resolve fadd_wf fmul_wf : reurb.

(** Truthiness of a finite float is "non-zero". *)
Lemma ftruthy_Fin q : ftruthy (Fin q) = true <-> ~ q == 0.
Proof.
  simpl. rewrite Bool.negb_true_iff. split.
  - intros H Hq. apply Qeq_bool_iff in Hq. congruence.
  - intros H. destruct (Qeq_bool q 0) eqn:E; [|done].
    apply Qeq_bool_iff in E. contradiction.
Qed.

Lemma fle_Fin a b : fle (Fin a) (Fin b) = true <-> a <= b.
Proof. apply Qle_bool_iff. Qed.

Lemma flt_Fin a b : flt (Fin a) (Fin b) = true <-> a < b.
Proof. apply Qltb_iff. Qed.
