(* ===== verification/Text.v ===== *)
(** * Text: UTF-8 characters, case folding and SQL [LIKE]

    A Rocq [string] holds the UTF-8 bytes of a Python [str] or a
    PostgreSQL [text] value.  [chars] groups the bytes into characters (a
    lead byte and its continuation bytes), which is what [VARCHAR(n)]
    lengths and [LIKE]'s [_] count.  [lower_char] is PostgreSQL's [lower]
    on ASCII letters and on the Latin-1 letters U+00C0..U+00DE (the
    accented capitals of Portuguese), other scripts are left as they are.

    [like_match] is PostgreSQL's [LIKE] with the default escape character
    backslash ([like_tokens] reads the pattern, [None] is the error "LIKE
    pattern must not end with escape character"), and [ilike] lowers both
    sides first, as PostgreSQL does for a multibyte encoding.  [substrb] is
    the reference "is a substring of" test; the main theorem,
    [ilike_wrap_contains], says that [t ILIKE '%u%'] is the
    case-insensitive substring test when [u] has no [%], [_] or [\]. *)

From S2P Require Import Prelude.

Definition bytes (s : string) : list ascii := list_ascii_of_string s.

Lemma bytes_app (s1 s2 : string) : bytes (s1 +:+ s2) = bytes s1 ++ bytes s2.
Proof. induction s1 as [|a s1 IH]; simpl; [done | by rewrite IH]. Qed.

(** ** Characters *)

Definition is_cont (a : ascii) : bool :=
  let n := nat_of_ascii a in (128 <=? n) && (n <? 192).

(** A byte string that does not start in the middle of a character. *)
Definition starts_clean (bs : list ascii) : bool :=
  match bs with
  | b :: _ => negb (is_cont b)
  | [] => true
  end.

Fixpoint group (bs : list ascii) : list (list ascii) :=
  match bs with
  | [] => []
  | b :: bs' =>
      match group bs' with
      | (c :: cs) :: rest => if is_cont c then (b :: c :: cs) :: rest
                             else [b] :: (c :: cs) :: rest
      | g => [b] :: g
      end
  end.

Definition chars (s : string) : list (list ascii) := group (bytes s).

(** [char_length] is PostgreSQL's [char_length] (Python's [len]). *)
Definition char_length (s : string) : nat := length (chars s).

(** ** Case folding *)

Definition lower_byte (a : ascii) : ascii :=
  let n := nat_of_ascii a in
  if (65 <=? n) && (n <=? 90) then ascii_of_nat (n + 32) else a.

Definition lower_char (c : list ascii) : list ascii :=
  match c with
  | [a] => [lower_byte a]
  | [a; b] =>
      let m := nat_of_ascii b in
      if (nat_of_ascii a =? 195) && (128 <=? m) && (m <=? 158) && negb (m =? 151)
      then [a; ascii_of_nat (m + 32)] else c
  | _ => c
  end.

Definition lower_chars (cs : list (list ascii)) : list (list ascii) :=
  map lower_char cs.

(** ** The reference: substring of a character sequence *)

Section Substring.
Context {A : Type} `{EqDecision A}.

Fixpoint prefixb (w s : list A) : bool :=
  match w, s with
  | [], _ => true
  | x :: w', y :: s' => bool_decide (x = y) && prefixb w' s'
  | _ :: _, [] => false
  end.

Fixpoint substrb (w s : list A) : bool :=
  prefixb w s || match s with [] => false | _ :: s' => substrb w s' end.

Lemma prefixb_spec w s : prefixb w s = true <-> exists r, s = w ++ r.
Proof.
  revert s. induction w as [|x w IH]; intros [|y s]; simpl.
  - split; eauto.
  - split; eauto.
  - split; [discriminate | by intros [r ?]].
  - rewrite andb_true_iff, bool_decide_eq_true, IH. split.
    + intros [-> [r ->]]. eauto.
    + intros [r [= -> ->]]. eauto.
Qed.

Lemma substrb_spec w s :
  substrb w s = true <-> exists l1 l2, s = l1 ++ w ++ l2.
Proof.
  induction s as [|y s IH]; simpl; rewrite orb_true_iff, prefixb_spec.
  - split.
    + intros [[r Hr] | H]; [by exists [], r | done].
    + intros ([|z l1] & l2 & H); [left; by exists l2 | done].
  - rewrite IH. split.
    + intros [[r Hr] | (l1 & l2 & ->)]; [by exists [], r | by exists (y :: l1), l2].
    + intros ([|z l1] & l2 & H); [left; by exists l2 |].
      right. injection H as -> ->. eauto.
Qed.
End Substring.

(** Case-insensitive containment: the lowered [needle] is a substring of
    the lowered [hay], character by character. *)
Definition contains_ci (hay needle : string) : bool :=
  substrb (lower_chars (chars needle)) (lower_chars (chars hay)).

(** ** [LIKE] *)

Inductive tok : Type :=
| TLit (c : list ascii)
| TOne
| TMany.

Definition pct : list ascii := ["%"%char].
Definition und : list ascii := ["_"%char].
Definition bsl : list ascii := ["\"%char].

Fixpoint like_tokens (p : list (list ascii)) : option (list tok) :=
  match p with
  | [] => Some []
  | c :: p' =>
      if bool_decide (c = pct) then cons TMany <$> like_tokens p'
      else if bool_decide (c = und) then cons TOne <$> like_tokens p'
      else if bool_decide (c = bsl) then
        match p' with
        | c2 :: p'' => cons (TLit c2) <$> like_tokens p''
        | [] => None
        end
      else cons (TLit c) <$> like_tokens p'
  end.

(** [go s] tries [f] on every suffix of [s], longest first: what [%]
    does. *)
Fixpoint any_suffix {A} (f : list A -> bool) (s : list A) : bool :=
  f s || match s with [] => false | _ :: s' => any_suffix f s' end.

Fixpoint like_match (ts : list tok) (s : list (list ascii)) : bool :=
  match ts with
  | [] => match s with [] => true | _ :: _ => false end
  | TLit c :: ts' =>
      match s with
      | c' :: s' => bool_decide (c = c') && like_match ts' s'
      | [] => false
      end
  | TOne :: ts' => match s with _ :: s' => like_match ts' s' | [] => false end
  | TMany :: ts' => any_suffix (like_match ts') s
  end.

(** [text LIKE pattern]; [None] is PostgreSQL's error on a pattern that
    ends with the escape character. *)
Definition like (text pattern : string) : option bool :=
  (fun ts => like_match ts (chars text)) <$> like_tokens (chars pattern).

(** [text ILIKE pattern]. *)
Definition ilike (text pattern : string) : option bool :=
  (fun ts => like_match ts (lower_chars (chars text)))
    <$> like_tokens (lower_chars (chars pattern)).

(** ** Characters of a concatenation *)

Lemma group_cons_head b bs : exists cs rest, group (b :: bs) = (b :: cs) :: rest.
Proof.
  simpl. destruct (group bs) as [|[|c cs] rest]; [eauto | eauto |].
  case_if; eauto.
Qed.

Lemma group_app bs1 bs2 :
  starts_clean bs2 = true -> group (bs1 ++ bs2) = group bs1 ++ group bs2.
Proof.
  intros Hc. induction bs1 as [|b bs1 IH]; [done|].
  simpl. rewrite IH. destruct bs1 as [|c bs1].
  - simpl. destruct bs2 as [|c bs2]; [done|].
    destruct (group_cons_head c bs2) as (cs & rest & ->).
    simpl in Hc. apply negb_true_iff in Hc. by rewrite Hc.
  - destruct (group_cons_head c bs1) as (cs & rest & ->). simpl. by case_if.
Qed.

Lemma chars_app (s1 s2 : string) :
  starts_clean (bytes s2) = true -> chars (s1 +:+ s2) = chars s1 ++ chars s2.
Proof. intros H. unfold chars. rewrite bytes_app. by apply group_app. Qed.

(** ** Patterns without wildcards *)

(** A character that [LIKE] reads as a wildcard or as the escape. *)
Definition special (c : list ascii) : bool :=
  bool_decide (c = pct) || bool_decide (c = und) || bool_decide (c = bsl).

Definition no_wildcards (cs : list (list ascii)) : bool :=
  forallb (fun c => negb (special c)) cs.

Lemma special_code x :
  special [x] = true ->
  nat_of_ascii x = 37 \/ nat_of_ascii x = 95 \/ nat_of_ascii x = 92.
Proof.
  unfold special. rewrite !orb_true_iff, !bool_decide_eq_true.
  intros [[H | H] | H]; injection H as ->; [left | right; left | right; right];
    reflexivity.
Qed.

Lemma lower_byte_special a :
  special [lower_byte a] = true -> lower_byte a = a.
Proof.
  unfold lower_byte. case_if; [|done]. intros Hs. exfalso.
  apply andb_true_iff in E as [E1 E2].
  apply Nat.leb_le in E1. apply Nat.leb_le in E2.
  apply special_code in Hs. rewrite nat_ascii_embedding in Hs by lia. lia.
Qed.

Lemma lower_char_special c : special (lower_char c) = true -> lower_char c = c.
Proof.
  destruct c as [|a [|b [|x r]]]; unfold lower_char; try done.
  - intros H. by rewrite (lower_byte_special a H).
  - destruct (_ && _); [|done]. unfold special. by rewrite !bool_decide_false.
Qed.

Lemma no_wildcards_lower cs :
  no_wildcards cs = true -> no_wildcards (lower_chars cs) = true.
Proof.
  unfold no_wildcards, lower_chars. rewrite !forallb_forall.
  intros H c Hc. apply in_map_iff in Hc as (c0 & <- & Hin).
  apply negb_true_iff. destruct (special (lower_char c0)) eqn:E; [|done].
  pose proof (lower_char_special c0 E) as Heq. rewrite Heq in E.
  specialize (H c0 Hin). rewrite E in H. done.
Qed.

Lemma like_tokens_plain cs rest :
  no_wildcards cs = true ->
  like_tokens (cs ++ rest) = app (map TLit cs) <$> like_tokens rest.
Proof.
  induction cs as [|c cs IH]; simpl; intros H.
  - by destruct (like_tokens rest).
  - apply andb_true_iff in H as [Hc H]. unfold special in Hc.
    rewrite !negb_orb in Hc. apply andb_true_iff in Hc as [Hc Hb].
    apply andb_true_iff in Hc as [Hp Hu]. apply negb_true_iff in Hp, Hu, Hb.
    rewrite Hp, Hu, Hb, IH by done. by destruct (like_tokens rest).
Qed.

(** [%] tries every suffix; before a run of literals it is the substring
    search. *)
Lemma any_suffix_prefixb (w s : list (list ascii)) :
  any_suffix (prefixb w) s = substrb w s.
Proof. induction s as [|x s IH]; simpl; [done | by rewrite IH]. Qed.

Lemma any_suffix_nil {A} (f : list A -> bool) s :
  f [] = true -> any_suffix f s = true.
Proof.
  intros Hf. induction s as [|x s IH]; simpl; [by rewrite Hf|].
  by rewrite IH, orb_true_r.
Qed.

Lemma like_match_lits_many w s :
  like_match (map TLit w ++ [TMany]) s = prefixb w s.
Proof.
  revert s. induction w as [|c w IH]; intros s; simpl.
  - by apply any_suffix_nil.
  - destruct s as [|c' s]; [done|]. by rewrite IH.
Qed.

Lemma lower_pct : lower_chars [pct] = [pct].
Proof. reflexivity. Qed.

Lemma pct_clean : starts_clean (bytes "%") = true.
Proof. reflexivity. Qed.

(** [f"%{u}%"] in characters. *)
Lemma chars_wrap u :
  starts_clean (bytes u) = true ->
  chars ("%" +:+ u +:+ "%") = [pct] ++ chars u ++ [pct].
Proof.
  intros Hu. rewrite chars_app.
  - rewrite chars_app by apply pct_clean. reflexivity.
  - rewrite bytes_app. by destruct (bytes u).
Qed.

Lemma any_suffix_ext {A} (f g : list A -> bool) s :
  (forall x, f x = g x) -> any_suffix f s = any_suffix g s.
Proof. intros H. induction s as [|y s IH]; simpl; by rewrite H, ?IH. Qed.

(** ** [ILIKE '%u%'] is case-insensitive containment *)

(** The tax-rate lookup of the valuation filters with
    [tipo ILIKE f"%{uso}%"].  When [uso] is a well-formed UTF-8 string
    with no character [LIKE] treats specially, the pattern never fails
    and matches exactly the [tipo] that contain [uso] ignoring case. *)
Theorem ilike_wrap_contains (t u : string) :
  starts_clean (bytes u) = true ->
  no_wildcards (chars u) = true ->
  ilike t ("%" +:+ u +:+ "%") = Some (contains_ci t u).
Proof.
  intros Hc Hw. unfold ilike, contains_ci.
  rewrite chars_wrap by done. unfold lower_chars. rewrite !map_app.
  change (map lower_char [pct]) with [pct]. simpl.
  rewrite like_tokens_plain by (apply no_wildcards_lower, Hw). simpl.
  f_equal. rewrite <- any_suffix_prefixb.
  apply any_suffix_ext. intros x. apply like_match_lits_many.
Qed.
