(* ===== verification/NumText.v ===== *)
(** * Decimal text to float

    [parse_float] reads a decimal floating literal the way Python's
    [float(str)] does ([python_syntax]) and the way PostgreSQL's
    [double precision] input does ([pg_syntax]): surrounding ASCII
    whitespace, an optional sign, then [inf]/[infinity]/[nan] in any case
    or digits with an optional fraction and exponent.  Python accepts a
    single [_] between digits and rounds a too-large value to [inf] and a
    too-small one to [0.0]; PostgreSQL accepts no [_] and raises on both.
    [None] is the error ([ValueError], or PostgreSQL's "invalid input
    syntax"/"out of range").  Hexadecimal input accepted by PostgreSQL's
    [strtod] and non-ASCII digits and spaces accepted by Python are not
    modelled.

    The decimal magnitude is tested before the value is built, so that an
    exponent like [1e999999999] is classified without computing
    [10 ^ 999999999]. *)

From S2P Require Import Prelude PyFloat Text.

Record float_syntax := mkFloatSyntax {
  allow_underscore : bool;
  range_error : bool
}.

Definition python_syntax : float_syntax := mkFloatSyntax true false.
Definition pg_syntax : float_syntax := mkFloatSyntax false true.

(** Python's [str.isspace] on ASCII: \t \n \v \f \r, \x1c-\x1f, space. *)
Definition is_space (a : ascii) : bool :=
  let n := nat_of_ascii a in ((9 <=? n) && (n <=? 13)) || ((28 <=? n) && (n <=? 32)).

Fixpoint drop_spaces (bs : list ascii) : list ascii :=
  match bs with
  | a :: bs' => if is_space a then drop_spaces bs' else bs
  | [] => []
  end.

Definition strip (bs : list ascii) : list ascii :=
  rev (drop_spaces (rev (drop_spaces bs))).

Definition digit_val (a : ascii) : option nat :=
  let n := nat_of_ascii a in
  if (48 <=? n) && (n <=? 57) then Some (n - 48) else None.

(** The digits after a first digit: more digits, each possibly preceded by
    one underscore when the syntax allows it. *)
Fixpoint more_digits (us : bool) (bs : list ascii) : list nat * list ascii :=
  match bs with
  | a :: bs' =>
      match digit_val a with
      | Some d => let '(ds, r) := more_digits us bs' in (d :: ds, r)
      | None =>
          if us && bool_decide (a = "_"%char) then
            match bs' with
            | b :: bs'' =>
                match digit_val b with
                | Some d => let '(ds, r) := more_digits us bs'' in (d :: ds, r)
                | None => ([], bs)
                end
            | [] => ([], bs)
            end
          else ([], bs)
      end
  | [] => ([], [])
  end.

(** A digit part: at least one digit. *)
Definition digitpart (us : bool) (bs : list ascii) : option (list nat * list ascii) :=
  match bs with
  | a :: bs' =>
      match digit_val a with
      | Some d => let '(ds, r) := more_digits us bs' in Some (d :: ds, r)
      | None => None
      end
  | [] => None
  end.

Definition from_digits (ds : list nat) : Z :=
  fold_left (fun acc d => 10 * acc + Z.of_nat d)%Z ds 0%Z.

Fixpoint drop_zeros (ds : list nat) : list nat :=
  match ds with
  | 0%nat :: ds' => drop_zeros ds'
  | _ => ds
  end.

(** The optional exponent: [e]/[E], an optional sign, a digit part. *)
Definition exponent (us : bool) (bs : list ascii) : option (Z * list ascii) :=
  match bs with
  | e :: bs' =>
      if bool_decide (e = "e"%char) || bool_decide (e = "E"%char) then
        let '(neg, bs'') :=
          match bs' with
          | s :: r => if bool_decide (s = "-"%char) then (true, r)
                      else if bool_decide (s = "+"%char) then (false, r)
                      else (false, bs')
          | [] => (false, bs')
          end in
        match digitpart us bs'' with
        | Some (ds, r) => Some (if neg then (- from_digits ds)%Z else from_digits ds, r)
        | None => None
        end
      else Some (0%Z, bs)
  | [] => Some (0%Z, [])
  end.

(** The unsigned numeric part: mantissa digits (integer then fraction),
    the number of fraction digits and the exponent; the whole input must
    be consumed. *)
Definition numeral (us : bool) (bs : list ascii)
  : option (list nat * nat * Z) :=
  let '(ip, r1) := match digitpart us bs with Some p => p | None => ([], bs) end in
  let '(dot, fp, r2) :=
    match r1 with
    | a :: r => if bool_decide (a = "."%char) then
                  match digitpart us r with
                  | Some (fs, r') => (true, fs, r')
                  | None => (true, [], r)
                  end
                else (false, [], r1)
    | [] => (false, [], r1)
    end in
  match ip, fp with
  | [], [] => None
  | _, _ =>
      match exponent us r2 with
      | Some (e, []) => Some (ip ++ fp, length fp, e)
      | _ => None
      end
  end.

(** The value [M * 10^k] of a mantissa with [nd] significant digits,
    classified by magnitude first:  [10^(nd-1+k) <= M*10^k < 10^(nd+k)]. *)
Definition scaled_value (fs : float_syntax) (ds : list nat) (k : Z) : option pyfloat :=
  let sig := drop_zeros ds in
  let nd := Z.of_nat (length sig) in
  match sig with
  | [] => Some (Fin 0)
  | _ =>
      if (309 <=? nd - 1 + k)%Z then
        if range_error fs then None else Some (Inf false)
      else if (nd + k <=? -324)%Z then
        if range_error fs then None else Some (Fin 0)
      else
        let M := inject_Z (from_digits sig) in
        let v := if (0 <=? k)%Z then (M * inject_Z (10 ^ k))%Q
                 else (M / inject_Z (10 ^ (- k)))%Q in
        match of_Q v with
        | Fin q => Some (Fin q)
        | _ => if range_error fs then None else Some (of_Q v)
        end
  end.

Definition fneg (x : pyfloat) : pyfloat :=
  match x with
  | Fin q => Fin (- q)
  | Inf s => Inf (negb s)
  | NaN => NaN
  end.

Definition lower_bytes (bs : list ascii) : list ascii := map lower_byte bs.

(** Parse an unsigned float body. *)
Definition unsigned_float (fs : float_syntax) (bs : list ascii) : option pyfloat :=
  let l := lower_bytes bs in
  if bool_decide (l = bytes "inf") || bool_decide (l = bytes "infinity") then
    Some (Inf false)
  else if bool_decide (l = bytes "nan") then Some NaN
  else
    match numeral (allow_underscore fs) bs with
    | Some (ds, nf, e) => scaled_value fs ds (e - Z.of_nat nf)
    | None => None
    end.

Definition parse_float (fs : float_syntax) (s : string) : option pyfloat :=
  match strip (bytes s) with
  | a :: r =>
      if bool_decide (a = "-"%char) then fneg <$> unsigned_float fs r
      else if bool_decide (a = "+"%char) then unsigned_float fs r
      else unsigned_float fs (a :: r)
  | [] => None
  end.
