(* ===== verification/PyVal.v ===== *)
(** * Python values, [float()] and the numeric coercion of the handlers

    [pyval] is a value decoded from a JSON request body or read from a
    spreadsheet cell: [None], a bool, an int, a float, a string, a list or
    a dict.  A dict is a [gmap string pyval] (keys are unique; a JSON object
    with a repeated key keeps the last one, [dict_of_pairs]).

    [py_float] is the builtin [float(v)] with its three errors:
    [ValueError] on a string that is not a float literal, [TypeError] on
    [None], lists and dicts, [OverflowError] on an int beyond the range of
    a double.  [coerce_numeric] is the coercion that [novo_cadastro_reurb]
    and [atualizar_cadastro_reurb] apply to the three numeric fields
    ([app.py] 218-224 and 290-296): [""] and [None] become [None], a value
    [float()] accepts becomes that float, and [ValueError]/[TypeError]
    become [None]; [OverflowError] is not caught there and escapes. *)

From S2P Require Import Prelude PyFloat Text NumText.
Local Set Warnings "-register-all".

Inductive pyval : Type :=
| PNone
| PBool (b : bool)
| PInt (z : Z)
| PFloat (f : pyfloat)
| PStr (s : string)
| PList (l : list pyval)
| PDict (d : list (string * pyval)).

Abbreviation dict := (gmap string pyval).

(** The errors the handlers can meet.  Database errors carry the
    PostgreSQL condition. *)
Inductive db_error : Type :=
| InvalidTextRepresentation   (** "invalid input syntax for type ..." *)
| StringDataRightTruncation   (** "value too long for type character varying(n)" *)
| NumericValueOutOfRange      (** "integer out of range", float overflow *)
| DatatypeMismatch            (** "column is of type integer but expression is of type boolean" *)
| NotNullViolation
| UniqueViolation
| ForeignKeyViolation
| UndefinedFunction           (** "operator does not exist: character varying = integer" *)
| CannotAdapt                 (** psycopg2: "can't adapt type 'dict'" *)
| UnmodelledAdaptation.       (** a Python list bound as a SQL array *)

Inductive exn : Type :=
| ValueError
| TypeError
| OverflowError
| KeyError (k : string)
| AttributeError (a : string)
| DatabaseError (e : db_error)
| StaleDataError.              (** an [UPDATE]/[DELETE] that matched no row *)

(** A JSON object: a later repeated key overrides an earlier one. *)
Definition dict_of_pairs (kvs : list (string * pyval)) : dict :=
  fold_left (fun m '(k, v) => <[k := v]> m) kvs ∅.

(** [d.get(k)] *)
Definition dget (d : dict) (k : string) : pyval :=
  match d !! k with Some v => v | None => PNone end.

(** [v == ""] and [v is None]. *)
Definition is_empty_str (v : pyval) : bool :=
  match v with PStr s => String.eqb s "" | _ => false end.

Definition is_none (v : pyval) : bool :=
  match v with PNone => true | _ => false end.

(** [float(v)] *)
Definition py_float (v : pyval) : result exn pyfloat :=
  match v with
  | PNone => Err TypeError
  | PBool b => Ok (Fin (if b then 1 else 0)%Q)
  | PInt z =>
      match of_Q (inject_Z z) with
      | Fin q => Ok (Fin q)
      | _ => Err OverflowError
      end
  | PFloat f => Ok f
  | PStr s =>
      match parse_float python_syntax s with
      | Some f => Ok f
      | None => Err ValueError
      end
  | PList _ | PDict _ => Err TypeError
  end.

(** Lines 218-224 (and 290-296) for one value. *)
Definition coerce_numeric (v : pyval) : result exn pyval :=
  if is_empty_str v || is_none v then Ok PNone
  else
    match py_float v with
    | Ok f => Ok (PFloat f)
    | Err ValueError | Err TypeError => Ok PNone
    | Err e => Err e
    end.

(** [bool(v)]: [None], [False], zero, and empty strings, lists and
    dicts are false. *)
Definition py_truthy (v : pyval) : bool :=
  match v with
  | PNone => false
  | PBool b => b
  | PInt z => negb (Z.eqb z 0)
  | PFloat f => ftruthy f
  | PStr s => negb (String.eqb s "")
  | PList l => negb (bool_decide (l = []))
  | PDict kvs => negb (bool_decide (kvs = []))
  end.

(** The three numeric columns of [CadastroReurb]. *)
Definition numeric_fields : list string :=
  ["imovel_area_total"; "imovel_area_construida"; "reurb_renda_familiar"].

Definition is_numeric_field (k : string) : bool :=
  bool_decide (k ∈ numeric_fields).

(** Lines 217-224: every numeric field is set, to [None] when absent. *)
Definition coerce_fields (d : dict) : result exn dict :=
  fold_left
    (fun acc campo =>
       d' <- acc ;;
       v <- coerce_numeric (dget d' campo) ;;
       Ok (<[campo := v]> d'))
    numeric_fields (Ok d).

(** ** Properties of the coercion *)

Lemma parse_float_empty fs : parse_float fs "" = None.
Proof. reflexivity. Qed.

(** C15.  Text sent for a numeric field never raises: it is stored as the
    float [float()] reads from it, or as [None] when [float()] rejects it
    (the empty string included). *)
Theorem coerce_numeric_text s :
  coerce_numeric (PStr s) =
  Ok (match parse_float python_syntax s with Some f => PFloat f | None => PNone end).
Proof.
  unfold coerce_numeric. cbn [is_empty_str is_none py_float].
  destruct (String.eqb_spec s "") as [->|Hne]; cbn [orb].
  - by rewrite parse_float_empty.
  - by destruct (parse_float python_syntax s).
Qed.

(** C16.  The only exception the numeric coercion lets escape is
    [OverflowError], raised by [float()] on a JSON integer whose magnitude
    is beyond the range of a double; every other value becomes a float
    or [None]. *)
Theorem coerce_numeric_error v e :
  coerce_numeric v = Err e ->
  e = OverflowError /\ exists z, v = PInt z /\ ~ in_range (inject_Z z).
Proof.
  unfold coerce_numeric. destruct (is_empty_str v || is_none v); [discriminate|].
  destruct v as [| b | z | f | s | l | kv]; cbn [py_float]; try discriminate.
  - destruct (of_Q (inject_Z z)) as [q | sg |] eqn:E; intros H; inversion H; subst;
      (split; [done | exists z; split; [done|]]);
      intros Hr; rewrite (of_Q_in_range _ Hr) in E; discriminate.
  - destruct (parse_float python_syntax s); discriminate.
Qed.

(** The coercion accepts what the specification excludes: [nan], [inf]
    and negative numbers are stored, and JSON [true] becomes [1.0]. *)
Example coerce_numeric_accepts_specials :
  coerce_numeric (PStr "nan") = Ok (PFloat NaN) /\
  coerce_numeric (PStr "-inf") = Ok (PFloat (Inf true)) /\
  coerce_numeric (PStr "-5") = Ok (PFloat (Fin (-5))) /\
  coerce_numeric (PBool true) = Ok (PFloat (Fin 1)).
Proof. vm_compute. repeat split. Qed.

(** Witness of C16: [2^1024] does not fit a double. *)
Lemma coerce_numeric_error_witness :
  coerce_numeric (PInt (2 ^ 1024)) = Err OverflowError /\
  (OverflowError = OverflowError /\ exists z, PInt (2 ^ 1024) = PInt z /\ ~ in_range (inject_Z z)).
Proof.
  assert (H : coerce_numeric (PInt (2 ^ 1024)) = Err OverflowError) by (vm_compute; reflexivity).
  split; [exact H | exact (coerce_numeric_error _ _ H)].
Defined.
