(* ===== verification/Schema.v ===== *)
(** * The SQLAlchemy models ([app.py] 27-127)

    Each model is a table: a list of columns with their SQL type, length,
    nullability, uniqueness, foreign key and Python-side default.  Every
    table has the integer primary key [id] (a [SERIAL]).  [db.String(n)] is
    [CString (Some n)] ([VARCHAR(n)]), [db.Text] is [CString None],
    [db.Float] is [CFloat] ([double precision]), [db.Integer] is
    [CInteger] ([integer], 32 bits).

    A stored value is a [dbval]; [tname] names the eight tables. *)

From S2P Require Import Prelude PyFloat Text PyVal.

Inductive coltype : Type :=
| CInteger
| CString (len : option nat)
| CFloat.

Inductive dbval : Type :=
| DNull
| DInt (z : Z)
| DText (s : string)
| DFloat (f : pyfloat).

Record column := mkColumn {
  col_name : string;
  col_type : coltype;
  col_nullable : bool;
  col_unique : bool;
  col_fk : bool;             (** [ForeignKey('cadastros_reurb.id')] *)
  col_default : option pyval (** Python-side [default=] *)
}.

Inductive tname : Type :=
| TUsuarios | TProprietarios | TCadastros | TConstrucoes
| TPGV | TPadroes | TLogradouros | TAliquotas.

#[export] Instance tname_eq_dec : EqDecision tname.
Proof. solve_decision. Defined.

(** [db.Column(db.String(n))], nullable, no constraint. *)
Definition str_col (name : string) (n : nat) : column :=
  mkColumn name (CString (Some n)) true false false None.
Definition text_col (name : string) : column :=
  mkColumn name (CString None) true false false None.
Definition float_col (name : string) : column :=
  mkColumn name CFloat true false false None.
Definition id_col : column :=
  mkColumn "id" CInteger false true false None.

(** [nullable=False] *)
Definition required (c : column) : column :=
  mkColumn (col_name c) (col_type c) false (col_unique c) (col_fk c) (col_default c).

(** [class Usuario] (27-33). *)
Definition usuario_columns : list column :=
  [id_col; required (str_col "nome" 100);
   mkColumn "usuario" (CString (Some 50)) false true false None;
   required (str_col "senha" 255);
   mkColumn "acesso" (CString (Some 20)) false false false (Some (PStr "Usuario"))].

(** [class Proprietario] (36-41). *)
Definition proprietario_columns : list column :=
  [id_col; required (str_col "nome" 100); required (str_col "cpfcnpj" 20);
   required (str_col "telefone" 20)].

(** [class CadastroReurb] (43-92). *)
Definition cadastro_columns : list column :=
  [id_col;
   str_col "req_nome" 150; str_col "req_cpf" 20; str_col "req_rg" 20;
   str_col "req_data_nasc" 20; str_col "req_nacionalidade" 50;
   str_col "req_estado_civil" 30; str_col "conj_nome" 150; str_col "conj_cpf" 20;
   str_col "req_profissao" 100; str_col "req_telefone" 30; str_col "req_email" 150;
   str_col "req_cep_atual" 15; str_col "req_logradouro_atual" 150;
   str_col "req_numero_atual" 20; str_col "req_complemento_atual" 100;
   str_col "req_bairro_atual" 100; str_col "req_cidade_atual" 100;
   str_col "req_uf_atual" 2; str_col "imovel_cep" 15; str_col "imovel_logradouro" 150;
   str_col "imovel_numero" 20; str_col "imovel_complemento" 100;
   str_col "imovel_bairro" 100; str_col "imovel_cidade" 100; str_col "imovel_uf" 2;
   str_col "inscricao_imobiliaria" 30; float_col "imovel_area_total";
   float_col "imovel_area_construida"; str_col "imovel_uso" 30;
   str_col "imovel_tipo_construcao" 30; str_col "imovel_data_ocupacao" 20;
   text_col "imovel_forma_ocupacao"; text_col "imovel_docs_posse";
   text_col "imovel_fotos"; text_col "imovel_croqui";
   str_col "confrontante_ld" 200; str_col "confrontante_le" 200;
   str_col "confrontante_fundo" 200; str_col "confrontante_frente" 200;
   str_col "reurb_finalidade_moradia" 50; float_col "reurb_renda_familiar";
   str_col "reurb_propriedade" 30; str_col "reurb_infra_necessaria" 30;
   str_col "reurb_riscos" 30; text_col "reurb_riscos_descricao";
   str_col "reurb_outro_imovel" 10; str_col "reurb_cadunico" 10].

(** [class Construcao] (94-103). *)
Definition construcao_columns : list column :=
  [id_col; mkColumn "cadastro_id" CInteger true false true None;
   float_col "area_total"; float_col "area_construida";
   str_col "uso" 50; str_col "padrao" 50; str_col "tipo" 50].

(** [class PGV], [PadraoConstrutivo] (105-115). *)
Definition descricao_valor_columns : list column :=
  [id_col; required (str_col "descricao" 150); required (float_col "valor_m2")].

(** [class ValorLogradouro] (117-121). *)
Definition logradouro_columns : list column :=
  [id_col; required (str_col "logradouro" 150); required (float_col "valor_m2")].

(** [class AliquotaIPTU] (123-127). *)
Definition aliquota_columns : list column :=
  [id_col; required (str_col "tipo" 150); required (float_col "aliquota")].

Definition schema (t : tname) : list column :=
  match t with
  | TUsuarios => usuario_columns
  | TProprietarios => proprietario_columns
  | TCadastros => cadastro_columns
  | TConstrucoes => construcao_columns
  | TPGV | TPadroes => descricao_valor_columns
  | TLogradouros => logradouro_columns
  | TAliquotas => aliquota_columns
  end.

(** [[c.name for c in Model.__table__.columns]] *)
Definition column_names (t : tname) : list string := map col_name (schema t).

(** Class attributes every model has besides its columns (Flask-SQLAlchemy's
    [query] and [query_class], the declarative [metadata], [registry],
    [__tablename__], [__table__]): [hasattr] holds for them, and setting
    them changes no column. *)
Definition model_class_attrs : list string :=
  ["query"; "query_class"; "metadata"; "registry"; "__tablename__"; "__table__"].

Definition find_column (t : tname) (k : string) : option column :=
  first_match (fun c => String.eqb (col_name c) k) (schema t).
