(* ===== verification/Adapt.v ===== *)
(** * Binding a Python value to a column (psycopg2 and PostgreSQL casts)

    When SQLAlchemy flushes an attribute, psycopg2 renders the Python value
    as a SQL literal and PostgreSQL converts it to the column's type:
    - [None] is [NULL];
    - into [integer]: an int is range-checked (32 bits); a string goes
      through [int4in]; a float literal is a [numeric] rounded half away
      from zero ([inf]/[nan] are out of range); a bool has no cast;
    - into [varchar(n)]/[text]: a string is kept, an int and a bool are
      printed ([true]/[false]), a float is printed as the [numeric] its
      [repr] denotes; a value longer than [n] characters is an error unless
      the excess is only spaces, which are cut ([varchar] input rule);
    - into [double precision]: a float is kept, an int converted (error
      when too large), a string read by the float8 input ([pg_syntax]);
    - a dict cannot be adapted; a list becomes an array literal, whose
      conversion is not modelled ([UnmodelledAdaptation]).

    A float is printed from its exact decimal expansion, which is what
    [repr] prints for values read from short decimal text (shortest
    round-trip digits are not modelled). *)

From S2P Require Import Prelude PyFloat Text NumText PyVal Schema.
From Stdlib Require Import DecimalString.

(** ** Integers *)

Definition int4_min : Z := (- 2 ^ 31)%Z.
Definition int4_max : Z := (2 ^ 31 - 1)%Z.

Definition in_int4 (z : Z) : bool := (int4_min <=? z)%Z && (z <=? int4_max)%Z.

Definition check_int4 (z : Z) : result db_error Z :=
  if in_int4 z then Ok z else Err NumericValueOutOfRange.

(** Python's [str(int)]. *)
Definition z_text (z : Z) : string := NilEmpty.string_of_int (Z.to_int z).

(** [int4in]: surrounding spaces, a sign, decimal digits. *)
Definition parse_int4 (s : string) : result db_error Z :=
  match strip (bytes s) with
  | [] => Err InvalidTextRepresentation
  | a :: r =>
      let '(neg, body) :=
        if bool_decide (a = "-"%char) then (true, r)
        else if bool_decide (a = "+"%char) then (false, r)
        else (false, a :: r) in
      match digitpart false body with
      | Some (ds, []) =>
          check_int4 (if neg then (- from_digits ds)%Z else from_digits ds)
      | _ => Err InvalidTextRepresentation
      end
  end.

(** [numeric] to [integer]: round half away from zero. *)
Definition round_half_away (q : Q) : Z :=
  let n := Qnum q in
  let d := Zpos (Qden q) in
  if (0 <=? n)%Z then ((2 * n + d) / (2 * d))%Z
  else (- ((2 * (- n) + d) / (2 * d)))%Z.

(** ** Printing a float *)

(** The smallest [k <= 400] with [10^k * q] an integer. *)
Fixpoint decimal_scale (fuel : nat) (k : nat) (q : Q) : option nat :=
  match fuel with
  | O => None
  | S fuel' =>
      if ((10 ^ Z.of_nat k) mod Zpos (Qden q) =? 0)%Z then Some k
      else decimal_scale fuel' (S k) q
  end.

Definition digits_text (z : Z) : list ascii := bytes (z_text z).

(** [m * 10^-k] printed with exactly [k] fraction digits ([k = 0]: none). *)
Definition fixed_text (m : Z) (k : nat) : string :=
  let ds := digits_text (Z.abs m) in
  let ds := repeat "0"%char (S k - length ds) ++ ds in
  let ip := take (length ds - k) ds in
  let fp := drop (length ds - k) ds in
  (if (m <? 0)%Z then "-" else "") +:+
  string_of_list_ascii (ip ++ (if k =? 0 then [] else "."%char :: fp)).

(** The text PostgreSQL stores for a finite float [q] bound into a string
    column: [repr(q)] read as a [numeric].  In [repr]'s fixed range
    ([1e-4 <= |q| < 1e16]) it is the fixed notation with at least one
    fraction digit; outside it the numeric has the scale of the
    scientific literal. *)
Definition float_text (q : Q) : option string :=
  match decimal_scale 401 0 q with
  | None => None
  | Some k =>
      let m := (Qnum q * (10 ^ Z.of_nat k) / Zpos (Qden q))%Z in
      (* strip trailing zeros: m = m' * 10^(k - k') *)
      let fix norm (fuel : nat) (m : Z) (k : nat) : Z * nat :=
        match fuel, k with
        | S fuel', S k' => if (m mod 10 =? 0)%Z then norm fuel' (m / 10)%Z k' else (m, k)
        | _, _ => (m, k)
        end in
      let '(m', k') := norm k m k in
      let nd := Z.of_nat (length (digits_text (Z.abs m'))) in
      let x := (nd - 1 - Z.of_nat k')%Z in
      if (m' =? 0)%Z then Some "0.0"
      else if ((-4 <=? x) && (x <? 16))%Z then
        let k1 := Nat.max 1 k' in
        Some (fixed_text (m' * 10 ^ Z.of_nat (k1 - k'))%Z k1)
      else Some (fixed_text m' k')
  end.

Definition pyfloat_text (f : pyfloat) : option string :=
  match f with
  | Fin q => float_text q
  | Inf false => Some "Infinity"
  | Inf true => Some "-Infinity"
  | NaN => Some "NaN"
  end.

(** ** [varchar(n)] input *)

Definition fit_varchar (len : option nat) (s : string) : result db_error string :=
  match len with
  | None => Ok s
  | Some n =>
      let cs := chars s in
      if length cs <=? n then Ok s
      else if forallb (fun c => bool_decide (c = [" "%char])) (drop n cs)
      then Ok (string_of_list_ascii (List.concat (take n cs)))
      else Err StringDataRightTruncation
  end.

(** ** Binding *)

Definition adapt (ty : coltype) (v : pyval) : result db_error dbval :=
  match v with
  | PNone => Ok DNull
  | PDict _ => Err CannotAdapt
  | PList _ => Err UnmodelledAdaptation
  | _ =>
    match ty, v with
    | CInteger, PInt z => DInt <$> check_int4 z
    | CInteger, PStr s => DInt <$> parse_int4 s
    | CInteger, PFloat (Fin q) => DInt <$> check_int4 (round_half_away q)
    | CInteger, PFloat _ => Err NumericValueOutOfRange
    | CInteger, PBool _ => Err DatatypeMismatch
    | CString len, PStr s => DText <$> fit_varchar len s
    | CString len, PInt z => DText <$> fit_varchar len (z_text z)
    | CString len, PBool b => DText <$> fit_varchar len (if b then "true" else "false")
    | CString len, PFloat f =>
        match pyfloat_text f with
        | Some t => DText <$> fit_varchar len t
        | None => Err UnmodelledAdaptation
        end
    | CFloat, PFloat f => Ok (DFloat f)
    | CFloat, PInt z =>
        match of_Q (inject_Z z) with
        | Fin q => Ok (DFloat (Fin q))
        | _ => Err NumericValueOutOfRange
        end
    | CFloat, PStr s =>
        match parse_float pg_syntax s with
        | Some f => Ok (DFloat f)
        | None => Err InvalidTextRepresentation
        end
    | CFloat, PBool _ => Err DatatypeMismatch
    | _, _ => Err UnmodelledAdaptation
    end
  end.
