(* ===== verification/Http.v ===== *)
(** * HTTP responses of the handlers

    What a Flask view returns, as the status code, the JSON body and the
    exception whose text the body carries; the JSON request body read as
    a dict; a stored value as the ORM hands it back to Python. *)

From S2P Require Import Prelude PyFloat PyVal Schema.

Record response := mkResponse {
  r_status : Z;
  r_body : pyval;           (** the JSON body; [PNone] for the error page *)
  r_error : option exn      (** the exception whose [str] the body carries *)
}.

Definition ok_msg (code : Z) (msg : string) : response :=
  mkResponse code (PDict [("sucesso", PBool true); ("mensagem", PStr msg)]) None.

Definition err_resp (code : Z) (e : exn) : response :=
  mkResponse code (PDict [("sucesso", PBool false)]) (Some e).

Definition not_found (msg : string) : response :=
  mkResponse 404 (PDict [("sucesso", PBool false); ("erro", PStr msg)]) None.

(** A request the handler refuses, with the message of its body. *)
Definition bad_request (msg : string) : response :=
  mkResponse 400 (PDict [("sucesso", PBool false); ("erro", PStr msg)]) None.

(** [Model.query.get_or_404(id)] on a missing key: Flask's 404 page. *)
Definition abort_404 : response := mkResponse 404 PNone None.

(** Flask's response to an exception the handler does not catch. *)
Definition server_error (e : exn) : response := mkResponse 500 PNone (Some e).

(** [request.get_json()] used as a dict: calling its method [attr]
    ([.items()], [.get()]) on anything else raises [AttributeError]. *)
Definition json_dict (attr : string) (v : pyval) : result exn dict :=
  match v with
  | PDict kvs => Ok (dict_of_pairs kvs)
  | _ => Err (AttributeError attr)
  end.

(** [dados[k]] on the JSON body: a missing key is a [KeyError], a body
    that is not an object a [TypeError]. *)
Definition json_index (v : pyval) (k : string) : result exn pyval :=
  match v with
  | PDict kvs =>
      match dict_of_pairs kvs !! k with
      | Some x => Ok x
      | None => Err (KeyError k)
      end
  | _ => Err TypeError
  end.

(** A stored value as the ORM returns it. *)
Definition py_of_db (v : dbval) : pyval :=
  match v with
  | DNull => PNone
  | DInt z => PInt z
  | DText s => PStr s
  | DFloat f => PFloat f
  end.
