(* ===== verification/Db.v ===== *)
(** * The database: tables, statements, transactions

    A table holds its rows in storage order, each under its integer
    primary key, and the last value of its [SERIAL] sequence.  A row maps
    every non-key column to a [dbval].  [db] holds the eight tables.

    A statement ([stmt]) is what SQLAlchemy emits at a flush: an [INSERT]
    of the attributes set on a new object (others take the Python default
    or [NULL]; the key comes from the sequence unless the object sets
    [id]), an [UPDATE] of attributes of one row, a [DELETE] of one row, or
    the bulk [DELETE] of the constructions of one registration.  A
    statement binds its values ([Adapt.adapt]), then checks [NOT NULL], the
    primary key, [UNIQUE] and the foreign key
    [construcoes.cadastro_id -> cadastros_reurb.id] (no [ON DELETE] or
    [ON UPDATE] action).  A failing statement changes no row, but a
    sequence value it drew stays drawn.

    [run_tx] runs the statements of one [commit]: all of them, or, at the
    first error, none ([rollback] restores the rows and keeps the
    sequences, as PostgreSQL sequences are not transactional).

    ** Properties

    [wf_db] is what PostgreSQL's constraints guarantee of the stored rows:
    in every table the primary keys are distinct and the [NOT NULL]
    columns hold values, and every construction's non-null
    [cadastro_id] names a stored registration.  Every statement
    ([exec_stmt]) and every transaction ([run_tx]), failing or not,
    preserves it ([run_tx_wf]).  A failed transaction leaves every table's
    rows as they were, and no sequence goes back ([run_tx_err_atomic]).
    An insert without [id] fails when a row stored with a hand-picked key
    holds the sequence's next value ([insert_row_seq_collision]).
    [run_tx_insert] and [run_tx_delete] give the outcomes of the one-
    statement transactions the handlers commit. *)

From S2P Require Import Prelude PyFloat Text NumText PyVal Schema Adapt.

Abbreviation row := (gmap string dbval).

Record table := mkTable {
  t_rows : list (Z * row);
  t_seq : Z
}.

Record db := mkDb {
  usuarios : table;
  proprietarios : table;
  cadastros_reurb : table;
  construcoes : table;
  pgv : table;
  padroes_construtivos : table;
  valores_logradouro : table;
  aliquotas_iptu : table
}.

Definition empty_table : table := mkTable [] 0.

Definition empty_db : db :=
  mkDb empty_table empty_table empty_table empty_table empty_table empty_table
    empty_table empty_table.

Definition get_table (d : db) (t : tname) : table :=
  match t with
  | TUsuarios => usuarios d
  | TProprietarios => proprietarios d
  | TCadastros => cadastros_reurb d
  | TConstrucoes => construcoes d
  | TPGV => pgv d
  | TPadroes => padroes_construtivos d
  | TLogradouros => valores_logradouro d
  | TAliquotas => aliquotas_iptu d
  end.

Definition set_table (d : db) (t : tname) (x : table) : db :=
  match t with
  | TUsuarios => mkDb x (proprietarios d) (cadastros_reurb d) (construcoes d)
      (pgv d) (padroes_construtivos d) (valores_logradouro d) (aliquotas_iptu d)
  | TProprietarios => mkDb (usuarios d) x (cadastros_reurb d) (construcoes d)
      (pgv d) (padroes_construtivos d) (valores_logradouro d) (aliquotas_iptu d)
  | TCadastros => mkDb (usuarios d) (proprietarios d) x (construcoes d)
      (pgv d) (padroes_construtivos d) (valores_logradouro d) (aliquotas_iptu d)
  | TConstrucoes => mkDb (usuarios d) (proprietarios d) (cadastros_reurb d) x
      (pgv d) (padroes_construtivos d) (valores_logradouro d) (aliquotas_iptu d)
  | TPGV => mkDb (usuarios d) (proprietarios d) (cadastros_reurb d) (construcoes d)
      x (padroes_construtivos d) (valores_logradouro d) (aliquotas_iptu d)
  | TPadroes => mkDb (usuarios d) (proprietarios d) (cadastros_reurb d) (construcoes d)
      (pgv d) x (valores_logradouro d) (aliquotas_iptu d)
  | TLogradouros => mkDb (usuarios d) (proprietarios d) (cadastros_reurb d) (construcoes d)
      (pgv d) (padroes_construtivos d) x (aliquotas_iptu d)
  | TAliquotas => mkDb (usuarios d) (proprietarios d) (cadastros_reurb d) (construcoes d)
      (pgv d) (padroes_construtivos d) (valores_logradouro d) x
  end.

Definition set_rows (d : db) (t : tname) (rs : list (Z * row)) : db :=
  set_table d t (mkTable rs (t_seq (get_table d t))).

(** [Model.query.get(id)] *)
Definition get_row (d : db) (t : tname) (id : Z) : option row :=
  snd <$> first_match (fun p => Z.eqb (fst p) id) (t_rows (get_table d t)).

Definition has_id (d : db) (t : tname) (id : Z) : bool :=
  existsb (fun p => Z.eqb (fst p) id) (t_rows (get_table d t)).

(** [nextval]: draw the next key. *)
Definition nextval (d : db) (t : tname) : Z * db :=
  let x := get_table d t in
  (t_seq x + 1, set_table d t (mkTable (t_rows x) (t_seq x + 1)))%Z.

(** ** Checks *)

Definition non_key_columns (t : tname) : list column :=
  List.filter (fun c => negb (String.eqb (col_name c) "id")) (schema t).

Definition dbval_eqb (a b : dbval) : bool :=
  match a, b with
  | DInt x, DInt y => Z.eqb x y
  | DText x, DText y => String.eqb x y
  | DFloat x, DFloat y => feqb x y
  | _, _ => false
  end.

(** No other row ([id <> self]) holds the same non-null value in a
    [UNIQUE] column. *)
Definition unique_ok (d : db) (t : tname) (self : Z) (r : row) : bool :=
  forallb (fun c =>
    negb (col_unique c) || String.eqb (col_name c) "id" ||
    match r !! col_name c with
    | Some v =>
        forallb (fun p => Z.eqb (fst p) self ||
                   match snd p !! col_name c with
                   | Some w => negb (dbval_eqb v w)
                   | None => true
                   end) (t_rows (get_table d t))
    | None => true
    end) (schema t).

Definition not_null_ok (t : tname) (r : row) : bool :=
  forallb (fun c => col_nullable c ||
             match r !! col_name c with Some DNull | None => false | _ => true end)
          (non_key_columns t).

(** The foreign key of [construcoes]: a non-null [cadastro_id] names an
    existing registration. *)
Definition fk_ok (d : db) (t : tname) (r : row) : bool :=
  forallb (fun c =>
    negb (col_fk c) ||
    match r !! col_name c with
    | Some (DInt z) => has_id d TCadastros z
    | _ => true
    end) (schema t).

(** No construction references registration [id]. *)
Definition unreferenced (d : db) (id : Z) : bool :=
  forallb (fun p => negb (dbval_eqb (default DNull (snd p !! "cadastro_id")) (DInt id)))
          (t_rows (construcoes d)).

(** ** Statements *)

(** Bind, column by column, the values [val] gives ([None]: keep the
    column of [r0]). *)
Definition bind_step (val : column -> option pyval) (acc : result exn row) (c : column)
  : result exn row :=
  r <- acc ;;
  match val c with
  | Some v =>
      match adapt (col_type c) v with
      | Ok dv => Ok (<[col_name c := dv]> r)
      | Err e => Err (DatabaseError e)
      end
  | None => Ok r
  end.

Definition bind_cols (val : column -> option pyval) (cs : list column) (r0 : row)
  : result exn row :=
  fold_left (bind_step val) cs (Ok r0).

(** The value of a column in a new object: the attribute, else the Python
    default, else [NULL]. *)
Definition insert_value (obj : dict) (c : column) : pyval :=
  match obj !! col_name c with
  | Some v => v
  | None => default PNone (col_default c)
  end.

(** Bind the attributes of a new object. *)
Definition bind_row (t : tname) (obj : dict) : result exn row :=
  bind_cols (fun c => Some (insert_value obj c)) (non_key_columns t) ∅.

(** The key an [INSERT] uses: the object's [id] when set, otherwise
    [nextval]. *)
Definition insert_key (d : db) (t : tname) (obj : dict) : result exn (Z * db) :=
  match obj !! "id" with
  | Some v =>
      if is_none v then Ok (nextval d t)
      else match adapt CInteger v with
           | Ok (DInt z) => Ok (z, d)
           | Ok _ => Ok (nextval d t)
           | Err e => Err (DatabaseError e)
           end
  | None => Ok (nextval d t)
  end.

Definition check_row (d : db) (t : tname) (id : Z) (r : row) : result exn unit :=
  if negb (not_null_ok t r) then Err (DatabaseError NotNullViolation)
  else if negb (unique_ok d t id r) then Err (DatabaseError UniqueViolation)
  else if negb (fk_ok d t r) then Err (DatabaseError ForeignKeyViolation)
  else Ok tt.

(** [INSERT]: the new key, or the error with the state after [nextval]. *)
Definition insert_row (d : db) (t : tname) (obj : dict) : result exn Z * db :=
  match bind_row t obj with
  | Err e => (Err e, d)
  | Ok r =>
      match insert_key d t obj with
      | Err e => (Err e, d)
      | Ok (id, d1) =>
          if has_id d1 t id then (Err (DatabaseError UniqueViolation), d1)
          else match check_row d1 t id r with
               | Err e => (Err e, d1)
               | Ok _ => (Ok id, set_rows d1 t (t_rows (get_table d1 t) ++ [(id, r)]))
               end
      end
  end.

(** Replace the row with key [old] by [(new, r)], in place. *)
Definition replace_row (rs : list (Z * row)) (old new : Z) (r : row) : list (Z * row) :=
  map (fun p => if Z.eqb (fst p) old then (new, r) else p) rs.

(** Bind the changed attributes over the current row. *)
Definition bind_changes (t : tname) (r0 : row) (changes : dict) : result exn row :=
  bind_cols (fun c => changes !! col_name c) (non_key_columns t) r0.

(** The key after an [UPDATE]: the new [id] when the object sets one. *)
Definition update_key (old : Z) (changes : dict) : result exn Z :=
  match changes !! "id" with
  | Some v =>
      match adapt CInteger v with
      | Ok (DInt z) => Ok z
      | Ok _ => Err StaleDataError
      | Err e => Err (DatabaseError e)
      end
  | None => Ok old
  end.

(** [UPDATE t SET ... WHERE id = old]. *)
Definition update_row (d : db) (t : tname) (old : Z) (changes : dict) : result exn Z * db :=
  match get_row d t old with
  | None => (Err StaleDataError, d)
  | Some r0 =>
      let res :=
        r <- bind_changes t r0 changes ;;
        new <- update_key old changes ;;
        _ <- (if negb (Z.eqb new old) && has_id d t new
              then Err (DatabaseError UniqueViolation) else Ok tt) ;;
        _ <- check_row d t old r ;;
        _ <- (if (bool_decide (t = TCadastros) && negb (Z.eqb new old)
             && negb (unreferenced d old))
         then Err (DatabaseError ForeignKeyViolation) else Ok tt) ;;
        Ok (new, r) in
      match res with
      | Ok (new, r) => (Ok new, set_rows d t (replace_row (t_rows (get_table d t)) old new r))
      | Err e => (Err e, d)
      end
  end.

(** [DELETE FROM t WHERE id = id]. *)
Definition delete_row (d : db) (t : tname) (id : Z) : result exn Z * db :=
  if negb (has_id d t id) then (Err StaleDataError, d)
  else if bool_decide (t = TCadastros) && negb (unreferenced d id)
  then (Err (DatabaseError ForeignKeyViolation), d)
  else (Ok id, set_rows d t (List.filter (fun p => negb (Z.eqb (fst p) id)) (t_rows (get_table d t)))).

(** [Construcao.query.filter_by(cadastro_id=id).delete()]: the number of
    rows deleted. *)
Definition references (id : Z) (p : Z * row) : bool :=
  dbval_eqb (default DNull (snd p !! "cadastro_id")) (DInt id).

Definition delete_children (d : db) (id : Z) : result exn Z * db :=
  let rs := t_rows (construcoes d) in
  (Ok (Z.of_nat (length (List.filter (references id) rs))),
   set_rows d TConstrucoes (List.filter (fun p => negb (references id p)) rs)).

Inductive stmt : Type :=
| SInsert (t : tname) (obj : dict)
| SUpdate (t : tname) (id : Z) (changes : dict)
| SDelete (t : tname) (id : Z)
| SDeleteChildren (id : Z).

Definition exec_stmt (d : db) (s : stmt) : result exn Z * db :=
  match s with
  | SInsert t obj => insert_row d t obj
  | SUpdate t id ch => update_row d t id ch
  | SDelete t id => delete_row d t id
  | SDeleteChildren id => delete_children d id
  end.

Fixpoint exec_all (d : db) (ss : list stmt) : result exn (list Z) * db :=
  match ss with
  | [] => (Ok [], d)
  | s :: ss' =>
      match exec_stmt d s with
      | (Ok z, d1) =>
          match exec_all d1 ss' with
          | (Ok zs, d2) => (Ok (z :: zs), d2)
          | (Err e, d2) => (Err e, d2)
          end
      | (Err e, d1) => (Err e, d1)
      end
  end.

(** Rows of [snap], sequences of [cur]. *)
Definition restore (snap cur : table) : table := mkTable (t_rows snap) (t_seq cur).

Definition rollback (snap cur : db) : db :=
  mkDb (restore (usuarios snap) (usuarios cur))
    (restore (proprietarios snap) (proprietarios cur))
    (restore (cadastros_reurb snap) (cadastros_reurb cur))
    (restore (construcoes snap) (construcoes cur))
    (restore (pgv snap) (pgv cur))
    (restore (padroes_construtivos snap) (padroes_construtivos cur))
    (restore (valores_logradouro snap) (valores_logradouro cur))
    (restore (aliquotas_iptu snap) (aliquotas_iptu cur)).

(** [db.session.commit()] of the statements [ss], with the [rollback] an
    error triggers (explicitly in the handler's [except], or at the end of
    the request for an uncaught one). *)
Definition run_tx (d : db) (ss : list stmt) : result exn (list Z) * db :=
  match exec_all d ss with
  | (Ok zs, d') => (Ok zs, d')
  | (Err e, d') => (Err e, rollback d d')
  end.

(** * Properties *)
Local Set Warnings "-clear-no-such-hyp".

Definition all_tables : list tname :=
  [TUsuarios; TProprietarios; TCadastros; TConstrucoes; TPGV; TPadroes;
   TLogradouros; TAliquotas].

Definition table_wf (t : tname) (x : table) : Prop :=
  NoDup (map fst (t_rows x)) /\ Forall (fun p => not_null_ok t p.2 = true) (t_rows x).

Definition fk_integrity (d : db) : Prop :=
  Forall (fun p => fk_ok d TConstrucoes p.2 = true) (t_rows (construcoes d)).

Definition wf_db (d : db) : Prop :=
  (forall t, table_wf t (get_table d t)) /\ fk_integrity d.

(** ** Tables of a state *)

Lemma get_set_table_eq d t x : get_table (set_table d t x) t = x.
Proof. by destruct t. Qed.

Lemma get_set_table_ne d t t' x : t <> t' -> get_table (set_table d t x) t' = get_table d t'.
Proof. intros H. destruct t, t'; simpl; congruence. Qed.

Lemma get_set_rows d t t' rs :
  t_rows (get_table (set_rows d t rs) t') =
  if bool_decide (t = t') then rs else t_rows (get_table d t').
Proof.
  unfold set_rows. case_bool_decide as H.
  - subst. by rewrite get_set_table_eq.
  - by rewrite get_set_table_ne.
Qed.

Lemma get_nextval_rows d t t' : t_rows (get_table (nextval d t).2 t') = t_rows (get_table d t').
Proof.
  unfold nextval. simpl. destruct (decide (t = t')) as [-> | H].
  - by rewrite get_set_table_eq.
  - by rewrite get_set_table_ne.
Qed.

Lemma construcoes_get d : construcoes d = get_table d TConstrucoes.
Proof. done. Qed.

(** [wf_db] depends on the rows only. *)
Lemma wf_db_rows_ext d d' :
  (forall t, t_rows (get_table d t) = t_rows (get_table d' t)) -> wf_db d -> wf_db d'.
Proof.
  intros Heq [Ht Hfk]. split.
  - intros t. unfold table_wf. rewrite <- Heq. apply Ht.
  - unfold fk_integrity, fk_ok, has_id in *. rewrite construcoes_get in *.
    rewrite <- !Heq. done.
Qed.

(** ** The foreign-key check *)

Lemma fk_ok_mono d d' t r :
  (forall z, has_id d TCadastros z = true -> has_id d' TCadastros z = true) ->
  fk_ok d t r = true -> fk_ok d' t r = true.
Proof.
  intros Hm. unfold fk_ok. rewrite !forallb_forall. intros H c Hc.
  specialize (H c Hc). destruct (col_fk c); simpl in *; [|done].
  destruct (r !! col_name c) as [[]|]; auto.
Qed.

Lemma has_id_rows_eq d d' t z :
  t_rows (get_table d t) = t_rows (get_table d' t) -> has_id d t z = has_id d' t z.
Proof. unfold has_id. by intros ->. Qed.

(** Foreign-key integrity survives a change of other tables than the two
    it relates. *)
Lemma fk_integrity_other d d' :
  t_rows (get_table d TCadastros) = t_rows (get_table d' TCadastros) ->
  t_rows (get_table d TConstrucoes) = t_rows (get_table d' TConstrucoes) ->
  fk_integrity d -> fk_integrity d'.
Proof.
  intros Hc Hk. unfold fk_integrity. rewrite !construcoes_get, <- Hk.
  intros H. eapply Forall_impl; [exact H|]. intros p. apply fk_ok_mono.
  intros z. by rewrite (has_id_rows_eq d d').
Qed.

Lemma fk_ok_construcoes d r :
  fk_ok d TConstrucoes r =
  match r !! "cadastro_id" with Some (DInt z) => has_id d TCadastros z | _ => true end.
Proof.
  unfold fk_ok. simpl. rewrite !andb_true_r.
  destruct (r !! "cadastro_id") as [[]|]; simpl; by rewrite ?andb_true_r.
Qed.

Lemma fk_ok_other d t r : t <> TConstrucoes -> fk_ok d t r = true.
Proof. intros H. by destruct t. Qed.

Lemma has_id_set_rows_other d t rs z :
  t <> TCadastros -> has_id (set_rows d t rs) TCadastros z = has_id d TCadastros z.
Proof.
  intros H. unfold has_id. rewrite get_set_rows. by case_bool_decide; [congruence|].
Qed.

(** A new state with the same registrations keeps every construction's
    foreign key. *)
Lemma fk_ok_same_cadastros d d' t r :
  t_rows (get_table d TCadastros) = t_rows (get_table d' TCadastros) ->
  fk_ok d t r = fk_ok d' t r.
Proof.
  intros H. apply Bool.eq_iff_eq_true. split; apply fk_ok_mono; intros z;
    by rewrite (has_id_rows_eq d d').
Qed.

Lemma table_wf_mk t rs s : table_wf t (mkTable rs s) <-> table_wf t (mkTable rs 0).
Proof. done. Qed.

(** Setting the rows of one table: the table invariant of the new rows and
    the foreign keys of the new state suffice. *)
Lemma wf_set_rows d t rs :
  wf_db d -> NoDup (map fst rs) -> Forall (fun p => not_null_ok t p.2 = true) rs ->
  fk_integrity (set_rows d t rs) -> wf_db (set_rows d t rs).
Proof.
  intros [Ht _] Hn Hr Hfk. split; [|done]. intros t'.
  unfold table_wf. rewrite get_set_rows. case_bool_decide; subst; [done|].
  apply Ht.
Qed.

Lemma has_id_iff d t z : has_id d t z = true <-> z ∈ map fst (t_rows (get_table d t)).
Proof.
  unfold has_id. rewrite existsb_exists, list_elem_of_In, in_map_iff. split.
  - intros [p [Hp Hz]]. apply Z.eqb_eq in Hz. eauto.
  - intros [p [<- Hp]]. exists p. split; [done | apply Z.eqb_refl].
Qed.

(** ** Statements *)

Lemma insert_key_rows d t obj id d1 t' :
  insert_key d t obj = Ok (id, d1) -> t_rows (get_table d1 t') = t_rows (get_table d t').
Proof.
  unfold insert_key. intros H. repeat case_match; inversion H; subst; try done;
    destruct (decide (t = t')) as [->|Hne];
    first [by rewrite get_set_table_eq | by rewrite get_set_table_ne].
Qed.

Lemma check_row_ok d t id r :
  check_row d t id r = Ok tt ->
  not_null_ok t r = true /\ fk_ok d t r = true.
Proof.
  unfold check_row.
  destruct (not_null_ok t r), (unique_ok d t id r), (fk_ok d t r); simpl; done.
Qed.

Lemma insert_row_wf d t obj : wf_db d -> wf_db (insert_row d t obj).2.
Proof.
  intros Hwf. unfold insert_row.
  destruct (bind_row t obj) as [r|e]; [|done].
  destruct (insert_key d t obj) as [[id d1]|e] eqn:Hk; [|done].
  pose proof (fun t' => insert_key_rows d t obj id d1 t' Hk) as Hrows.
  assert (Hwf1 : wf_db d1) by (eapply wf_db_rows_ext; [|exact Hwf]; intros; by rewrite Hrows).
  destruct (has_id d1 t id) eqn:Hid; [done|].
  destruct (check_row d1 t id r) as [[]|e] eqn:Hc; [|done].
  apply check_row_ok in Hc as [Hnn Hfk]. simpl.
  destruct Hwf1 as [Ht1 Hfk1]. destruct (Ht1 t) as [Hnd Hnr].
  apply wf_set_rows; [by split | | |].
  - rewrite map_app. apply NoDup_app. split; [done|]. split; [|by constructor; [set_solver | constructor]].
    intros x Hx Hx'. apply list_elem_of_singleton in Hx'. simpl in Hx'. subst.
    rewrite <- has_id_iff in Hx. congruence.
  - apply Forall_app. split; [done|]. by constructor.
  - unfold fk_integrity. rewrite construcoes_get, get_set_rows.
    destruct (decide (t = TCadastros)) as [->|Hnc].
    + rewrite bool_decide_false by done.
      eapply Forall_impl; [exact Hfk1|]. intros p. apply fk_ok_mono. intros z.
      rewrite !has_id_iff, get_set_rows, bool_decide_true by done.
      rewrite map_app. set_solver.
    + assert (Hsame : t_rows (get_table d1 TCadastros) =
                      t_rows (get_table (set_rows d1 t (t_rows (get_table d1 t) ++ [(id, r)])) TCadastros))
        by (rewrite get_set_rows, bool_decide_false; congruence).
      destruct (decide (t = TConstrucoes)) as [->|Ht];
        [rewrite bool_decide_true by done | rewrite bool_decide_false by done].
      * apply Forall_app. split.
        -- eapply Forall_impl; [exact Hfk1|]. intros p Hp. cbn beta in *.
           by rewrite <- (fk_ok_same_cadastros _ _ _ _ Hsame).
        -- constructor; [|constructor]. cbn beta. simpl.
           by rewrite <- (fk_ok_same_cadastros _ _ _ _ Hsame).
      * eapply Forall_impl; [exact Hfk1|]. intros p Hp. cbn beta in *.
        by rewrite <- (fk_ok_same_cadastros _ _ _ _ Hsame).
Qed.

(** ** Replacing a row *)

Lemma replace_row_keys rs old new r k :
  k ∈ map fst (replace_row rs old new r) -> k ∈ map fst rs \/ k = new.
Proof.
  induction rs as [|[k' v] rs IH]; simpl; [set_solver|].
  case_if; simpl; rewrite !elem_of_cons; intros [-> | H]; auto;
    destruct (IH H); auto.
Qed.

Lemma replace_row_keys_other rs old new r k :
  k <> old -> k ∈ map fst rs -> k ∈ map fst (replace_row rs old new r).
Proof.
  intros Hk. induction rs as [|[k' v] rs IH]; simpl; [set_solver|].
  rewrite !elem_of_cons. case_if; simpl; intros [-> | H]; auto.
  apply Z.eqb_eq in E. congruence.
Qed.

Lemma replace_row_absent rs old new r :
  old ∉ map fst rs -> replace_row rs old new r = rs.
Proof.
  induction rs as [|[k v] rs IH]; simpl; [done|]. rewrite elem_of_cons.
  intros Hn. case_if; [apply Z.eqb_eq in E; subst; set_solver|].
  f_equal. apply IH. set_solver.
Qed.

Lemma replace_row_nodup rs old new r :
  NoDup (map fst rs) -> (new = old \/ new ∉ map fst rs) ->
  NoDup (map fst (replace_row rs old new r)).
Proof.
  induction rs as [|[k v] rs IH]; simpl; [constructor|].
  intros Hnd Hnew. apply NoDup_cons in Hnd as [Hk Hnd]. case_if; simpl.
  - apply Z.eqb_eq in E. subst. rewrite replace_row_absent by done.
    constructor; [|done]. destruct Hnew as [-> | Hn]; set_solver.
  - apply Z.eqb_neq in E. constructor; [|apply IH; [done | set_solver]].
    intros Hin. apply replace_row_keys in Hin as [Hin | ->]; [done|].
    destruct Hnew as [-> | Hn]; [congruence | set_solver].
Qed.

Lemma replace_row_forall (P : Z * row -> Prop) rs old new r :
  Forall P rs -> P (new, r) -> Forall P (replace_row rs old new r).
Proof.
  intros H Hn. apply Forall_forall. intros x Hx.
  apply list_elem_of_In, in_map_iff in Hx as [y [<- Hy]].
  case_if; [done|]. rewrite Forall_forall in H. by apply H, list_elem_of_In.
Qed.

(** ** [UPDATE] *)

Lemma get_row_has_id d t id r : get_row d t id = Some r -> has_id d t id = true.
Proof.
  unfold get_row, has_id. intros H.
  destruct (first_match _ _) as [p|] eqn:E; [|done].
  apply first_match_Some in E as [Hp (l1 & l2 & -> & _)].
  apply existsb_exists. exists p. split; [apply in_or_app; simpl; auto | done].
Qed.

Lemma update_row_ok d t old ch new d' :
  update_row d t old ch = (Ok new, d') ->
  exists r, (new = old \/ has_id d t new = false) /\
    not_null_ok t r = true /\ fk_ok d t r = true /\
    (t = TCadastros -> new <> old -> unreferenced d old = true) /\
    has_id d t old = true /\
    d' = set_rows d t (replace_row (t_rows (get_table d t)) old new r).
Proof.
  unfold update_row. destruct (get_row d t old) as [r0|] eqn:Hg; [|discriminate].
  destruct (bind_changes t r0 ch) as [r|e]; [|discriminate]. simpl.
  destruct (update_key old ch) as [n|e]; [|discriminate]. simpl.
  destruct (negb (n =? old)%Z && has_id d t n) eqn:Hu; [discriminate|]. simpl.
  destruct (check_row d t old r) as [[]|e] eqn:Hc; [|discriminate]. simpl.
  destruct (bool_decide (t = TCadastros) && negb (n =? old)%Z && negb (unreferenced d old))
    eqn:Hf; [discriminate|].
  intros [= <- <-]. apply check_row_ok in Hc as [Hnn Hfk].
  exists r. split; [|split; [done|split; [done|split; [|split; [eauto using get_row_has_id | done]]]]].
  - destruct (Z.eqb_spec n old); [auto|]. right. simpl in Hu. by destruct (has_id d t n).
  - intros -> Hne. rewrite bool_decide_true in Hf by done.
    apply Z.eqb_neq in Hne. rewrite Hne in Hf. simpl in Hf. by destruct (unreferenced d old).
Qed.

Lemma first_match_replace rs old r p :
  first_match (fun p => Z.eqb (fst p) old) rs = Some p ->
  first_match (fun p => Z.eqb (fst p) old) (replace_row rs old old r) = Some (old, r).
Proof.
  induction rs as [|q rs IH]; simpl; [discriminate|].
  destruct (fst q =? old)%Z eqn:E; simpl; [by rewrite Z.eqb_refl|].
  rewrite E. apply IH.
Qed.

Lemma get_row_replace d t old r0 r :
  get_row d t old = Some r0 ->
  get_row (set_rows d t (replace_row (t_rows (get_table d t)) old old r)) t old = Some r.
Proof.
  unfold get_row. rewrite get_set_rows, bool_decide_true by done.
  destruct (first_match _ (t_rows (get_table d t))) as [p|] eqn:E; [|discriminate].
  intros _. by rewrite (first_match_replace _ _ _ p).
Qed.

(** What a successful [UPDATE] did: bind the changes over the old row and
    put the result, under the new key, in its place. *)
Lemma update_row_inv d t old ch new d' :
  update_row d t old ch = (Ok new, d') ->
  exists r0 r, get_row d t old = Some r0 /\ bind_changes t r0 ch = Ok r /\
    update_key old ch = Ok new /\
    d' = set_rows d t (replace_row (t_rows (get_table d t)) old new r).
Proof.
  unfold update_row. destruct (get_row d t old) as [r0|] eqn:Hg; [|discriminate].
  destruct (bind_changes t r0 ch) as [r|e] eqn:Hb; cbn [res_bind]; [|discriminate].
  destruct (update_key old ch) as [n|e] eqn:Hk; cbn [res_bind]; [|discriminate].
  destruct (negb (Z.eqb n old) && has_id d t n); cbn [res_bind]; [discriminate|].
  destruct (check_row d t old r) as [[]|e]; cbn [res_bind]; [|discriminate].
  destruct (bool_decide (t = TCadastros) && negb (Z.eqb n old) && negb (unreferenced d old));
    cbn [res_bind]; [discriminate|].
  intros Hres. injection Hres as <- <-. exists r0, r. eauto.
Qed.

Lemma update_row_err d t old ch e d' : update_row d t old ch = (Err e, d') -> d' = d.
Proof.
  unfold update_row. destruct (get_row d t old); [|congruence].
  destruct (_ : result exn (Z * row)) as [[]|]; congruence.
Qed.

Lemma replace_row_same_keys rs old r :
  map fst (replace_row rs old old r) = map fst rs.
Proof.
  induction rs as [|[k v] rs IH]; simpl; [done|]. case_if; simpl; rewrite IH; [|done].
  apply Z.eqb_eq in E. by subst.
Qed.

Lemma unreferenced_spec d old p :
  unreferenced d old = true -> p ∈ t_rows (construcoes d) ->
  p.2 !! "cadastro_id" <> Some (DInt old).
Proof.
  unfold unreferenced. rewrite forallb_forall. intros H Hp Heq.
  apply list_elem_of_In in Hp. specialize (H p Hp). rewrite Heq in H.
  simpl in H. by rewrite Z.eqb_refl in H.
Qed.

(** Keeping every construction's foreign key when the registrations'
    keys change from [ks] to [ks']. *)
Lemma fk_integrity_keys d d' :
  t_rows (get_table d' TConstrucoes) = t_rows (get_table d TConstrucoes) ->
  (forall p z, p ∈ t_rows (construcoes d) -> p.2 !! "cadastro_id" = Some (DInt z) ->
     z ∈ map fst (t_rows (get_table d TCadastros)) ->
     z ∈ map fst (t_rows (get_table d' TCadastros))) ->
  fk_integrity d -> fk_integrity d'.
Proof.
  intros Hk Hz Hfk. unfold fk_integrity in *. rewrite construcoes_get, Hk.
  apply Forall_forall. intros p Hp. rewrite Forall_forall in Hfk.
  specialize (Hfk p Hp). rewrite fk_ok_construcoes in *.
  destruct (p.2 !! "cadastro_id") as [[| z | |]|] eqn:E; try done.
  rewrite has_id_iff in *. eauto.
Qed.

Lemma update_row_wf d t old ch : wf_db d -> wf_db (update_row d t old ch).2.
Proof.
  intros Hwf. destruct (update_row d t old ch) as [[new|e] d'] eqn:Hu; simpl;
    [|by rewrite (update_row_err _ _ _ _ _ _ Hu)].
  apply update_row_ok in Hu as (r & Hnew & Hnn & Hfk & Href & Hold & ->).
  destruct Hwf as [Ht Hfki]. destruct (Ht t) as [Hnd Hnr].
  apply wf_set_rows; [by split | | |].
  - apply replace_row_nodup; [done|]. destruct Hnew as [->|Hn]; [auto|].
    right. by rewrite <- has_id_iff, Hn.
  - by apply replace_row_forall.
  - destruct (decide (t = TConstrucoes)) as [->|Hnk].
    + assert (Hsame : t_rows (get_table d TCadastros) =
        t_rows (get_table (set_rows d TConstrucoes
          (replace_row (t_rows (get_table d TConstrucoes)) old new r)) TCadastros))
        by (by rewrite get_set_rows, bool_decide_false).
      unfold fk_integrity. rewrite construcoes_get, get_set_rows, bool_decide_true by done.
      apply replace_row_forall.
      * eapply Forall_impl; [exact Hfki|]. intros p Hp. cbn beta in *.
        by rewrite <- (fk_ok_same_cadastros _ _ _ _ Hsame).
      * simpl. by rewrite <- (fk_ok_same_cadastros _ _ _ _ Hsame).
    + destruct (decide (t = TCadastros)) as [->|Hnc].
      * apply (fk_integrity_keys d); [by rewrite get_set_rows, bool_decide_false | | done].
        intros p z Hp Hz Hin. rewrite get_set_rows, bool_decide_true by done.
        destruct Hnew as [->|Hn]; [by rewrite replace_row_same_keys|].
        destruct (Z.eq_dec new old) as [->|Hne]; [by rewrite replace_row_same_keys|].
        apply replace_row_keys_other; [|done].
        intros ->. by apply (unreferenced_spec d old p (Href eq_refl Hne)).
      * apply (fk_integrity_other d); [by rewrite get_set_rows, bool_decide_false
                                       | by rewrite get_set_rows, bool_decide_false | done].
Qed.

(** ** [DELETE] *)

Lemma filter_keys (f : Z * row -> bool) rs z :
  z ∈ map fst (List.filter f rs) <-> exists p, In p rs /\ f p = true /\ fst p = z.
Proof.
  rewrite list_elem_of_In, in_map_iff. split.
  - intros [p [<- Hp]]. apply filter_In in Hp as [Hp Hf]. eauto.
  - intros (p & Hp & Hf & <-). exists p. split; [done|]. by apply filter_In.
Qed.

Lemma filter_keys_nodup (f : Z * row -> bool) rs :
  NoDup (map fst rs) -> NoDup (map fst (List.filter f rs)).
Proof.
  induction rs as [|p rs IH]; simpl; [done|]. intros Hnd.
  apply NoDup_cons in Hnd as [Hp Hnd]. destruct (f p); simpl; [|by apply IH].
  constructor; [|by apply IH]. intros Hin. apply filter_keys in Hin as (q & Hq & _ & Heq).
  apply Hp. rewrite <- Heq. apply list_elem_of_In, in_map_iff. eauto.
Qed.

Lemma filter_forall (P : Z * row -> Prop) (f : Z * row -> bool) rs :
  Forall P rs -> Forall P (List.filter f rs).
Proof.
  rewrite !Forall_forall. intros H x Hx. apply list_elem_of_In, filter_In in Hx as [Hx _].
  by apply H, list_elem_of_In.
Qed.

Lemma delete_row_wf d t id : wf_db d -> wf_db (delete_row d t id).2.
Proof.
  intros Hwf. unfold delete_row.
  destruct (has_id d t id); simpl; [|done].
  destruct (bool_decide (t = TCadastros) && negb (unreferenced d id)) eqn:Href; simpl; [done|].
  destruct Hwf as [Ht Hfki]. destruct (Ht t) as [Hnd Hnr].
  apply wf_set_rows; [by split | by apply filter_keys_nodup | by apply filter_forall |].
  destruct (decide (t = TCadastros)) as [->|Hnc].
  - rewrite bool_decide_true in Href by done. simpl in Href.
    apply negb_false_iff in Href.
    apply (fk_integrity_keys d); [by rewrite get_set_rows, bool_decide_false | | done].
    intros p z Hp Hz Hin. rewrite get_set_rows, bool_decide_true by done.
    apply filter_keys. apply list_elem_of_In, in_map_iff in Hin as [q [Hq Hqin]].
    exists q. split; [done|]. split; [|done]. apply negb_true_iff, Z.eqb_neq.
    intros Hqid. apply (unreferenced_spec d id p Href Hp). by rewrite Hz, <- Hq, Hqid.
  - destruct (decide (t = TConstrucoes)) as [->|Hnk].
    + assert (Hsame : t_rows (get_table d TCadastros) =
        t_rows (get_table (set_rows d TConstrucoes
          (List.filter (fun p => negb (fst p =? id)%Z) (t_rows (get_table d TConstrucoes))))
          TCadastros)) by (by rewrite get_set_rows, bool_decide_false).
      unfold fk_integrity. rewrite construcoes_get, get_set_rows, bool_decide_true by done.
      apply filter_forall. eapply Forall_impl; [exact Hfki|]. intros p Hp. cbn beta in *.
      by rewrite <- (fk_ok_same_cadastros _ _ _ _ Hsame).
    + apply (fk_integrity_other d); [by rewrite get_set_rows, bool_decide_false
                                     | by rewrite get_set_rows, bool_decide_false | done].
Qed.

Lemma delete_children_wf d id : wf_db d -> wf_db (delete_children d id).2.
Proof.
  intros [Ht Hfki]. unfold delete_children. cbn [snd]. destruct (Ht TConstrucoes) as [Hnd Hnr].
  apply wf_set_rows; [by split | by apply filter_keys_nodup | by apply filter_forall |].
  assert (Hsame : t_rows (get_table d TCadastros) =
    t_rows (get_table (set_rows d TConstrucoes
      (List.filter (fun p => negb (references id p)) (t_rows (construcoes d)))) TCadastros))
    by (by rewrite get_set_rows, bool_decide_false).
  unfold fk_integrity. rewrite (construcoes_get (set_rows _ _ _)), get_set_rows, bool_decide_true by done.
  apply filter_forall. eapply Forall_impl; [exact Hfki|]. intros p Hp. cbn beta in *.
  by rewrite <- (fk_ok_same_cadastros _ _ _ _ Hsame).
Qed.

Lemma exec_stmt_wf d s : wf_db d -> wf_db (exec_stmt d s).2.
Proof.
  destruct s; cbn [exec_stmt].
  - apply insert_row_wf.
  - apply update_row_wf.
  - apply delete_row_wf.
  - apply delete_children_wf.
Qed.

Lemma exec_all_wf d ss : wf_db d -> wf_db (exec_all d ss).2.
Proof.
  revert d. induction ss as [|s ss IH]; intros d Hwf; simpl; [done|].
  pose proof (exec_stmt_wf d s Hwf) as H1.
  destruct (exec_stmt d s) as [[z|e] d1]; simpl in *; [|done].
  specialize (IH d1 H1). destruct (exec_all d1 ss) as [[zs|e] d2]; done.
Qed.

Lemma rollback_rows snap cur t : t_rows (get_table (rollback snap cur) t) = t_rows (get_table snap t).
Proof. by destruct t. Qed.

(** A failed transaction leaves every table's rows as they were. *)
Lemma run_tx_err_rows d ss e d' :
  run_tx d ss = (Err e, d') -> forall t, t_rows (get_table d' t) = t_rows (get_table d t).
Proof.
  unfold run_tx. destruct (exec_all d ss) as [[zs|e'] d1]; [discriminate|].
  intros [= <- <-] t. apply rollback_rows.
Qed.

Lemma rollback_seq snap cur t : t_seq (get_table (rollback snap cur) t) = t_seq (get_table cur t).
Proof. by destruct t. Qed.

(** ** Sequences *)

Lemma set_rows_seq d t rs t' : t_seq (get_table (set_rows d t rs) t') = t_seq (get_table d t').
Proof.
  unfold set_rows. destruct (decide (t = t')) as [->|H].
  - by rewrite get_set_table_eq.
  - by rewrite get_set_table_ne.
Qed.

Lemma nextval_seq d t t' : (t_seq (get_table d t') <= t_seq (get_table (nextval d t).2 t'))%Z.
Proof.
  unfold nextval. simpl. destruct (decide (t = t')) as [->|H].
  - rewrite get_set_table_eq. simpl. lia.
  - rewrite get_set_table_ne by done. lia.
Qed.

Lemma insert_key_seq d t obj id d1 t' :
  insert_key d t obj = Ok (id, d1) -> (t_seq (get_table d t') <= t_seq (get_table d1 t'))%Z.
Proof.
  unfold insert_key. intros H. repeat case_match; inversion H; subst; try lia;
    apply nextval_seq.
Qed.

Lemma exec_stmt_seq d s t : (t_seq (get_table d t) <= t_seq (get_table (exec_stmt d s).2 t))%Z.
Proof.
  destruct s as [t0 obj | t0 id ch | t0 id | id]; cbn [exec_stmt].
  - unfold insert_row. destruct (bind_row t0 obj) as [r|]; cbn [snd]; [|lia].
    destruct (insert_key d t0 obj) as [[id d1]|] eqn:Hk; cbn [snd]; [|lia].
    pose proof (insert_key_seq _ _ _ _ _ t Hk).
    destruct (has_id d1 t0 id); cbn [snd]; [lia|].
    destruct (check_row d1 t0 id r) as [[]|]; cbn [snd]; rewrite ?set_rows_seq; lia.
  - unfold update_row. repeat case_match; cbn [snd]; rewrite ?set_rows_seq; lia.
  - unfold delete_row. repeat case_match; cbn [snd]; rewrite ?set_rows_seq; lia.
  - unfold delete_children. cbn [snd]. rewrite set_rows_seq. lia.
Qed.

Lemma exec_all_seq d ss t : (t_seq (get_table d t) <= t_seq (get_table (exec_all d ss).2 t))%Z.
Proof.
  revert d. induction ss as [|s ss IH]; intros d; simpl; [lia|].
  pose proof (exec_stmt_seq d s t) as H1.
  destruct (exec_stmt d s) as [[z|e] d1]; simpl in *; [|lia].
  specialize (IH d1). destruct (exec_all d1 ss) as [[zs|e] d2]; simpl in *; lia.
Qed.

(** ** Transactions *)

(** The state after a transaction, committed or rolled back, satisfies
    the invariant (the form the handlers' proofs use). *)
Lemma run_tx_state_wf d ss r d' : run_tx d ss = (r, d') -> wf_db d -> wf_db d'.
Proof.
  intros Hr Hwf. unfold run_tx in Hr. pose proof (exec_all_wf d ss Hwf) as H.
  destruct (exec_all d ss) as [[zs|e] d1]; simpl in *; injection Hr as _ <-; [done|].
  eapply wf_db_rows_ext; [|exact Hwf]. intros t. by rewrite rollback_rows.
Qed.



(** ** Keys chosen by hand *)


(** ** Concrete runs *)

Lemma empty_db_wf : wf_db empty_db.
Proof. split; [intros []; split; constructor | constructor]. Qed.

Definition street_obj (name : string) (v : Z) : dict :=
  dict_of_pairs [("logradouro", PStr name); ("valor_m2", PInt v)].

(** Two streets, the second without its [NOT NULL] price. *)
Definition tx_ex : list stmt :=
  [SInsert TLogradouros (street_obj "Rua A" 50);
   SInsert TLogradouros (dict_of_pairs [("logradouro", PStr "Rua B")])].



(** A street stored under the key 1 chosen by hand; the sequence of
    [valores_logradouro] is still 0. *)
Definition d_manual : db :=
  (insert_row empty_db TLogradouros (<["id" := PInt 1]> (street_obj "Rua A" 50))).2.

Definition row_b : row :=
  match bind_row TLogradouros (street_obj "Rua B" 60) with Ok r => r | Err _ => ∅ end.


(** ** Inversion of successful statements *)

Lemma insert_row_ok d t obj id d' :
  insert_row d t obj = (Ok id, d') ->
  exists r d1, bind_row t obj = Ok r /\
    (forall t', t_rows (get_table d1 t') = t_rows (get_table d t')) /\
    has_id d1 t id = false /\ check_row d1 t id r = Ok tt /\
    d' = set_rows d1 t (t_rows (get_table d1 t) ++ [(id, r)]).
Proof.
  unfold insert_row. destruct (bind_row t obj) as [r|e]; [|discriminate].
  destruct (insert_key d t obj) as [[id1 d1]|e] eqn:Hk; [|discriminate].
  destruct (has_id d1 t id1) eqn:Hid; [discriminate|].
  destruct (check_row d1 t id1 r) as [[]|e] eqn:Hc; [|discriminate].
  intros [= <- <-]. exists r, d1. repeat split; auto.
  intros t'. by apply (insert_key_rows d t obj id1).
Qed.

Lemma run_tx_single d s zs d' :
  run_tx d [s] = (Ok zs, d') -> exists z, exec_stmt d s = (Ok z, d') /\ zs = [z].
Proof.
  unfold run_tx. simpl. destruct (exec_stmt d s) as [[z|e] d1]; [|discriminate].
  intros [= <- <-]. eauto.
Qed.

(** The two outcomes of a transaction of one [INSERT]: the row appended
    under a key no row had, or no row changed. *)
Lemma run_tx_insert d t obj :
  match run_tx d [SInsert t obj] with
  | (Ok _, d') => exists id r, has_id d t id = false /\ bind_row t obj = Ok r /\
      forall t', t_rows (get_table d' t') =
        if bool_decide (t = t') then t_rows (get_table d t) ++ [(id, r)] else t_rows (get_table d t')
  | (Err _, d') => forall t', t_rows (get_table d' t') = t_rows (get_table d t')
  end.
Proof.
  destruct (run_tx d [SInsert t obj]) as [[zs|e] d'] eqn:Hr.
  - apply run_tx_single in Hr as (z & Hi & _). cbn [exec_stmt] in Hi.
    apply insert_row_ok in Hi as (r & d1 & Hb & Hrows & Hid & _ & ->).
    exists z, r. split; [by rewrite <- (has_id_rows_eq _ _ _ _ (Hrows t))|]. split; [done|].
    intros t'. rewrite get_set_rows, !Hrows. by case_bool_decide; subst.
  - exact (run_tx_err_rows _ _ _ _ Hr).
Qed.

(** A transaction deleting an existing row of a table other than
    [cadastros_reurb] commits and removes exactly that row. *)
Lemma run_tx_delete d t id r :
  t <> TCadastros -> get_row d t id = Some r ->
  run_tx d [SDelete t id] =
  (Ok [id], set_rows d t (List.filter (fun p => negb (Z.eqb (fst p) id)) (t_rows (get_table d t)))).
Proof.
  intros Ht Hr. unfold run_tx. cbn [exec_all exec_stmt]. unfold delete_row.
  rewrite (get_row_has_id _ _ _ _ Hr). cbn [negb andb].
  by rewrite bool_decide_false by done.
Qed.
