(* ===== verification/Binding.v ===== *)
(** * Binding the attributes of an object to the columns of a row

    [bind_cols] adapts, column by column, the values an object gives and
    stops at the first value the column's type rejects.  The lemmas say
    what a successful binding stored ([bind_cols_spec]), when binding
    cannot fail ([bind_cols_total]), and what binding a single change
    gives ([bind_changes_single]). *)

From S2P Require Import Prelude PyFloat PyVal Schema Adapt Db.
Local Set Warnings "-clear-no-such-hyp".

Lemma bind_cols_err val cs e : fold_left (bind_step val) cs (Err e) = Err e.
Proof. induction cs; simpl; auto. Qed.

Lemma bind_cols_spec val cs r0 r :
  NoDup (map col_name cs) -> bind_cols val cs r0 = Ok r ->
  (forall c v, c ∈ cs -> val c = Some v ->
     exists dv, adapt (col_type c) v = Ok dv /\ r !! col_name c = Some dv) /\
  (forall k, (forall c, c ∈ cs -> val c <> None -> col_name c <> k) -> r !! k = r0 !! k).
Proof.
  unfold bind_cols. revert r0. induction cs as [|c cs IH]; intros r0 Hnd H;
    cbn [fold_left map] in *.
  - injection H as ->. split; [intros ?? Hc; inversion Hc | done].
  - apply NoDup_cons in Hnd as [Hc Hnd].
    destruct (val c) as [v|] eqn:Hv.
    + destruct (adapt (col_type c) v) as [dv|e] eqn:Ha.
      2: { assert (Hs : bind_step val (Ok r0) c = Err (DatabaseError e))
             by (unfold bind_step; simpl; by rewrite Hv, Ha).
           by rewrite Hs, bind_cols_err in H. }
      assert (Hs : bind_step val (Ok r0) c = Ok (<[col_name c := dv]> r0))
        by (unfold bind_step; simpl; by rewrite Hv, Ha).
      rewrite Hs in H. destruct (IH _ Hnd H) as [H1 H2]. split.
      * intros c' v' Hin Hv'. apply elem_of_cons in Hin as [-> | Hin]; [|eauto].
        rewrite Hv in Hv'. injection Hv' as <-. exists dv. split; [done|].
        rewrite H2; [by rewrite lookup_insert_eq|].
        intros c'' Hin _ Heq. apply Hc. rewrite <- Heq. by apply list_elem_of_fmap_2.
      * intros k Hk. rewrite H2.
        -- apply lookup_insert_ne. apply (Hk c); [set_solver | congruence].
        -- intros c'' Hin. apply Hk. set_solver.
    + assert (Hs : bind_step val (Ok r0) c = Ok r0)
        by (unfold bind_step; simpl; by rewrite Hv).
      rewrite Hs in H. destruct (IH _ Hnd H) as [H1 H2]. split.
      * intros c' v' Hin Hv'. apply elem_of_cons in Hin as [-> | Hin]; [congruence | eauto].
      * intros k Hk. apply H2. intros c'' Hin. apply Hk. set_solver.
Qed.

Lemma nodup_map_eq {A B} (f : A -> B) (l : list A) x y :
  NoDup (map f l) -> x ∈ l -> y ∈ l -> f x = f y -> x = y.
Proof.
  induction l as [|z l IH]; simpl; [set_solver|]. intros Hnd Hx Hy Hf.
  apply NoDup_cons in Hnd as [Hz Hnd].
  apply elem_of_cons in Hx as [-> | Hx], Hy as [-> | Hy]; auto.
  - exfalso. apply Hz. rewrite Hf. by apply list_elem_of_fmap_2.
  - exfalso. apply Hz. rewrite <- Hf. by apply list_elem_of_fmap_2.
Qed.

Lemma bind_cols_total val cs r0 :
  (forall c v, c ∈ cs -> val c = Some v -> exists dv, adapt (col_type c) v = Ok dv) ->
  exists r, bind_cols val cs r0 = Ok r.
Proof.
  unfold bind_cols. revert r0. induction cs as [|c cs IH]; intros r0 H; cbn [fold_left].
  - eauto.
  - assert (Hcs : forall c' v, c' ∈ cs -> val c' = Some v -> exists dv, adapt (col_type c') v = Ok dv)
      by (intros; apply (H c'); [set_solver | done]).
    destruct (val c) as [v|] eqn:Hv.
    + destruct (H c v) as [dv Ha]; [set_solver | done|].
      assert (Hs : bind_step val (Ok r0) c = Ok (<[col_name c := dv]> r0))
        by (unfold bind_step; simpl; by rewrite Hv, Ha).
      rewrite Hs. by apply IH.
    + assert (Hs : bind_step val (Ok r0) c = Ok r0) by (unfold bind_step; simpl; by rewrite Hv).
      rewrite Hs. by apply IH.
Qed.

(** Binding a one-key change. *)
Lemma bind_changes_single t r c v dv :
  NoDup (map col_name (non_key_columns t)) -> c ∈ non_key_columns t ->
  adapt (col_type c) v = Ok dv ->
  bind_changes t r (<[col_name c := v]> ∅) = Ok (<[col_name c := dv]> r).
Proof.
  intros Hnd Hc Ha. unfold bind_changes.
  assert (Hval : forall c', c' ∈ non_key_columns t ->
            (<[col_name c := v]> ∅ : dict) !! col_name c' <> None -> col_name c' = col_name c).
  { intros c' _ Hne. destruct (decide (col_name c' = col_name c)) as [E|E]; [done|].
    rewrite lookup_insert_ne, lookup_empty in Hne by done. congruence. }
  destruct (bind_cols_total (fun c' => (<[col_name c := v]> ∅ : dict) !! col_name c')
              (non_key_columns t) r) as [r' Hb].
  { intros c' v' Hin Hv'. assert (Hn : col_name c' = col_name c)
      by (apply Hval; [done | congruence]).
    rewrite Hn, lookup_insert_eq in Hv'. injection Hv' as <-.
    rewrite (nodup_map_eq col_name (non_key_columns t) c' c Hnd Hin Hc Hn). eauto. }
  rewrite Hb. f_equal.
  destruct (bind_cols_spec _ _ _ _ Hnd Hb) as [H1 H2]. apply map_eq. intros j.
  destruct (decide (j = col_name c)) as [->|Hj].
  - rewrite lookup_insert_eq. destruct (H1 c v Hc) as (dv' & Ha' & Hr'); [by rewrite lookup_insert_eq|].
    congruence.
  - rewrite lookup_insert_ne by done. apply H2. intros c' Hin Hne Heq.
    apply Hj. rewrite <- Heq. by apply Hval.
Qed.
