(* ===== verification/Valuation.v ===== *)
(** * The valuation engine: [listar_cadastros_reurb] ([app.py] 234-268)

    For every registration the listing computes the land value [vvt]
    (lot area times the price per m2 of the first [valores_logradouro] row
    whose [logradouro] equals the property's street), the construction
    value [vvc] (built area times the price of the first
    [padroes_construtivos] row whose [descricao] equals the construction
    standard), their sum [vvi], and the tax [iptu] ([vvi] times the rate of
    the first [aliquotas_iptu] row whose [tipo] matches
    [ILIKE '%<uso>%'], divided by 100).  Missing inputs or missing rows give
    [0.0].  The [try]/[except] of the handler keeps the values computed
    before an error and leaves the others at [0.0]; the only query that
    can fail in the model is the [ILIKE] one.

    The registration is read through [cad_view], the columns the handler
    reads; the reference tables through [ref_tables], each a list of rows
    in storage order ([.first()] has no [ORDER BY]). *)

From S2P Require Import Prelude PyFloat Text.
Local Open Scope Q_scope.

(** ** Data *)

(** A [ValorLogradouro] row ([app.py] 117-121). *)
Record valor_logradouro := mkValorLogradouro {
  vl_id : Z;
  vl_logradouro : string;
  vl_valor_m2 : pyfloat
}.

(** A [PadraoConstrutivo] row ([app.py] 111-115). *)
Record padrao_construtivo := mkPadraoConstrutivo {
  pc_id : Z;
  pc_descricao : string;
  pc_valor_m2 : pyfloat
}.

(** An [AliquotaIPTU] row ([app.py] 123-127). *)
Record aliquota_iptu := mkAliquotaIPTU {
  al_id : Z;
  al_tipo : string;
  al_aliquota : pyfloat
}.

Record ref_tables := mkRefTables {
  valores_logradouro : list valor_logradouro;
  padroes_construtivos : list padrao_construtivo;
  aliquotas_iptu : list aliquota_iptu
}.

(** The columns of a [CadastroReurb] row ([app.py] 43-92) that the
    listing reads; [None] is SQL [NULL]. *)
Record cad_view := mkCadView {
  cv_id : Z;
  cv_req_nome : option string;
  cv_req_cpf : option string;
  cv_req_rg : option string;
  cv_req_telefone : option string;
  cv_req_email : option string;
  cv_imovel_logradouro : option string;
  cv_imovel_numero : option string;
  cv_inscricao_imobiliaria : option string;
  cv_imovel_area_total : option pyfloat;
  cv_imovel_area_construida : option pyfloat;
  cv_imovel_uso : option string;
  cv_imovel_tipo_construcao : option string;
  cv_reurb_renda_familiar : option pyfloat
}.

(** ** Python truthiness of nullable columns *)

Definition truthy_str (o : option string) : bool :=
  match o with Some s => negb (String.eqb s "") | None => false end.

Definition truthy_float (o : option pyfloat) : bool :=
  match o with Some f => ftruthy f | None => false end.

(** [x or ''] *)
Definition or_empty (o : option string) : string :=
  match o with Some s => s | None => "" end.

(** ** Queries *)

(** [ValorLogradouro.query.filter_by(logradouro=l).first()] *)
Definition find_logradouro (T : ref_tables) (l : string) : option valor_logradouro :=
  first_match (fun r => String.eqb (vl_logradouro r) l) (valores_logradouro T).

(** [PadraoConstrutivo.query.filter_by(descricao=d).first()] *)
Definition find_padrao (T : ref_tables) (d : string) : option padrao_construtivo :=
  first_match (fun r => String.eqb (pc_descricao r) d) (padroes_construtivos T).

(** [AliquotaIPTU.query.filter(AliquotaIPTU.tipo.ilike(pat)).first()]: the
    scan stops at the first matching row; a row on which [ILIKE] raises
    makes the query raise ([None]). *)
Fixpoint first_ilike (pat : string) (rows : list aliquota_iptu)
  : option (option aliquota_iptu) :=
  match rows with
  | [] => Some None
  | r :: rs =>
      match ilike (al_tipo r) pat with
      | None => None
      | Some true => Some (Some r)
      | Some false => first_ilike pat rs
      end
  end.

Definition find_aliquota (T : ref_tables) (uso : string) : option (option aliquota_iptu) :=
  first_ilike ("%" +:+ uso +:+ "%") (aliquotas_iptu T).

(** ** The computation of one listing entry (lines 240-251) *)

(** Lines 242-244. *)
Definition calc_vvt (T : ref_tables) (c : cad_view) : pyfloat :=
  match cv_imovel_logradouro c, cv_imovel_area_total c with
  | Some l, Some a =>
      if truthy_str (Some l) && ftruthy a then
        match find_logradouro T l with
        | Some v => a *f vl_valor_m2 v
        | None => Fin 0
        end
      else Fin 0
  | _, _ => Fin 0
  end.

(** Lines 245-247. *)
Definition calc_vvc (T : ref_tables) (c : cad_view) : pyfloat :=
  match cv_imovel_tipo_construcao c, cv_imovel_area_construida c with
  | Some d, Some a =>
      if truthy_str (Some d) && ftruthy a then
        match find_padrao T d with
        | Some p => a *f pc_valor_m2 p
        | None => Fin 0
        end
      else Fin 0
  | _, _ => Fin 0
  end.

(** Lines 249-251: [iptu] for a given [vvi].  A failing query or division
    is caught by the [except] of line 252 and leaves [iptu] at [0.0]. *)
Definition calc_iptu (T : ref_tables) (c : cad_view) (vvi : pyfloat) : pyfloat :=
  match cv_imovel_uso c with
  | Some u =>
      if truthy_str (Some u) && flt (Fin 0) vvi then
        match find_aliquota T u with
        | Some (Some a) =>
            match fdiv (al_aliquota a) (Fin 100) with
            | Some rate => vvi *f rate
            | None => Fin 0
            end
        | Some None => Fin 0
        | None => Fin 0
        end
      else Fin 0
  | None => Fin 0
  end.

Record valuation := mkValuation {
  vvt : pyfloat;
  vvc : pyfloat;
  vvi : pyfloat;
  iptu : pyfloat
}.

(** Lines 240-251. *)
Definition valuate (T : ref_tables) (c : cad_view) : valuation :=
  let t := calc_vvt T c in
  let v := calc_vvc T c in
  let i := t +f v in
  mkValuation t v i (calc_iptu T c i).

(** Line 266. *)
Definition tipo_reurb (renda : option pyfloat) : string :=
  if truthy_float renda &&
     match renda with Some r => fle r (Fin 4000) | None => false end
  then "REURB-S" else "REURB-E".

(** Line 258. *)
Definition endereco (c : cad_view) : string :=
  or_empty (cv_imovel_logradouro c) +:+ ", " +:+ or_empty (cv_imovel_numero c).

(** The dictionary appended at lines 255-267. *)
Record list_item := mkListItem {
  li_id : Z;
  li_nome : option string;
  li_cpf : option string;
  li_rg : option string;
  li_telefone : option string;
  li_email : option string;
  li_endereco : string;
  li_inscricao_imobiliaria : option string;
  li_area_total : option pyfloat;
  li_area_construida : option pyfloat;
  li_renda_familiar : option pyfloat;
  li_vvt : pyfloat;
  li_vvc : pyfloat;
  li_vvi : pyfloat;
  li_iptu : pyfloat;
  li_tipo_reurb : string
}.

Definition list_item_of (T : ref_tables) (c : cad_view) : list_item :=
  let v := valuate T c in
  mkListItem (cv_id c) (cv_req_nome c) (cv_req_cpf c) (cv_req_rg c)
    (cv_req_telefone c) (cv_req_email c) (endereco c)
    (cv_inscricao_imobiliaria c) (cv_imovel_area_total c)
    (cv_imovel_area_construida c) (cv_reurb_renda_familiar c)
    (vvt v) (vvc v) (vvi v) (iptu v) (tipo_reurb (cv_reurb_renda_familiar c)).

(** [listar_cadastros_reurb]: one entry per row, in the order of the
    scan. *)
Definition listar_cadastros_reurb (T : ref_tables) (cads : list cad_view) : list list_item :=
  map (list_item_of T) cads.

(** ** Lookups *)

Lemma find_logradouro_first T l pre r post :
  valores_logradouro T = pre ++ r :: post ->
  vl_logradouro r = l -> Forall (fun r' => vl_logradouro r' <> l) pre ->
  find_logradouro T l = Some r.
Proof.
  intros HT Hr Hpre. unfold find_logradouro. rewrite HT.
  apply first_match_split.
  - eapply Forall_impl; [exact Hpre|]. intros y Hy. by apply String.eqb_neq.
  - by apply String.eqb_eq.
Qed.

Lemma find_logradouro_absent T l :
  Forall (fun r => vl_logradouro r <> l) (valores_logradouro T) ->
  find_logradouro T l = None.
Proof.
  intros H. apply first_match_None. eapply Forall_impl; [exact H|].
  intros y Hy. by apply String.eqb_neq.
Qed.

(** The tax-rate query, for a usage without wildcards, is the first row
    whose label contains the usage ignoring case. *)
Lemma first_ilike_contains u rows :
  starts_clean (bytes u) = true -> no_wildcards (chars u) = true ->
  first_ilike ("%" +:+ u +:+ "%") rows =
  Some (first_match (fun r => contains_ci (al_tipo r) u) rows).
Proof.
  intros Hc Hw. induction rows as [|r rows IH]; simpl; [done|].
  rewrite ilike_wrap_contains by done.
  by destruct (contains_ci (al_tipo r) u).
Qed.

Lemma truthy_str_Some s : truthy_str (Some s) = true <-> s <> "".
Proof.
  simpl. rewrite negb_true_iff. split.
  - intros H ->. done.
  - intros H. by apply String.eqb_neq.
Qed.

Lemma find_padrao_first T d pre p post :
  padroes_construtivos T = pre ++ p :: post ->
  pc_descricao p = d -> Forall (fun p' => pc_descricao p' <> d) pre ->
  find_padrao T d = Some p.
Proof.
  intros HT Hp Hpre. unfold find_padrao. rewrite HT.
  apply first_match_split.
  - eapply Forall_impl; [exact Hpre|]. intros y Hy. by apply String.eqb_neq.
  - by apply String.eqb_eq.
Qed.

(** ** Land and construction values *)

Lemma calc_vvt_first T c l a pre r post :
  cv_imovel_logradouro c = Some l -> l <> "" ->
  cv_imovel_area_total c = Some a -> ftruthy a = true ->
  valores_logradouro T = pre ++ r :: post -> vl_logradouro r = l ->
  Forall (fun r' => vl_logradouro r' <> l) pre ->
  calc_vvt T c = a *f vl_valor_m2 r.
Proof.
  intros Hl Hne Ha Hta HT Hr Hpre. unfold calc_vvt. rewrite Hl, Ha.
  apply truthy_str_Some in Hne as ->. rewrite Hta.
  by rewrite (find_logradouro_first T l pre r post).
Qed.

Lemma calc_vvc_first T c d b pre p post :
  cv_imovel_tipo_construcao c = Some d -> d <> "" ->
  cv_imovel_area_construida c = Some b -> ftruthy b = true ->
  padroes_construtivos T = pre ++ p :: post -> pc_descricao p = d ->
  Forall (fun p' => pc_descricao p' <> d) pre ->
  calc_vvc T c = b *f pc_valor_m2 p.
Proof.
  intros Hd Hne Hb Htb HT Hp Hpre. unfold calc_vvc. rewrite Hd, Hb.
  apply truthy_str_Some in Hne as ->. rewrite Htb.
  by rewrite (find_padrao_first T d pre p post).
Qed.

(** ** Tax *)

Lemma rate_of_percent p : in_range p -> fdiv (Fin p) (Fin 100) = Some (Fin (p / 100)).
Proof.
  intros [Hlo Hhi]. simpl. rewrite of_Q_in_range; [done|].
  pose proof overflow_threshold_pos. split.
  - apply Qlt_shift_div_l; [reflexivity|]. nra.
  - apply Qlt_shift_div_r; [reflexivity|]. nra.
Qed.

(** ** Properties of the listing *)

(** C1.  Land value: when the property has a non-empty street and a
    non-zero lot area [a], and the first [valores_logradouro] row (in
    storage order) named exactly like the street has price [v], the listed
    [vvt] is [a * v] (exactly, when the product is within float range). *)
Theorem vvt_street_rate T c l a pre r post v :
  cv_imovel_logradouro c = Some l -> l <> "" ->
  cv_imovel_area_total c = Some (Fin a) -> ~ a == 0 ->
  valores_logradouro T = pre ++ r :: post -> vl_logradouro r = l ->
  Forall (fun r' => vl_logradouro r' <> l) pre ->
  vl_valor_m2 r = Fin v -> in_range (a * v) ->
  vvt (valuate T c) = Fin (a * v).
Proof.
  intros Hl Hne Ha Ha0 HT Hr Hpre Hv Hrange. simpl.
  rewrite (calc_vvt_first T c l (Fin a) pre r post) by (done || by apply ftruthy_Fin).
  rewrite Hv. by apply fmul_fin.
Qed.

(** C3.  Zero default of the land value: with no street, an empty street,
    a null or zero lot area, or a street that no [valores_logradouro] row
    names, [vvt] is [0.0]. *)
Theorem vvt_zero_default T c :
  cv_imovel_logradouro c = None \/ cv_imovel_logradouro c = Some "" \/
  truthy_float (cv_imovel_area_total c) = false \/
  (exists l, cv_imovel_logradouro c = Some l /\
             Forall (fun r => vl_logradouro r <> l) (valores_logradouro T)) ->
  vvt (valuate T c) = Fin 0.
Proof.
  simpl. unfold calc_vvt.
  intros [H | [H | [H | (l & H & Habs)]]]; rewrite ?H; [done | |..].
  - by destruct (cv_imovel_area_total c).
  - destruct (cv_imovel_logradouro c), (cv_imovel_area_total c); simpl in *;
      try done. rewrite H. by rewrite andb_false_r.
  - destruct (cv_imovel_area_total c); [|done].
    rewrite find_logradouro_absent by done. by destruct (_ && _).
Qed.

(** C2.  Total value: with a priced street and a priced construction
    standard, the listing's [vvt], [vvc] and [vvi] are [a * v], [b * w]
    and their exact sum [a * v + b * w] (no overflow). *)
Theorem valuate_total T c l a pre r post v d b pre' p post' w :
  cv_imovel_logradouro c = Some l -> l <> "" ->
  cv_imovel_area_total c = Some (Fin a) -> ~ a == 0 ->
  valores_logradouro T = pre ++ r :: post -> vl_logradouro r = l ->
  Forall (fun r' => vl_logradouro r' <> l) pre -> vl_valor_m2 r = Fin v ->
  cv_imovel_tipo_construcao c = Some d -> d <> "" ->
  cv_imovel_area_construida c = Some (Fin b) -> ~ b == 0 ->
  padroes_construtivos T = pre' ++ p :: post' -> pc_descricao p = d ->
  Forall (fun p' => pc_descricao p' <> d) pre' -> pc_valor_m2 p = Fin w ->
  in_range (a * v) -> in_range (b * w) -> in_range (a * v + b * w) ->
  vvt (valuate T c) = Fin (a * v) /\ vvc (valuate T c) = Fin (b * w) /\
  vvi (valuate T c) = Fin (a * v + b * w).
Proof.
  intros Hl Hl0 Ha Ha0 HT Hr Hpre Hv Hd Hd0 Hb Hb0 HP Hp Hpre' Hw R1 R2 R3.
  simpl.
  rewrite (calc_vvt_first T c l (Fin a) pre r post) by (done || by apply ftruthy_Fin).
  rewrite (calc_vvc_first T c d (Fin b) pre' p post') by (done || by apply ftruthy_Fin).
  rewrite Hv, Hw, !fmul_fin by done. split; [done | split; [done|]].
  by apply fadd_fin.
Qed.

(** C4.  The tax-rate lookup refines the abstract contract "the first
    [aliquotas_iptu] row whose label contains the usage, ignoring case":
    for a well-formed usage without [%], [_] or [\] the query never fails
    and returns exactly that row.  The match direction is label-contains-
    usage. *)
Theorem find_aliquota_contains T u :
  starts_clean (bytes u) = true -> no_wildcards (chars u) = true ->
  find_aliquota T u =
  Some (first_match (fun r => contains_ci (al_tipo r) u) (aliquotas_iptu T)).
Proof. intros Hc Hw. by apply first_ilike_contains. Qed.

(** C5.  Tax: when the usage [u] is non-empty and has no wildcard, [vvi]
    is positive, and the first tax row whose label contains [u] (ignoring
    case) has rate [p] percent, [iptu] is [vvi * (p / 100)]. *)
Theorem iptu_rate T c u pre r post p :
  cv_imovel_uso c = Some u -> u <> "" ->
  starts_clean (bytes u) = true -> no_wildcards (chars u) = true ->
  flt (Fin 0) (vvi (valuate T c)) = true ->
  aliquotas_iptu T = pre ++ r :: post -> contains_ci (al_tipo r) u = true ->
  Forall (fun r' => contains_ci (al_tipo r') u = false) pre ->
  al_aliquota r = Fin p -> in_range p ->
  iptu (valuate T c) = vvi (valuate T c) *f Fin (p / 100).
Proof.
  intros Hu Hu0 Hc Hw Hpos HT Hr Hpre Hp Hrange.
  unfold valuate in *. cbn [vvi iptu] in *.
  unfold calc_iptu. rewrite Hu. apply truthy_str_Some in Hu0 as ->.
  rewrite Hpos. cbn [andb]. unfold find_aliquota.
  rewrite first_ilike_contains by done. rewrite HT, first_match_split by done.
  by rewrite Hp, rate_of_percent.
Qed.

(** C6.  Zero tax: with no usage, an empty usage, a [vvi] that is not
    positive (zero, negative or NaN), or a wildcard-free usage that no tax
    label contains, [iptu] is [0.0]. *)
Theorem iptu_zero_default T c :
  cv_imovel_uso c = None \/ cv_imovel_uso c = Some "" \/
  flt (Fin 0) (vvi (valuate T c)) = false \/
  (exists u, cv_imovel_uso c = Some u /\
     starts_clean (bytes u) = true /\ no_wildcards (chars u) = true /\
     Forall (fun r => contains_ci (al_tipo r) u = false) (aliquotas_iptu T)) ->
  iptu (valuate T c) = Fin 0.
Proof.
  unfold valuate. cbn [vvi iptu]. unfold calc_iptu.
  intros [H | [H | [H | (u & H & Hc & Hw & Habs)]]]; rewrite ?H; [done | done | |].
  - destruct (cv_imovel_uso c); [|done]. by rewrite andb_false_r.
  - unfold find_aliquota. rewrite first_ilike_contains by done.
    apply first_match_None in Habs. rewrite Habs. by destruct (_ && _).
Qed.

(** C7.  Classification of a finite income [r]: "REURB-S" exactly when
    [r] is non-zero and at most 4000.  A zero income is classified
    "REURB-E", because the code tests the income's truthiness. *)
Theorem tipo_reurb_finite r :
  tipo_reurb (Some (Fin r)) = "REURB-S" <-> ~ r == 0 /\ r <= 4000.
Proof.
  unfold tipo_reurb. cbn [truthy_float].
  rewrite <- ftruthy_Fin, <- fle_Fin.
  destruct (ftruthy (Fin r)), (fle (Fin r) (Fin 4000)); simpl;
    intuition congruence.
Qed.

(** ** Concrete runs *)

Definition T_ex : ref_tables :=
  mkRefTables
    [mkValorLogradouro 1 "Rua B" (Fin 20); mkValorLogradouro 2 "Rua A" (Fin 50)]
    [mkPadraoConstrutivo 1 "Alvenaria" (Fin 800)]
    [mkAliquotaIPTU 1 "Terreno" (Fin 2); mkAliquotaIPTU 2 "Residencial" (Fin 1)].

Definition cad_ana : cad_view :=
  mkCadView 1 (Some "Ana") None None None None (Some "Rua A") (Some "10") None
    (Some (Fin 100)) (Some (Fin 50)) (Some "residencial") (Some "Alvenaria")
    (Some (Fin 4000)).

Lemma in_range_ex (q : Q) : Qle_bool 0 q = true -> Qle_bool q (10 ^ 9) = true -> in_range q.
Proof.
  intros H1 H2. apply Qle_bool_iff in H1, H2.
  assert (Ho : 10 ^ 9 < overflow_threshold) by (apply Qltb_iff; vm_compute; reflexivity).
  split; lra.
Qed.

(** Side conditions of the witnesses, on concrete data. *)
Ltac concrete_side :=
  first [ reflexivity | discriminate
        | (let H := fresh in intro H; vm_compute in H; discriminate H)
        | (repeat constructor; simpl; discriminate)
        | (repeat constructor; fail)
        | (apply in_range_ex; reflexivity) ].

(** Witness of C1: the spec's scenario, a lot of 100 m2 on "Rua A" priced
    50 per m2 is valued 5000, although a cheaper street comes first. *)
Lemma vvt_street_rate_witness : vvt (valuate T_ex cad_ana) = Fin (100 * 50).
Proof.
  apply (vvt_street_rate T_ex cad_ana "Rua A" 100
           [mkValorLogradouro 1 "Rua B" (Fin 20)] (mkValorLogradouro 2 "Rua A" (Fin 50)) [] 50);
    concrete_side.
Defined.

(** Witness of C3: a street absent from the table. *)
Lemma vvt_zero_default_witness :
  vvt (valuate T_ex {| cv_id := 2; cv_req_nome := None; cv_req_cpf := None;
         cv_req_rg := None; cv_req_telefone := None; cv_req_email := None;
         cv_imovel_logradouro := Some "Rua Z"; cv_imovel_numero := None;
         cv_inscricao_imobiliaria := None; cv_imovel_area_total := Some (Fin 100);
         cv_imovel_area_construida := None; cv_imovel_uso := None;
         cv_imovel_tipo_construcao := None; cv_reurb_renda_familiar := None |})
  = Fin 0.
Proof.
  apply vvt_zero_default. right. right. right. exists "Rua Z". split; [reflexivity|].
  repeat constructor; simpl; discriminate.
Defined.

(** Witness of C2. *)
Lemma valuate_total_witness :
  vvt (valuate T_ex cad_ana) = Fin (100 * 50) /\
  vvc (valuate T_ex cad_ana) = Fin (50 * 800) /\
  vvi (valuate T_ex cad_ana) = Fin (100 * 50 + 50 * 800).
Proof.
  apply (valuate_total T_ex cad_ana "Rua A" 100
           [mkValorLogradouro 1 "Rua B" (Fin 20)] (mkValorLogradouro 2 "Rua A" (Fin 50)) [] 50
           "Alvenaria" 50 [] (mkPadraoConstrutivo 1 "Alvenaria" (Fin 800)) [] 800);
    concrete_side.
Defined.

(** Witness of C4: "residencial" finds the "Residencial" row. *)
Lemma find_aliquota_contains_witness :
  find_aliquota T_ex "residencial" = Some (Some (mkAliquotaIPTU 2 "Residencial" (Fin 1))).
Proof.
  rewrite (find_aliquota_contains T_ex "residencial"); reflexivity.
Defined.

(** Witness of C5. *)
Lemma iptu_rate_witness :
  iptu (valuate T_ex cad_ana) = vvi (valuate T_ex cad_ana) *f Fin (1 / 100).
Proof.
  apply (iptu_rate T_ex cad_ana "residencial" [mkAliquotaIPTU 1 "Terreno" (Fin 2)]
           (mkAliquotaIPTU 2 "Residencial" (Fin 1)) [] 1);
    try concrete_side; vm_compute; reflexivity.
Defined.

(** Witness of C6: a usage that no label contains. *)
Lemma iptu_zero_default_witness :
  iptu (valuate T_ex {| cv_id := 3; cv_req_nome := None; cv_req_cpf := None;
         cv_req_rg := None; cv_req_telefone := None; cv_req_email := None;
         cv_imovel_logradouro := Some "Rua A"; cv_imovel_numero := None;
         cv_inscricao_imobiliaria := None; cv_imovel_area_total := Some (Fin 10);
         cv_imovel_area_construida := None; cv_imovel_uso := Some "Comercial";
         cv_imovel_tipo_construcao := None; cv_reurb_renda_familiar := None |})
  = Fin 0.
Proof.
  apply iptu_zero_default. right. right. right. exists "Comercial".
  split; [reflexivity|]. split; [reflexivity|]. split; [reflexivity|].
  repeat constructor.
Defined.

