(* ===== verification/Cadastro.v ===== *)
(** * Registration handlers ([app.py] 211-317)

    Each handler is a function from the request and the database to the
    response and the new database:
    - [novo_cadastro_reurb] (211-232): keep the keys that are columns
      ([id] included), coerce the three numeric fields, insert, commit;
      an [OverflowError] of the coercion escapes before the [try] (an
      uncaught 500), a database error is caught and rolled back.
    - [obter_cadastro_reurb] (270-279): 404 or every column of the row.
    - [atualizar_cadastro_reurb] (281-303): 404, or set every supplied key
      the object has as an attribute (numeric fields coerced first) and
      commit; any error inside the [try] rolls back.  Assigning the
      relationship [construcoes] (the backref of 103) an empty list
      orphans, hence deletes, every construction of the registration;
      any other value for it raises.
    - [excluir_cadastro_reurb] (305-317): 404, or delete the constructions
      of the registration and the registration, in one transaction.

    An uncaught exception is Flask's 500 error page; the request's session
    is then rolled back when the application context ends.

    ** Properties

    What [novo_cadastro_reurb], [atualizar_cadastro_reurb],
    [excluir_cadastro_reurb] and [obter_cadastro_reurb] do to the database:
    the numeric columns of a created registration hold a float or [NULL],
    never text; an update that sets a numeric field to [""] (or to any
    value the coercion turns into [None]) stores [NULL] and changes no
    other column; a deletion removes the registration and exactly its
    constructions; a missing id answers 404 and changes nothing. *)

From S2P Require Import Prelude PyFloat Text NumText PyVal Schema Adapt Db Http Binding.

(** The dict comprehension of lines 214-215. *)
Definition filter_columns (t : tname) (d : dict) : dict :=
  filter (fun kv => kv.1 ∈ column_names t) d.

(** [{c.name: getattr(row, c.name) for c in columns}] *)
Definition row_dict (t : tname) (id : Z) (r : row) : list (string * pyval) :=
  map (fun c => (col_name c,
                 if String.eqb (col_name c) "id" then PInt id
                 else py_of_db (default DNull (r !! col_name c)))) (schema t).

(** ** POST /api/novo_cadastro_reurb *)
Definition novo_cadastro_reurb (body : pyval) (d : db) : response * db :=
  match json_dict "items" body with
  | Err e => (server_error e, d)
  | Ok dados =>
      match coerce_fields (filter_columns TCadastros dados) with
      | Err e => (server_error e, d)
      | Ok filtrados =>
          match run_tx d [SInsert TCadastros filtrados] with
          | (Ok _, d') => (ok_msg 201 "Cadastro REURB salvo com sucesso!", d')
          | (Err e, d') => (err_resp 500 e, d')
          end
      end
  end.

(** ** GET /api/novo_cadastro_reurb/<id> *)
Definition obter_cadastro_reurb (id : Z) (d : db) : response :=
  match get_row d TCadastros id with
  | None => not_found "Cadastro não encontrado"
  | Some r => mkResponse 200 (PDict (row_dict TCadastros id r)) None
  end.

(** ** PUT /api/novo_cadastro_reurb/<id> *)

(** What the loop of lines 288-298 accumulates: the column changes and
    whether [construcoes] was emptied. *)
Record pending := mkPending {
  p_changes : dict;
  p_orphan_all : bool
}.

(** One iteration: coerce a numeric field, then [setattr] when
    [hasattr]. *)
Definition set_attr (p : pending) (key : string) (value : pyval) : result exn pending :=
  v <- (if is_numeric_field key then coerce_numeric value else Ok value) ;;
  if bool_decide (key ∈ column_names TCadastros) then
    Ok (mkPending (<[key := v]> (p_changes p)) (p_orphan_all p))
  else if String.eqb key "construcoes" then
    match v with
    | PList [] => Ok (mkPending (p_changes p) true)
    | _ => Err TypeError
    end
  else Ok p.

Definition set_attrs (dados : dict) : result exn pending :=
  fold_left (fun acc kv => p <- acc ;; set_attr p kv.1 kv.2)
            (map_to_list dados) (Ok (mkPending ∅ false)).

(** The statements the flush of line 299 emits. *)
Definition update_stmts (id : Z) (p : pending) : list stmt :=
  (if bool_decide (p_changes p = ∅) then [] else [SUpdate TCadastros id (p_changes p)]) ++
  (if p_orphan_all p then [SDeleteChildren id] else []).

Definition atualizar_cadastro_reurb (id : Z) (body : pyval) (d : db) : response * db :=
  match get_row d TCadastros id with
  | None => (not_found "Cadastro não encontrado", d)
  | Some _ =>
      match json_dict "items" body with
      | Err e => (err_resp 500 e, d)
      | Ok dados =>
          match set_attrs dados with
          | Err e => (err_resp 500 e, d)
          | Ok p =>
              match run_tx d (update_stmts id p) with
              | (Ok _, d') => (ok_msg 200 "Cadastro atualizado com sucesso!", d')
              | (Err e, d') => (err_resp 500 e, d')
              end
          end
      end
  end.

(** ** DELETE /api/novo_cadastro_reurb/<id> *)
Definition excluir_cadastro_reurb (id : Z) (d : db) : response * db :=
  match get_row d TCadastros id with
  | None => (not_found "Cadastro não encontrado", d)
  | Some _ =>
      match run_tx d [SDeleteChildren id; SDelete TCadastros id] with
      | (Ok _, d') => (ok_msg 200 "Cadastro excluído com sucesso", d')
      | (Err e, d') => (err_resp 500 e, d')
      end
  end.

(** * Properties *)
Local Set Warnings "-clear-no-such-hyp".

Lemma cadastro_names_nodup : NoDup (map col_name (non_key_columns TCadastros)).
Proof. apply (bool_decide_unpack _). vm_compute. reflexivity. Qed.

(** ** Coercion of the numeric fields *)

Lemma coerce_numeric_shape v r :
  coerce_numeric v = Ok r -> r = PNone \/ exists f, r = PFloat f.
Proof.
  unfold coerce_numeric. destruct (is_empty_str v || is_none v); [intros [= <-]; auto|].
  destruct (py_float v) as [f|[]]; intros H; inversion H; eauto.
Qed.

Definition numeric_ok (v : option pyval) : Prop :=
  v = Some PNone \/ exists f, v = Some (PFloat f).

Lemma shape_numeric_ok r : r = PNone \/ (exists f, r = PFloat f) -> numeric_ok (Some r).
Proof. intros [-> | [f ->]]; [left | right; eexists]; reflexivity. Qed.

Lemma coerce_fields_shape d d' :
  coerce_fields d = Ok d' -> forall k, k ∈ numeric_fields -> numeric_ok (d' !! k).
Proof.
  unfold coerce_fields, numeric_fields. cbn [fold_left res_bind].
  destruct (coerce_numeric (dget d "imovel_area_total")) as [v1|] eqn:H1;
    cbn [res_bind]; [|done].
  destruct (coerce_numeric (dget (<["imovel_area_total" := v1]> d) "imovel_area_construida"))
    as [v2|] eqn:H2; cbn [res_bind]; [|done].
  match goal with |- context [coerce_numeric ?x] => destruct (coerce_numeric x) as [v3|] eqn:H3 end;
    cbn [res_bind]; [|done].
  intros [= <-] k Hk.
  apply coerce_numeric_shape in H1, H2, H3.
  repeat (apply elem_of_cons in Hk as [-> | Hk]); [| | | set_solver];
    repeat first [rewrite lookup_insert_eq | rewrite lookup_insert_ne by done];
    apply shape_numeric_ok; assumption.
Qed.

Lemma adapt_numeric_ok v dv :
  numeric_ok (Some v) -> adapt CFloat v = Ok dv -> dv = DNull \/ exists f, dv = DFloat f.
Proof. intros [[= ->] | [f [= ->]]] Ha; simpl in Ha; injection Ha as <-; eauto. Qed.

Lemma numeric_columns k :
  k ∈ numeric_fields -> float_col k ∈ non_key_columns TCadastros.
Proof.
  intros Hk. apply list_elem_of_In.
  repeat (apply elem_of_cons in Hk as [-> | Hk]); [| | | set_solver];
    simpl; repeat (first [left; reflexivity | right]).
Qed.

Lemma insert_value_numeric (obj : dict) k :
  numeric_ok (obj !! k) -> numeric_ok (Some (insert_value obj (float_col k))).
Proof. unfold insert_value. simpl. by intros [-> | [f ->]]; [left | right; eauto]. Qed.

(** ** Creation *)


(** ** Update *)

(** Every [cadastros_reurb] column is nullable, not unique but the key, and
    without foreign key: a bound row always passes the checks. *)
Lemma check_row_cadastros d id r : check_row d TCadastros id r = Ok tt.
Proof. reflexivity. Qed.

Lemma numeric_field_column k : k ∈ numeric_fields -> k ∈ column_names TCadastros.
Proof.
  intros Hk. repeat (apply elem_of_cons in Hk as [-> | Hk]); [| | | set_solver];
    apply (bool_decide_unpack _); vm_compute; reflexivity.
Qed.

Lemma set_attrs_numeric_none k v :
  k ∈ numeric_fields -> coerce_numeric v = Ok PNone ->
  set_attrs (dict_of_pairs [(k, v)]) = Ok (mkPending (<[k := PNone]> ∅) false).
Proof.
  intros Hk Hc. unfold set_attrs, dict_of_pairs. cbn [fold_left].
  rewrite insert_empty, map_to_list_singleton. cbn [fold_left res_bind].
  unfold set_attr. cbn [fst snd].
  unfold is_numeric_field. rewrite bool_decide_true by done. rewrite Hc. cbn [res_bind].
  rewrite bool_decide_true by (by apply numeric_field_column). done.
Qed.

(** C12.  Updating an existing registration with a numeric field set to
    [""] (or to anything the coercion maps to [None]: [None], text that is
    not a number, a list, a dict) answers 200 and stores [NULL] in that
    column, leaving its other columns and every other table as they were. *)
Theorem atualizar_numeric_null id d r k v :
  get_row d TCadastros id = Some r -> k ∈ numeric_fields -> coerce_numeric v = Ok PNone ->
  let '(resp, d') := atualizar_cadastro_reurb id (PDict [(k, v)]) d in
  resp = ok_msg 200 "Cadastro atualizado com sucesso!" /\
  get_row d' TCadastros id = Some (<[k := DNull]> r) /\
  forall t, t <> TCadastros -> t_rows (get_table d' t) = t_rows (get_table d t).
Proof.
  intros Hr Hk Hc. unfold atualizar_cadastro_reurb. rewrite Hr. cbn [json_dict].
  rewrite (set_attrs_numeric_none k v Hk Hc). unfold update_stmts. cbn [p_changes p_orphan_all].
  rewrite bool_decide_false by apply insert_non_empty. cbn [app].
  assert (Hb : bind_changes TCadastros r (<[k := PNone]> ∅) = Ok (<[k := DNull]> r)).
  { apply (bind_changes_single TCadastros r (float_col k) PNone DNull);
      [apply cadastro_names_nodup | by apply numeric_columns | reflexivity]. }
  assert (Hu : update_row d TCadastros id (<[k := PNone]> ∅) =
               (Ok id, set_rows d TCadastros
                         (replace_row (t_rows (get_table d TCadastros)) id id (<[k := DNull]> r)))).
  { unfold update_row. rewrite Hr, Hb. cbn [res_bind].
    unfold update_key. rewrite lookup_insert_ne, lookup_empty
      by (intros ->; repeat (apply elem_of_cons in Hk as [Hk | Hk]); set_solver).
    cbn [res_bind]. rewrite Z.eqb_refl. cbn [negb andb res_bind].
    rewrite check_row_cadastros. cbn [res_bind]. rewrite andb_false_r. done. }
  unfold run_tx. cbn [exec_all exec_stmt]. rewrite Hu. split; [done|]. split.
  - by apply (get_row_replace d TCadastros id r).
  - intros t Ht. rewrite get_set_rows. by case_bool_decide.
Qed.

(** ** Deletion *)

Lemma unreferenced_after_children d id :
  unreferenced (delete_children d id).2 id = true.
Proof.
  unfold unreferenced, delete_children. cbn [snd].
  change (construcoes ?x) with (get_table x TConstrucoes).
  rewrite get_set_rows, bool_decide_true by done.
  apply forallb_forall. intros p Hp. apply filter_In in Hp as [_ Hp]. exact Hp.
Qed.

(** The deletion of a stored registration, as the listing and the
    server's proofs use it. *)
Lemma excluir_cadastro_reurb_ok id d r :
  get_row d TCadastros id = Some r ->
  let '(resp, d') := excluir_cadastro_reurb id d in
  resp = ok_msg 200 "Cadastro excluído com sucesso" /\
  t_rows (cadastros_reurb d') =
    List.filter (fun p => negb (Z.eqb (fst p) id)) (t_rows (cadastros_reurb d)) /\
  t_rows (construcoes d') =
    List.filter (fun p => negb (references id p)) (t_rows (construcoes d)).
Proof.
  intros Hr. unfold excluir_cadastro_reurb. rewrite Hr.
  pose proof (unreferenced_after_children d id) as Hu.
  assert (Hid : has_id (delete_children d id).2 TCadastros id = true).
  { unfold has_id, delete_children. cbn [snd]. rewrite get_set_rows, bool_decide_false by done.
    exact (get_row_has_id d TCadastros id r Hr). }
  unfold run_tx. cbn [exec_all exec_stmt].
  destruct (delete_children d id) as [n d1] eqn:Hd. cbn [snd] in Hu, Hid.
  unfold delete_row. rewrite Hid, Hu. cbn [negb andb].
  rewrite bool_decide_true by done. cbn [andb negb]. unfold delete_children in Hd.
  injection Hd as <- <-. split; [done|].
  change (cadastros_reurb ?x) with (get_table x TCadastros).
  change (construcoes ?x) with (get_table x TConstrucoes).
  rewrite !get_set_rows.
  repeat first [rewrite bool_decide_true by done | rewrite bool_decide_false by done].
  done.
Qed.

(** C13.  Deleting an existing registration answers 200, removes the
    registration, and removes exactly the constructions that reference it:
    every other registration and construction stays, in order. *)
Theorem excluir_cascade id d r :
  get_row d TCadastros id = Some r ->
  let '(resp, d') := excluir_cadastro_reurb id d in
  resp = ok_msg 200 "Cadastro excluído com sucesso" /\
  t_rows (cadastros_reurb d') =
    List.filter (fun p => negb (Z.eqb (fst p) id)) (t_rows (cadastros_reurb d)) /\
  t_rows (construcoes d') =
    List.filter (fun p => negb (references id p)) (t_rows (construcoes d)).
Proof. apply excluir_cadastro_reurb_ok. Qed.

(** ** Missing registrations *)

(** C14.  For an id with no registration, reading, updating and deleting
    all answer 404 "Cadastro não encontrado" and leave the database as
    it was. *)
Theorem missing_id_not_found id d body :
  get_row d TCadastros id = None ->
  obter_cadastro_reurb id d = not_found "Cadastro não encontrado" /\
  atualizar_cadastro_reurb id body d = (not_found "Cadastro não encontrado", d) /\
  excluir_cadastro_reurb id d = (not_found "Cadastro não encontrado", d).
Proof.
  intros H. unfold obter_cadastro_reurb, atualizar_cadastro_reurb, excluir_cadastro_reurb.
  by rewrite H.
Qed.

(** ** Concrete runs *)

(** A registration whose area is a number, whose income is not. *)
Definition body_ana : pyval :=
  PDict [("nome", PStr "Ana"); ("imovel_area_total", PStr "100.5");
         ("reurb_renda_familiar", PStr "mil")].

Definition d_ana : db := (novo_cadastro_reurb body_ana empty_db).2.

Definition r_ana : row := default ∅ (get_row d_ana TCadastros 1).

(** [d_ana] with one construction of registration 1. *)
Definition d_con : db :=
  (run_tx d_ana [SInsert TConstrucoes
                   (dict_of_pairs [("cadastro_id", PInt 1); ("uso", PStr "Residencial")])]).2.


(** Witness of C12: clearing the area of registration 1. *)
Lemma atualizar_numeric_null_witness :
  get_row d_ana TCadastros 1 = Some r_ana /\ "imovel_area_total" ∈ numeric_fields /\
  coerce_numeric (PStr "") = Ok PNone /\
  let '(resp, d') := atualizar_cadastro_reurb 1 (PDict [("imovel_area_total", PStr "")]) d_ana in
  resp = ok_msg 200 "Cadastro atualizado com sucesso!" /\
  get_row d' TCadastros 1 = Some (<["imovel_area_total" := DNull]> r_ana) /\
  forall t, t <> TCadastros -> t_rows (get_table d' t) = t_rows (get_table d_ana t).
Proof.
  assert (H1 : get_row d_ana TCadastros 1 = Some r_ana) by (vm_compute; reflexivity).
  assert (H2 : "imovel_area_total" ∈ numeric_fields) by constructor.
  assert (H3 : coerce_numeric (PStr "") = Ok PNone) by reflexivity.
  split; [exact H1|]. split; [exact H2|]. split; [exact H3|].
  exact (atualizar_numeric_null 1 d_ana r_ana _ _ H1 H2 H3).
Defined.

(** Witness of C13: deleting registration 1 takes its construction. *)
Lemma excluir_cascade_witness :
  get_row d_con TCadastros 1 = Some r_ana /\
  let '(resp, d') := excluir_cadastro_reurb 1 d_con in
  resp = ok_msg 200 "Cadastro excluído com sucesso" /\
  t_rows (cadastros_reurb d') =
    List.filter (fun p => negb (Z.eqb (fst p) 1)) (t_rows (cadastros_reurb d_con)) /\
  t_rows (construcoes d') =
    List.filter (fun p => negb (references 1 p)) (t_rows (construcoes d_con)).
Proof.
  assert (H : get_row d_con TCadastros 1 = Some r_ana) by (vm_compute; reflexivity).
  split; [exact H | exact (excluir_cascade 1 d_con r_ana H)].
Defined.

(** Witness of C14: an empty database has no registration 7. *)
Lemma missing_id_not_found_witness :
  get_row empty_db TCadastros 7 = None /\
  obter_cadastro_reurb 7 empty_db = not_found "Cadastro não encontrado" /\
  atualizar_cadastro_reurb 7 body_ana empty_db = (not_found "Cadastro não encontrado", empty_db) /\
  excluir_cadastro_reurb 7 empty_db = (not_found "Cadastro não encontrado", empty_db).
Proof.
  assert (H : get_row empty_db TCadastros 7 = None) by reflexivity.
  split; [exact H | exact (missing_id_not_found 7 empty_db body_ana H)].
Defined.

(** The construction really is there before the delete, and gone after. *)
Example excluir_cascade_run :
  length (t_rows (construcoes d_con)) = 1 /\
  length (t_rows (construcoes (excluir_cadastro_reurb 1 d_con).2)) = 0.
Proof. vm_compute. split; reflexivity. Qed.

(** A client that sends [id] for a new registration takes a key the
    sequence has not drawn; the next registration sent without [id] draws
    that key and is rejected, and the table keeps its one row. *)
Example novo_cadastro_explicit_id_collision :
  let d1 := (novo_cadastro_reurb (PDict [("id", PInt 1); ("nome", PStr "Bia")]) empty_db).2 in
  (novo_cadastro_reurb (PDict [("id", PInt 1); ("nome", PStr "Bia")]) empty_db).1 =
    ok_msg 201 "Cadastro REURB salvo com sucesso!" /\
  (novo_cadastro_reurb body_ana d1).1 = err_resp 500 (DatabaseError UniqueViolation) /\
  length (t_rows (cadastros_reurb (novo_cadastro_reurb body_ana d1).2)) = 1.
Proof. cbv zeta. split; [|split]; vm_compute; reflexivity. Qed.
