(* ===== verification/Construcoes.v ===== *)
(** * Construction handlers ([app.py] 318-349)

    A construction belongs to a registration through [cadastro_id], a
    foreign key to [cadastros_reurb.id] (line 97):
    - [adicionar_construcao] (318-328) sets the five attributes from the
      body with [dados.get] (an absent key is [None]) and [cadastro_id]
      from the URL, and commits; the handler has no [try], so a database
      error is Flask's 500 page, and the request's session is rolled back
      when the application context ends;
    - [listar_construcoes] (330-336) lists, in storage order, the
      constructions whose [cadastro_id] is the one in the URL
      ([Db.references], the test of [filter_by(cadastro_id=...)]);
    - [excluir_construcao] (338-349) answers 404 for a missing key, and
      otherwise deletes the row and commits.

    ** Properties

    The foreign key decides what [adicionar_construcao] may store: a
    construction for a registration that does not exist is refused by the
    database (the handler itself checks nothing), and one that is stored
    holds the registration's id and the adapted values of the body, and is
    listed last for that registration.  [excluir_construcao] removes
    exactly the row it names. *)

From S2P Require Import Prelude PyFloat PyVal Schema Adapt Db Http Binding.

(** The attributes the constructor of line 321 sets. *)
Definition construcao_attrs : list string :=
  ["area_total"; "area_construida"; "uso"; "padrao"; "tipo"].

(** [Construcao(cadastro_id=cadastro_id, area_total=dados.get(...), ...)] *)
Definition construcao_obj (cadastro_id : Z) (dados : dict) : dict :=
  dict_of_pairs (("cadastro_id", PInt cadastro_id) ::
                 map (fun k => (k, dget dados k)) construcao_attrs).

(** ** POST /api/construcoes/<cadastro_id> *)
Definition adicionar_construcao (cadastro_id : Z) (body : pyval) (d : db) : response * db :=
  match json_dict "get" body with
  | Err e => (server_error e, d)
  | Ok dados =>
      match run_tx d [SInsert TConstrucoes (construcao_obj cadastro_id dados)] with
      | (Ok _, d') => (ok_msg 201 "Construção salva com sucesso!", d')
      | (Err e, d') => (server_error e, d')
      end
  end.

(** ** GET /api/construcoes/<cadastro_id> *)

(** The dict of lines 333-335. *)
Definition construcao_json (p : Z * row) : pyval :=
  PDict (("id", PInt (fst p)) ::
         map (fun k => (k, py_of_db (default DNull (snd p !! k)))) construcao_attrs).

Definition listar_construcoes (cadastro_id : Z) (d : db) : response :=
  mkResponse 200
    (PList (map construcao_json (List.filter (references cadastro_id) (t_rows (construcoes d)))))
    None.

(** ** DELETE /api/construcoes/<id> *)
Definition excluir_construcao (id : Z) (d : db) : response * db :=
  match get_row d TConstrucoes id with
  | None => (not_found "Construção não encontrada", d)
  | Some _ =>
      match run_tx d [SDelete TConstrucoes id] with
      | (Ok _, d') => (ok_msg 200 "Construção excluída com sucesso", d')
      | (Err e, d') => (err_resp 500 e, d')
      end
  end.

(** * Properties *)

Lemma construcao_names_nodup : NoDup (map col_name (non_key_columns TConstrucoes)).
Proof. apply (bool_decide_unpack _). vm_compute. reflexivity. Qed.

Lemma construcao_obj_cadastro_id cid dados :
  construcao_obj cid dados !! "cadastro_id" = Some (PInt cid).
Proof.
  unfold construcao_obj, dict_of_pairs, construcao_attrs. cbn [map fold_left].
  by simplify_map_eq.
Qed.

Lemma construcao_obj_attr cid dados k :
  k ∈ construcao_attrs -> construcao_obj cid dados !! k = Some (dget dados k).
Proof.
  unfold construcao_obj, dict_of_pairs.
  intros Hk. repeat (apply elem_of_cons in Hk as [-> | Hk]); [..| set_solver];
    cbn [map fold_left construcao_attrs]; by simplify_map_eq.
Qed.

Definition cadastro_id_col : column := mkColumn "cadastro_id" CInteger true false true None.

Lemma cadastro_id_col_in : cadastro_id_col ∈ non_key_columns TConstrucoes.
Proof. apply list_elem_of_In. left. reflexivity. Qed.

(** What a successful insert of a construction stored. *)
Lemma insert_construcao_ok d cid dados id d' :
  insert_row d TConstrucoes (construcao_obj cid dados) = (Ok id, d') ->
  has_id d TCadastros cid = true /\
  exists r, t_rows (construcoes d') = t_rows (construcoes d) ++ [(id, r)] /\
    r !! "cadastro_id" = Some (DInt cid) /\
    (forall c, c ∈ non_key_columns TConstrucoes -> col_name c ∈ construcao_attrs ->
       exists dv, adapt (col_type c) (dget dados (col_name c)) = Ok dv /\ r !! col_name c = Some dv) /\
    (forall t, t <> TConstrucoes -> t_rows (get_table d' t) = t_rows (get_table d t)).
Proof.
  intros H. apply insert_row_ok in H as (r & d1 & Hb & Hrows & _ & Hc & ->).
  destruct (bind_cols_spec _ _ _ _ construcao_names_nodup Hb) as [H1 _].
  assert (Hcid : r !! "cadastro_id" = Some (DInt cid)).
  { destruct (H1 _ _ cadastro_id_col_in eq_refl) as (dv & Ha & Hr).
    unfold insert_value in Ha. cbn [col_name cadastro_id_col] in Ha.
    rewrite construcao_obj_cadastro_id in Ha. cbn [adapt col_type cadastro_id_col] in Ha.
    unfold check_int4 in Ha. destruct (in_int4 cid); [|discriminate].
    injection Ha as <-. exact Hr. }
  apply check_row_ok in Hc as [_ Hfk]. split.
  - unfold fk_ok in Hfk. apply forallb_forall with (x := cadastro_id_col) in Hfk;
      [|apply list_elem_of_In; right; left; reflexivity].
    cbn [col_fk col_name cadastro_id_col negb orb] in Hfk. rewrite Hcid in Hfk.
    by rewrite <- (has_id_rows_eq _ _ _ _ (Hrows TCadastros)).
  - exists r. split; [|split; [done | split]].
    + change (construcoes ?x) with (get_table x TConstrucoes).
      by rewrite get_set_rows, bool_decide_true, (Hrows TConstrucoes).
    + intros c Hin Hk. destruct (H1 c _ Hin eq_refl) as (dv & Ha & Hr).
      exists dv. split; [|done]. unfold insert_value in Ha.
      by rewrite construcao_obj_attr in Ha.
    + intros t Ht. by rewrite get_set_rows, bool_decide_false, Hrows by congruence.
Qed.

Lemma listing_app cid rs p :
  references cid p = true ->
  map construcao_json (List.filter (references cid) (rs ++ [p])) =
  map construcao_json (List.filter (references cid) rs) ++ [construcao_json p].
Proof. intros H. rewrite List.filter_app, map_app. cbn [List.filter]. by rewrite H. Qed.

Lemma references_cadastro_id cid p :
  snd p !! "cadastro_id" = Some (DInt cid) -> references cid p = true.
Proof. unfold references. intros ->. cbn. apply Z.eqb_refl. Qed.

(** ** Creation *)

(** C18.  Adding a construction to a registration that does not exist
    fails: the handler checks nothing, but the foreign key of
    [cadastro_id] makes the insert fail, the response is the 500 error
    page, and no table's rows change. *)
Theorem adicionar_construcao_orphan cid body d :
  has_id d TCadastros cid = false ->
  r_status (adicionar_construcao cid body d).1 = 500%Z /\
  forall t, t_rows (get_table (adicionar_construcao cid body d).2 t) = t_rows (get_table d t).
Proof.
  intros Hn. unfold adicionar_construcao.
  destruct (json_dict "get" body) as [dados|e]; [|done].
  destruct (run_tx d _) as [[zs|e] d'] eqn:Hr.
  - apply run_tx_single in Hr as (z & Hi & _). cbn [exec_stmt] in Hi.
    apply insert_construcao_ok in Hi as [Hc _]. congruence.
  - split; [done | exact (run_tx_err_rows _ _ _ _ Hr)].
Qed.

(** C19.  A construction that [adicionar_construcao] reports as saved
    (201) is listed last by [listar_construcoes] for its registration,
    after the ones listed before, with each attribute holding the value
    the body gave it, as its column stores it; no other table changes. *)
Theorem adicionar_listar_construcoes cid body d resp d' :
  adicionar_construcao cid body d = (resp, d') -> r_status resp = 201%Z ->
  exists id r dados,
    json_dict "get" body = Ok dados /\
    r_body (listar_construcoes cid d') =
      PList (map construcao_json (List.filter (references cid) (t_rows (construcoes d)))
             ++ [construcao_json (id, r)]) /\
    (forall c, c ∈ non_key_columns TConstrucoes -> col_name c ∈ construcao_attrs ->
       exists dv, adapt (col_type c) (dget dados (col_name c)) = Ok dv /\ r !! col_name c = Some dv) /\
    (forall t, t <> TConstrucoes -> t_rows (get_table d' t) = t_rows (get_table d t)).
Proof.
  unfold adicionar_construcao.
  destruct (json_dict "get" body) as [dados|e]; [|intros [= <- _]; discriminate].
  destruct (run_tx d _) as [[zs|e] d1] eqn:Hr; intros [= <- <-]; [|discriminate]. intros _.
  apply run_tx_single in Hr as (z & Hi & _). cbn [exec_stmt] in Hi.
  apply insert_construcao_ok in Hi as (_ & r & Hrows & Hcid & Hvals & Hother).
  exists z, r, dados. split; [done|]. split; [|done].
  unfold listar_construcoes. cbn [r_body]. rewrite Hrows.
  by rewrite listing_app by by apply references_cadastro_id.
Qed.

(** ** Deletion *)

(** Deleting an existing construction answers 200 and removes
    exactly that row; every other row of every table stays. *)
Theorem excluir_construcao_ok id d r :
  get_row d TConstrucoes id = Some r ->
  (excluir_construcao id d).1 = ok_msg 200 "Construção excluída com sucesso" /\
  t_rows (construcoes (excluir_construcao id d).2) =
    List.filter (fun p => negb (Z.eqb (fst p) id)) (t_rows (construcoes d)) /\
  forall t, t <> TConstrucoes ->
    t_rows (get_table (excluir_construcao id d).2 t) = t_rows (get_table d t).
Proof.
  intros Hr. unfold excluir_construcao.
  rewrite Hr, (run_tx_delete d TConstrucoes id r ltac:(discriminate) Hr). cbn [fst snd]. split; [done|].
  change (construcoes ?x) with (get_table x TConstrucoes).
  split; [by rewrite get_set_rows, bool_decide_true|].
  intros t Ht. by rewrite get_set_rows, bool_decide_false by congruence.
Qed.

(** ** Concrete runs *)

Definition obra : pyval :=
  PDict [("area_total", PInt 80); ("uso", PStr "Residencial"); ("cor", PStr "azul")].

(** Registration 1 exists in [d_reg]. *)
Definition d_reg : db :=
  (run_tx empty_db [SInsert TCadastros (dict_of_pairs [("req_nome", PStr "Ana")])]).2.

(** Witness of C18: the empty database has no registration 5. *)
Lemma adicionar_construcao_orphan_witness :
  has_id empty_db TCadastros 5 = false /\
  r_status (adicionar_construcao 5 obra empty_db).1 = 500%Z /\
  forall t, t_rows (get_table (adicionar_construcao 5 obra empty_db).2 t) = t_rows (get_table empty_db t).
Proof.
  assert (H : has_id empty_db TCadastros 5 = false) by reflexivity.
  split; [exact H | exact (adicionar_construcao_orphan 5 obra empty_db H)].
Defined.

Definition d_obra : db := (adicionar_construcao 1 obra d_reg).2.

(** Witness of C19: a construction of registration 1. *)
Lemma adicionar_listar_construcoes_witness :
  r_status (adicionar_construcao 1 obra d_reg).1 = 201%Z /\
  exists id r dados,
    json_dict "get" obra = Ok dados /\
    r_body (listar_construcoes 1 d_obra) =
      PList (map construcao_json (List.filter (references 1) (t_rows (construcoes d_reg)))
             ++ [construcao_json (id, r)]) /\
    (forall c, c ∈ non_key_columns TConstrucoes -> col_name c ∈ construcao_attrs ->
       exists dv, adapt (col_type c) (dget dados (col_name c)) = Ok dv /\ r !! col_name c = Some dv) /\
    (forall t, t <> TConstrucoes -> t_rows (get_table d_obra t) = t_rows (get_table d_reg t)).
Proof.
  assert (Hs : r_status (adicionar_construcao 1 obra d_reg).1 = 201%Z) by (vm_compute; reflexivity).
  split; [exact Hs|].
  exact (adicionar_listar_construcoes 1 obra d_reg _ _ (surjective_pairing _) Hs).
Defined.

Definition r_obra : row := default ∅ (get_row d_obra TConstrucoes 1).

(** Deleting construction 1 of [d_obra]. *)
Lemma excluir_construcao_ok_witness :
  get_row d_obra TConstrucoes 1 = Some r_obra /\
  (excluir_construcao 1 d_obra).1 = ok_msg 200 "Construção excluída com sucesso" /\
  t_rows (construcoes (excluir_construcao 1 d_obra).2) =
    List.filter (fun p => negb (Z.eqb (fst p) 1)) (t_rows (construcoes d_obra)) /\
  forall t, t <> TConstrucoes ->
    t_rows (get_table (excluir_construcao 1 d_obra).2 t) = t_rows (get_table d_obra t).
Proof.
  assert (H : get_row d_obra TConstrucoes 1 = Some r_obra) by (vm_compute; reflexivity).
  split; [exact H | exact (excluir_construcao_ok 1 d_obra r_obra H)].
Defined.

(** The listing shows the body's values: the area as a float, the absent
    attributes as [None]; the unknown key "cor" is ignored. *)
Example listar_construcoes_run :
  r_body (listar_construcoes 1 d_obra) =
  PList [PDict [("id", PInt 1); ("area_total", PFloat (Fin 80)); ("area_construida", PNone);
                ("uso", PStr "Residencial"); ("padrao", PNone); ("tipo", PNone)]].
Proof. vm_compute. reflexivity. Qed.
