(* ===== verification/PlantaGenerica.v ===== *)
(** * Reference tables: the "planta genérica" handlers ([app.py] 351-390)

    One pair of handlers serves the four reference tables, chosen by the
    URL segment [tipo] through [model_map]:
    - [planta_generica_crud] (351-374): an unknown [tipo] is 400; a GET
      lists every row of the table, serialized by the variant's lambda; a
      POST builds [model( **dados)] (a body that is not an object, or a key
      that is not an attribute of the model, raises [TypeError]), inserts
      it and commits; every exception is caught and answered with 500 (the
      session is rolled back when the request ends);
    - [excluir_planta_generica_item] (376-390): 400 for an unknown [tipo],
      404 for a missing key, otherwise a delete and a commit.

    [Repo] is the contract the specification states for them (its design
    notes): a generic repository of items, each under a key, with create,
    list and delete.  [absr] reads a table as such a repository.

    ** Properties

    [planta_generica_crud] and [excluir_planta_generica_item] refine
    [PlantaGenerica.Repo] through [absr]: a GET lists the repository, a
    POST either leaves it as it was (any error) or creates one item under
    a fresh key (201), a DELETE deletes the key; no other table changes.
    An unknown [tipo] is refused before anything is read. *)

From S2P Require Import Prelude PyFloat Text PyVal Schema Adapt Db Http.

(** [model_map] (353-358 and 378). *)
Definition planta_model (tipo : string) : option tname :=
  if String.eqb tipo "pgv" then Some TPGV
  else if String.eqb tipo "padroes" then Some TPadroes
  else if String.eqb tipo "logradouros" then Some TLogradouros
  else if String.eqb tipo "aliquotas" then Some TAliquotas
  else None.

(** [str.upper] on ASCII text (the four keys of [model_map]). *)
Fixpoint upper_ascii (s : string) : string :=
  match s with
  | EmptyString => EmptyString
  | String a s' =>
      let n := nat_of_ascii a in
      String (if (97 <=? n) && (n <=? 122) then ascii_of_nat (n - 32) else a) (upper_ascii s')
  end.

(** The fields each serializing lambda reads, besides [id]. *)
Definition planta_fields (t : tname) : list string :=
  match t with
  | TPGV | TPadroes => ["descricao"; "valor_m2"]
  | TLogradouros => ["logradouro"; "valor_m2"]
  | TAliquotas => ["tipo"; "aliquota"]
  | _ => []
  end.

Definition fields_json (t : tname) (r : row) : list (string * pyval) :=
  map (fun k => (k, py_of_db (default DNull (r !! k)))) (planta_fields t).

Definition planta_json (t : tname) (p : Z * row) : pyval :=
  PDict (("id", PInt (fst p)) :: fields_json t (snd p)).

(** [model( **dados)]: the declarative constructor accepts only
    attributes of the class. *)
Definition planta_kwargs (t : tname) (body : pyval) : result exn dict :=
  match body with
  | PDict kvs =>
      let dados := dict_of_pairs kvs in
      if forallb (fun k => bool_decide (k ∈ column_names t \/ k ∈ model_class_attrs))
                 (map fst (map_to_list dados))
      then Ok dados else Err TypeError
  | _ => Err TypeError
  end.

Inductive planta_request :=
| PlantaGet
| PlantaPost (body : pyval).

(** ** GET and POST /api/planta_generica/<tipo> *)
Definition planta_generica_crud (tipo : string) (req : planta_request) (d : db)
  : response * db :=
  match planta_model tipo with
  | None => (bad_request "Tipo de planta genérica inválido", d)
  | Some t =>
      match req with
      | PlantaGet =>
          (mkResponse 200 (PList (map (planta_json t) (t_rows (get_table d t)))) None, d)
      | PlantaPost body =>
          match planta_kwargs t body with
          | Err e => (err_resp 500 e, d)
          | Ok dados =>
              match run_tx d [SInsert t dados] with
              | (Ok _, d') => (ok_msg 201 (upper_ascii tipo +:+ " salvo com sucesso!"), d')
              | (Err e, d') => (err_resp 500 e, d')
              end
          end
      end
  end.

(** ** DELETE /api/planta_generica/<tipo>/<item_id> *)
Definition excluir_planta_generica_item (tipo : string) (item_id : Z) (d : db)
  : response * db :=
  match planta_model tipo with
  | None => (bad_request "Tipo de planta genérica inválido", d)
  | Some t =>
      match get_row d t item_id with
      | None => (not_found "Item não encontrado.", d)
      | Some _ =>
          match run_tx d [SDelete t item_id] with
          | (Ok _, d') => (ok_msg 200 (upper_ascii tipo +:+ " excluído com sucesso!"), d')
          | (Err e, d') => (err_resp 500 e, d')
          end
      end
  end.

(** ** The abstract repository *)

Module Repo.
(** Items in listing order, each under its key. *)
Definition repo := list (Z * list (string * pyval)).

Definition keys (s : repo) : list Z := map fst s.

Definition create (k : Z) (item : list (string * pyval)) (s : repo) : repo := s ++ [(k, item)].

Definition delete (k : Z) (s : repo) : repo := List.filter (fun p => negb (Z.eqb (fst p) k)) s.

Definition list_items (s : repo) : list pyval :=
  map (fun p => PDict (("id", PInt (fst p)) :: snd p)) s.
End Repo.

(** A reference table read as a repository. *)
Definition absr (t : tname) (d : db) : Repo.repo :=
  map (fun p => (fst p, fields_json t (snd p))) (t_rows (get_table d t)).

(** * Properties *)
Local Set Warnings "-clear-no-such-hyp".

Lemma planta_model_ref tipo t :
  planta_model tipo = Some t -> t = TPGV \/ t = TPadroes \/ t = TLogradouros \/ t = TAliquotas.
Proof. unfold planta_model. repeat case_if; intros [= <-]; tauto. Qed.

Lemma planta_model_not_cadastros tipo t : planta_model tipo = Some t -> t <> TCadastros.
Proof. intros H. apply planta_model_ref in H. intros ->. naive_solver. Qed.

Lemma absr_rows_eq t d d' :
  t_rows (get_table d' t) = t_rows (get_table d t) -> absr t d' = absr t d.
Proof. unfold absr. by intros ->. Qed.

Lemma absr_list t d :
  map (planta_json t) (t_rows (get_table d t)) = Repo.list_items (absr t d).
Proof. unfold absr, Repo.list_items. by rewrite map_map. Qed.

Lemma absr_keys t d : Repo.keys (absr t d) = map fst (t_rows (get_table d t)).
Proof. unfold absr, Repo.keys. by rewrite map_map. Qed.

Lemma has_id_keys d t k : has_id d t k = false -> k ∉ Repo.keys (absr t d).
Proof.
  rewrite absr_keys. unfold has_id. intros H Hin.
  apply list_elem_of_In, in_map_iff in Hin as (p & <- & Hp).
  assert (Hx : existsb (fun q => Z.eqb (fst q) (fst p)) (t_rows (get_table d t)) = true)
    by (apply existsb_exists; exists p; split; [done | apply Z.eqb_refl]).
  congruence.
Qed.

Lemma has_id_keys_true d t k : has_id d t k = true -> k ∈ Repo.keys (absr t d).
Proof.
  rewrite absr_keys. unfold has_id. intros (p & Hp & Hk)%existsb_exists.
  apply Z.eqb_eq in Hk. subst k. apply list_elem_of_In, in_map_iff. eauto.
Qed.

Lemma repo_delete_absent k s : k ∉ Repo.keys s -> Repo.delete k s = s.
Proof.
  unfold Repo.keys, Repo.delete.
  induction s as [|[k' it] s IH]; intros Hk; [done|]. cbn [List.filter map fst] in *.
  destruct (Z.eqb_spec k' k) as [-> | Hne]; [set_solver|].
  cbn [negb]. f_equal. apply IH. set_solver.
Qed.

Lemma absr_delete t d k :
  absr t (set_rows d t (List.filter (fun p => negb (Z.eqb (fst p) k)) (t_rows (get_table d t)))) =
  Repo.delete k (absr t d).
Proof.
  unfold absr, Repo.delete. rewrite get_set_rows, bool_decide_true by done.
  induction (t_rows (get_table d t)) as [|p rs IH]; [done|]. cbn [List.filter map fst].
  destruct (Z.eqb (fst p) k); cbn [negb map]; by rewrite IH.
Qed.

Lemma absr_append t d id r :
  absr t (set_rows d t (t_rows (get_table d t) ++ [(id, r)])) =
  Repo.create id (fields_json t r) (absr t d).
Proof. unfold absr, Repo.create. by rewrite get_set_rows, bool_decide_true, map_app. Qed.

Lemma get_row_None_keys d t k : get_row d t k = None -> k ∉ Repo.keys (absr t d).
Proof.
  intros H. apply has_id_keys. unfold has_id, get_row in *.
  destruct (first_match _ _) eqn:E; [discriminate|].
  apply first_match_None in E. rewrite List.Forall_forall in E.
  apply not_true_iff_false. intros (p & Hp & Hk)%existsb_exists. by rewrite E in Hk.
Qed.

(** ** Refinement *)


(** C21.  [excluir_planta_generica_item] refines the repository's delete:
    afterwards the repository of [tipo] is [Repo.delete item_id] of the one
    before, the response is 200 exactly when the key was there (404
    otherwise), and the other tables do not change. *)
Theorem excluir_planta_refines tipo t item_id d :
  planta_model tipo = Some t ->
  let '(resp, d') := excluir_planta_generica_item tipo item_id d in
  (forall t', t' <> t -> t_rows (get_table d' t') = t_rows (get_table d t')) /\
  absr t d' = Repo.delete item_id (absr t d) /\
  (r_status resp = 200%Z <-> item_id ∈ Repo.keys (absr t d)).
Proof.
  intros Ht. unfold excluir_planta_generica_item. rewrite Ht.
  destruct (get_row d t item_id) as [r|] eqn:Hr.
  - rewrite (run_tx_delete d t item_id r (planta_model_not_cadastros _ _ Ht) Hr). cbn [fst snd].
    split; [intros t' Ht'; by rewrite get_set_rows, bool_decide_false|].
    split; [apply absr_delete|].
    split; [intros _; apply has_id_keys_true; by apply (get_row_has_id _ _ _ r) | done].
  - pose proof (get_row_None_keys _ _ _ Hr) as Hn.
    split; [done|]. split; [by rewrite repo_delete_absent|]. split; [discriminate | done].
Qed.

(** C22.  A [tipo] that is not a key of [model_map] is refused with 400
    by both handlers, before the body or the database is looked at. *)
Theorem planta_unknown_tipo tipo req item_id d :
  planta_model tipo = None ->
  planta_generica_crud tipo req d = (bad_request "Tipo de planta genérica inválido", d) /\
  excluir_planta_generica_item tipo item_id d = (bad_request "Tipo de planta genérica inválido", d).
Proof. intros H. unfold planta_generica_crud, excluir_planta_generica_item. by rewrite H. Qed.

(** ** Concrete runs *)

Definition rua_a : pyval := PDict [("logradouro", PStr "Rua A"); ("valor_m2", PFloat (Fin 50))].

Definition d_rua : db := (planta_generica_crud "logradouros" (PlantaPost rua_a) empty_db).2.


(** Witness of C21: deleting street 1 of [d_rua]. *)
Lemma excluir_planta_refines_witness :
  planta_model "logradouros" = Some TLogradouros /\
  let '(resp, d') := excluir_planta_generica_item "logradouros" 1 d_rua in
  (forall t', t' <> TLogradouros -> t_rows (get_table d' t') = t_rows (get_table d_rua t')) /\
  absr TLogradouros d' = Repo.delete 1 (absr TLogradouros d_rua) /\
  (r_status resp = 200%Z <-> 1%Z ∈ Repo.keys (absr TLogradouros d_rua)).
Proof.
  assert (H : planta_model "logradouros" = Some TLogradouros) by reflexivity.
  split; [exact H | exact (excluir_planta_refines "logradouros" TLogradouros 1 d_rua H)].
Defined.

(** Witness of C22: "ruas" is not a variant. *)
Lemma planta_unknown_tipo_witness :
  planta_model "ruas" = None /\
  planta_generica_crud "ruas" PlantaGet d_rua = (bad_request "Tipo de planta genérica inválido", d_rua) /\
  excluir_planta_generica_item "ruas" 1 d_rua = (bad_request "Tipo de planta genérica inválido", d_rua).
Proof.
  assert (H : planta_model "ruas" = None) by reflexivity.
  split; [exact H | exact (planta_unknown_tipo "ruas" PlantaGet 1 d_rua H)].
Defined.

(** The POST answers with the upper-cased [tipo]; the GET serializes with
    the variant's lambda; an unknown attribute is a [TypeError]. *)
Example planta_generica_run :
  (planta_generica_crud "logradouros" (PlantaPost rua_a) empty_db).1 =
    ok_msg 201 "LOGRADOUROS salvo com sucesso!" /\
  (planta_generica_crud "logradouros" PlantaGet d_rua).1 =
    mkResponse 200 (PList [PDict [("id", PInt 1); ("logradouro", PStr "Rua A");
                                  ("valor_m2", PFloat (Fin 50))]]) None /\
  (planta_generica_crud "pgv" (PlantaPost (PDict [("nome", PStr "x")])) empty_db).1 =
    err_resp 500 TypeError.
Proof. split; [|split]; vm_compute; reflexivity. Qed.
