(* ===== verification/Importar.v ===== *)
(** * Bulk import ([app.py] 397-458)

    [importar_dados] takes the uploaded file ([request.files['arquivo']]),
    refuses a missing file, an empty file name and an extension other
    than [.xlsx] or [.csv] (400), reads the file into a data frame with
    pandas, renames its columns through [mapa_colunas], and adds one
    [CadastroReurb] per record, all in one commit: 201 with the number of
    records, or, on any exception, a rollback and 500.

    Reading the file is pandas' work and is not modelled: the upload
    carries the frame pandas returned for it, or the exception it raised
    (for a CSV, after the three attempts of lines 409-416).  A frame is its
    column labels and its rows of cells; an empty cell is [NaN].  Each
    record keeps the keys that are columns with a cell that [pd.notna]
    accepts, and turns a numeric field holding [""] into [None]; unlike
    the create handler it does not call [float()]: a numeric field holding
    text reaches the database as text.

    ** Properties

    An import is one transaction of one [INSERT] per record: it either
    adds exactly one registration per record, after the existing ones,
    or changes nothing.  A numeric cell holding text that PostgreSQL's
    float input rejects (["1,5"], the decimal comma of a Brazilian
    spreadsheet) fails the whole import, where the create handler would
    have stored [NULL]. *)

From S2P Require Import Prelude PyFloat Text PyVal Schema Adapt Db Http NumText Binding Cadastro.

Record frame := mkFrame {
  fr_columns : list string;
  fr_rows : list (list pyval)
}.

Record upload := mkUpload {
  up_filename : string;
  up_frame : result exn frame   (** what [pd.read_excel] / [pd.read_csv] gave *)
}.

(** [str.endswith] *)
Definition ends_with (s suf : string) : bool :=
  prefixb (rev (bytes suf)) (rev (bytes s)).

(** [mapa_colunas] (422-437). *)
Definition mapa_colunas : list (string * string) :=
  [("Nome Completo", "req_nome"); ("CPF", "req_cpf"); ("RG", "req_rg");
   ("Telefone Principal", "req_telefone"); ("E-mail", "req_email");
   ("Inscrição Imobiliária", "inscricao_imobiliaria");
   ("Logradouro do Imóvel", "imovel_logradouro"); ("Número do Imóvel", "imovel_numero");
   ("Bairro do Imóvel", "imovel_bairro"); ("Área Total do Lote (m²)", "imovel_area_total");
   ("Área Construída (m²)", "imovel_area_construida");
   ("Uso Principal do Imóvel", "imovel_uso"); ("Padrão Construtivo", "imovel_tipo_construcao");
   ("Renda familiar mensal total (R$)", "reurb_renda_familiar")].

(** [df.rename(columns=mapa_colunas)]: a label without an entry stays. *)
Definition rename_column (c : string) : string :=
  match first_match (fun p => String.eqb (fst p) c) mapa_colunas with
  | Some p => snd p
  | None => c
  end.

(** [df.to_dict(orient='records')] *)
Definition records (fr : frame) : list dict :=
  map (fun cells => dict_of_pairs (zip (map rename_column (fr_columns fr)) cells)) (fr_rows fr).

(** [pd.notna] on a cell. *)
Definition notna (v : pyval) : bool :=
  match v with
  | PNone | PFloat NaN => false
  | _ => true
  end.

(** Lines 442-443. *)
Definition filtrar_registro (rec : dict) : dict :=
  filter (fun kv => kv.1 ∈ column_names TCadastros /\ notna kv.2 = true) rec.

(** Lines 445-447: a numeric field holding [""] (or a missing value)
    becomes [None]. *)
Definition blank_numeric (rec : dict) (campo : string) : dict :=
  match rec !! campo with
  | Some v => if is_empty_str v || negb (notna v) then <[campo := PNone]> rec else rec
  | None => rec
  end.

Definition preparar_registro (rec : dict) : dict :=
  fold_left blank_numeric numeric_fields (filtrar_registro rec).

(** The statements of the commit of line 452. *)
Definition import_stmts (fr : frame) : list stmt :=
  map (fun rec => SInsert TCadastros (preparar_registro rec)) (records fr).

(** ** POST /api/importar *)
Definition importar_dados (arquivo : option upload) (d : db) : response * db :=
  match arquivo with
  | None => (bad_request "Nenhum arquivo enviado.", d)
  | Some up =>
      if String.eqb (up_filename up) "" then (bad_request "Nenhum arquivo selecionado.", d)
      else if ends_with (up_filename up) ".xlsx" || ends_with (up_filename up) ".csv" then
        match up_frame up with
        | Err e => (err_resp 500 e, d)
        | Ok fr =>
            match run_tx d (import_stmts fr) with
            | (Ok _, d') =>
                (ok_msg 201 (z_text (Z.of_nat (length (records fr))) +:+
                             " registros importados com sucesso!"), d')
            | (Err e, d') => (err_resp 500 e, d')
            end
        end
      else (bad_request "Formato de arquivo não suportado. Use .xlsx ou .csv", d)
  end.

(** * Properties *)
Local Set Warnings "-clear-no-such-hyp".

(** ** Batches of inserts *)

Lemma exec_all_inserts_ok d t objs zs d' :
  exec_all d (map (SInsert t) objs) = (Ok zs, d') ->
  exists rs, length rs = length objs /\
    t_rows (get_table d' t) = t_rows (get_table d t) ++ rs /\
    forall t', t' <> t -> t_rows (get_table d' t') = t_rows (get_table d t').
Proof.
  revert d zs. induction objs as [|o objs IH]; intros d zs; cbn [map exec_all].
  - intros [= <- <-]. exists []. by rewrite app_nil_r.
  - cbn [exec_stmt]. destruct (insert_row d t o) as [[z|e] d1] eqn:Hi; [|discriminate].
    destruct (exec_all d1 (map (SInsert t) objs)) as [[zs'|e] d2] eqn:He; [|discriminate].
    intros [= <- <-]. destruct (IH _ _ He) as (rs & Hl & Hr & Ho).
    apply insert_row_ok in Hi as (r & d0 & _ & Hrows & _ & _ & ->).
    exists ((z, r) :: rs). cbn [length]. split; [by rewrite Hl|]. split.
    + by rewrite Hr, get_set_rows, bool_decide_true, Hrows, <- app_assoc.
    + intros t' Ht'. by rewrite Ho, get_set_rows, bool_decide_false, Hrows by congruence.
Qed.

Definition is_err {E A} (r : result E A) : bool := match r with Err _ => true | Ok _ => false end.

(** A statement that fails in every state fails the batch it is in. *)
Lemma exec_all_fails d s ss :
  (forall d0, is_err (exec_stmt d0 s).1 = true) -> s ∈ ss -> is_err (exec_all d ss).1 = true.
Proof.
  intros Hs. revert d. induction ss as [|s' ss IH]; intros d Hin; [set_solver|].
  cbn [exec_all]. apply elem_of_cons in Hin as [<- | Hin].
  - specialize (Hs d). destruct (exec_stmt d s) as [[z|e] d1]; [discriminate | done].
  - destruct (exec_stmt d s') as [[z|e] d1]; [|done].
    specialize (IH d1 Hin). destruct (exec_all d1 ss) as [[zs|e] d2]; [discriminate | done].
Qed.

(** An object one of whose columns cannot take its value is never
    inserted. *)
Lemma insert_row_adapt_err d t obj c e :
  NoDup (map col_name (non_key_columns t)) -> c ∈ non_key_columns t ->
  adapt (col_type c) (insert_value obj c) = Err e ->
  is_err (insert_row d t obj).1 = true.
Proof.
  intros Hnd Hc Ha. unfold insert_row. destruct (bind_row t obj) as [r|e'] eqn:Hb; [|done].
  destruct (bind_cols_spec _ _ _ _ Hnd Hb) as [H1 _].
  destruct (H1 c _ Hc eq_refl) as (dv & Ha' & _). congruence.
Qed.

(** ** Preparing a record *)

Lemma blank_numeric_other rec campo k : k <> campo -> blank_numeric rec campo !! k = rec !! k.
Proof.
  intros Hk. unfold blank_numeric.
  destruct (rec !! campo); [case_if; [by rewrite lookup_insert_ne | done] | done].
Qed.

Lemma blank_numeric_text rec campo s :
  rec !! campo = Some (PStr s) -> s <> "" -> blank_numeric rec campo = rec.
Proof.
  intros H Hs. unfold blank_numeric. rewrite H. cbn [is_empty_str notna negb].
  by destruct (String.eqb_spec s "").
Qed.

Lemma fold_blank_text campos rec k s :
  rec !! k = Some (PStr s) -> s <> "" ->
  fold_left blank_numeric campos rec !! k = Some (PStr s).
Proof.
  revert rec. induction campos as [|c cs IH]; intros rec H Hs; cbn [fold_left]; [done|].
  apply IH; [|done]. destruct (decide (k = c)) as [-> | Hk].
  - by rewrite blank_numeric_text with (s := s).
  - by rewrite blank_numeric_other.
Qed.

(** A numeric field holding non-empty text keeps it. *)
Lemma preparar_text rec k s :
  k ∈ numeric_fields -> rec !! k = Some (PStr s) -> s <> "" ->
  preparar_registro rec !! k = Some (PStr s).
Proof.
  intros Hk H Hs. unfold preparar_registro. apply fold_blank_text; [|done].
  unfold filtrar_registro. apply map_lookup_filter_Some. split; [done|]. split; [|done].
  repeat (apply elem_of_cons in Hk as [-> | Hk]); [..| set_solver];
    apply (bool_decide_unpack _); vm_compute; reflexivity.
Qed.

(** ** The handler *)

(** C23.  An import that does not answer 201 leaves every table's rows as
    they were: a refused upload touches nothing, and a failing record
    rolls back the records before it. *)
Theorem importar_atomic arquivo d :
  r_status (importar_dados arquivo d).1 <> 201%Z ->
  forall t, t_rows (get_table (importar_dados arquivo d).2 t) = t_rows (get_table d t).
Proof.
  unfold importar_dados. destruct arquivo as [up|]; [|done].
  case_if; [done|]. case_if; [|done]. destruct (up_frame up) as [fr|e]; [|done].
  destruct (run_tx d (import_stmts fr)) as [[zs|e] d'] eqn:Hr; [done|].
  intros _. by apply (run_tx_err_rows _ _ _ _ Hr).
Qed.

(** C24.  An import that answers 201 adds exactly one registration per
    record of the file, after the existing ones, and changes no other
    table. *)
Theorem importar_appends arquivo d :
  r_status (importar_dados arquivo d).1 = 201%Z ->
  exists up fr rs, arquivo = Some up /\ up_frame up = Ok fr /\
    length rs = length (records fr) /\
    t_rows (cadastros_reurb (importar_dados arquivo d).2) = t_rows (cadastros_reurb d) ++ rs /\
    forall t, t <> TCadastros ->
      t_rows (get_table (importar_dados arquivo d).2 t) = t_rows (get_table d t).
Proof.
  unfold importar_dados. destruct arquivo as [up|]; [|discriminate].
  case_if; [discriminate|]. case_if; [|discriminate].
  destruct (up_frame up) as [fr|e] eqn:Hf; [|discriminate].
  unfold run_tx. destruct (exec_all d (import_stmts fr)) as [[zs|e] d'] eqn:He; [|discriminate].
  intros _. unfold import_stmts in He. rewrite <- (map_map preparar_registro (SInsert TCadastros)) in He.
  destruct (exec_all_inserts_ok _ _ _ _ _ He) as (rs & Hl & Hc & Ho).
  exists up, fr, rs. rewrite length_map in Hl. by repeat split.
Qed.

(** C25.  A numeric cell holding non-empty text that PostgreSQL's
    [double precision] input rejects makes the whole import fail (500)
    with no row written; the specification asks that such a value be
    stored as [NULL], as [novo_cadastro_reurb] does. *)
Theorem importar_text_numeric_fails up d fr rec k s :
  up_filename up <> "" ->
  ends_with (up_filename up) ".xlsx" || ends_with (up_filename up) ".csv" = true ->
  up_frame up = Ok fr -> rec ∈ records fr ->
  k ∈ numeric_fields -> rec !! k = Some (PStr s) -> s <> "" ->
  parse_float pg_syntax s = None ->
  r_status (importar_dados (Some up) d).1 = 500%Z /\
  forall t, t_rows (get_table (importar_dados (Some up) d).2 t) = t_rows (get_table d t).
Proof.
  intros Hn He Hf Hrec Hk Hs Hne Hp. unfold importar_dados.
  destruct (String.eqb_spec (up_filename up) "") as [|_]; [done|]. rewrite He, Hf.
  assert (Hfail : is_err (exec_all d (import_stmts fr)).1 = true).
  { apply (exec_all_fails _ (SInsert TCadastros (preparar_registro rec))).
    - intros d0. cbn [exec_stmt].
      apply (insert_row_adapt_err _ _ _ (float_col k) InvalidTextRepresentation
               cadastro_names_nodup (numeric_columns k Hk)).
      unfold insert_value. cbn [col_name float_col col_type].
      rewrite (preparar_text rec k s Hk Hs Hne). cbn [adapt]. by rewrite Hp.
    - unfold import_stmts.
      exact (list_elem_of_fmap_2 (fun r => SInsert TCadastros (preparar_registro r)) _ _ Hrec). }
  destruct (exec_all d (import_stmts fr)) as [[zs|e] d'] eqn:Hx; [done|].
  unfold run_tx. rewrite Hx. split; [done|]. intros t.
  apply (run_tx_err_rows _ (import_stmts fr) e). unfold run_tx. by rewrite Hx.
Qed.

(** ** Concrete runs *)

(** A file of two rows; the second has an empty area cell (NaN). *)
Definition fr_ok : frame :=
  mkFrame ["Nome Completo"; "Área Total do Lote (m²)"; "Cor"]
          [[PStr "Ana"; PFloat (Fin 100); PStr "azul"]; [PStr "Bia"; PFloat NaN; PStr "verde"]].

(** A file whose area is written with a decimal comma. *)
Definition fr_comma : frame :=
  mkFrame ["Nome Completo"; "Área Total do Lote (m²)"] [[PStr "Ana"; PStr "1,5"]].

Definition up_ok : upload := mkUpload "cadastros.csv" (Ok fr_ok).
Definition up_comma : upload := mkUpload "cadastros.csv" (Ok fr_comma).

Definition rec_comma : dict :=
  dict_of_pairs [("req_nome", PStr "Ana"); ("imovel_area_total", PStr "1,5")].

(** Witness of C23: the decimal comma is refused. *)
Lemma importar_atomic_witness :
  r_status (importar_dados (Some up_comma) empty_db).1 <> 201%Z /\
  forall t, t_rows (get_table (importar_dados (Some up_comma) empty_db).2 t) = t_rows (get_table empty_db t).
Proof.
  assert (H : r_status (importar_dados (Some up_comma) empty_db).1 <> 201%Z)
    by (vm_compute; discriminate).
  split; [exact H | exact (importar_atomic _ _ H)].
Defined.

(** Witness of C24: two records, two registrations. *)
Lemma importar_appends_witness :
  r_status (importar_dados (Some up_ok) empty_db).1 = 201%Z /\
  exists up fr rs, Some up_ok = Some up /\ up_frame up = Ok fr /\
    length rs = length (records fr) /\
    t_rows (cadastros_reurb (importar_dados (Some up_ok) empty_db).2) =
      t_rows (cadastros_reurb empty_db) ++ rs /\
    forall t, t <> TCadastros ->
      t_rows (get_table (importar_dados (Some up_ok) empty_db).2 t) = t_rows (get_table empty_db t).
Proof.
  assert (H : r_status (importar_dados (Some up_ok) empty_db).1 = 201%Z) by (vm_compute; reflexivity).
  split; [exact H | exact (importar_appends _ _ H)].
Defined.

(** Witness of C25: "1,5" in the area column. *)
Lemma importar_text_numeric_fails_witness :
  r_status (importar_dados (Some up_comma) empty_db).1 = 500%Z /\
  forall t, t_rows (get_table (importar_dados (Some up_comma) empty_db).2 t) = t_rows (get_table empty_db t).
Proof.
  assert (Hrec : rec_comma ∈ records fr_comma).
  { replace (records fr_comma) with [rec_comma] by (vm_compute; reflexivity). by left. }
  apply (importar_text_numeric_fails up_comma empty_db fr_comma rec_comma "imovel_area_total" "1,5");
    [discriminate | reflexivity | reflexivity | exact Hrec | by left
    | vm_compute; reflexivity | discriminate | vm_compute; reflexivity].
Defined.

(** The same value sent to the create handler is stored as [NULL]; the
    first file imports both rows, dropping the unknown column and the
    empty cell; a [.txt] file is refused before it is read. *)
Example importar_runs :
  (novo_cadastro_reurb (PDict [("req_nome", PStr "Ana"); ("imovel_area_total", PStr "1,5")])
     empty_db).1 = ok_msg 201 "Cadastro REURB salvo com sucesso!" /\
  (importar_dados (Some up_ok) empty_db).1 = ok_msg 201 "2 registros importados com sucesso!" /\
  (importar_dados (Some (mkUpload "cadastros.txt" (Ok fr_ok))) empty_db).1 =
    bad_request "Formato de arquivo não suportado. Use .xlsx ou .csv".
Proof. split; [|split]; vm_compute; reflexivity. Qed.
