(* ===== verification/Exportar.v ===== *)
(** * Bulk export ([app.py] 461-503)

    [exportar_dados] reads [colunas] from the JSON body (all the columns
    of [CadastroReurb] when it is absent or falsy), builds one record per
    registration with [getattr(cad, col, '')], refuses an empty table
    with 400, renames the columns through [mapa_nomes_amigaveis] and sends
    the sheet as an [.xlsx] file.  Any exception is answered with 500.

    The result is either a JSON response or the sheet: its header and its
    rows of cells, in the order pandas builds them (the first occurrence
    of each selected name, the registrations in storage order).  Writing
    the workbook is openpyxl's work and is not modelled, except that a
    cell holding an object (the [construcoes] relationship, the class
    attributes of [Schema.model_class_attrs], or an attribute whose name
    starts with [_]) makes it raise [ValueError]. *)

From S2P Require Import Prelude PyFloat Text PyVal Schema Adapt Db Http Importar.

Record sheet := mkSheet {
  sh_header : list string;
  sh_rows : list (list pyval)
}.

(** [mapa_nomes_amigaveis] (480-486). *)
Definition mapa_nomes_amigaveis : list (string * string) :=
  [("req_nome", "Nome Completo"); ("req_cpf", "CPF"); ("req_rg", "RG");
   ("req_telefone", "Telefone"); ("req_email", "E-mail");
   ("inscricao_imobiliaria", "Inscrição Imobiliária");
   ("imovel_logradouro", "Logradouro"); ("imovel_numero", "Número");
   ("imovel_bairro", "Bairro"); ("imovel_area_total", "Área do Lote (m²)");
   ("imovel_area_construida", "Área Construída (m²)");
   ("reurb_renda_familiar", "Renda Familiar (R$)"); ("imovel_uso", "Uso do Imóvel")].

(** [df.rename(columns=mapa_nomes_amigaveis)] (487). *)
Definition friendly_name (c : string) : string :=
  match first_match (fun p => String.eqb (fst p) c) mapa_nomes_amigaveis with
  | Some p => snd p
  | None => c
  end.

(** [for col in colunas_selecionadas]: a list gives its items, a string
    its characters, a dict its keys (a repeated JSON key keeps its first
    position, which [dedup_first] below gives as well); anything else is
    not iterable. *)
Definition iter_items (v : pyval) : result exn (list pyval) :=
  match v with
  | PList l => Ok l
  | PStr s => Ok (map (fun c => PStr (string_of_list_ascii c)) (chars s))
  | PDict kvs => Ok (map (fun kv => PStr kv.1) kvs)
  | _ => Err TypeError
  end.

(** [getattr] needs a string. *)
Fixpoint attr_names (l : list pyval) : result exn (list string) :=
  match l with
  | [] => Ok []
  | PStr s :: l' => ns <- attr_names l' ;; Ok (s :: ns)
  | _ :: _ => Err TypeError
  end.

(** The keys of the dict comprehension of line 472: each name once, at
    its first position. *)
Fixpoint dedup_first (seen : list string) (l : list string) : list string :=
  match l with
  | [] => []
  | x :: l' =>
      if bool_decide (x ∈ seen) then dedup_first seen l' else x :: dedup_first (x :: seen) l'
  end.

(** Attributes whose value is an object the workbook cannot hold. *)
Definition object_attr (k : string) : bool :=
  bool_decide (k ∈ "construcoes" :: model_class_attrs) ||
  match k with String "_" _ => true | _ => false end.

(** [getattr(cad, col, '')] for the registration [p], as a cell. *)
Definition export_cell (p : Z * row) (k : string) : result exn pyval :=
  if String.eqb k "id" then Ok (PInt (fst p))
  else if bool_decide (k ∈ column_names TCadastros) then Ok (py_of_db (default DNull (snd p !! k)))
  else if object_attr k then Err ValueError
  else Ok (PStr "").

Fixpoint export_cells (p : Z * row) (ks : list string) : result exn (list pyval) :=
  match ks with
  | [] => Ok []
  | k :: ks' => v <- export_cell p k ;; vs <- export_cells p ks' ;; Ok (v :: vs)
  end.

Fixpoint export_rows (rs : list (Z * row)) (ks : list string) : result exn (list (list pyval)) :=
  match rs with
  | [] => Ok []
  | p :: rs' => c <- export_cells p ks ;; cs <- export_rows rs' ks ;; Ok (c :: cs)
  end.

(** Lines 464-467. *)
Definition colunas_selecionadas (dados : dict) : pyval :=
  let v := default (PList []) (dados !! "colunas") in
  if py_truthy v then v else PList (map PStr (column_names TCadastros)).

(** ** POST /api/exportar *)
Definition exportar_dados (body : pyval) (d : db) : response + sheet :=
  match json_dict "get" body with
  | Err e => inl (err_resp 500 e)
  | Ok dados =>
      match t_rows (cadastros_reurb d) with
      | [] => inl (bad_request "Não há dados para exportar.")
      | rs =>
          let res :=
            items <- iter_items (colunas_selecionadas dados) ;;
            names <- attr_names items ;;
            let ks := dedup_first [] names in
            cells <- export_rows rs ks ;;
            Ok (mkSheet (map friendly_name ks) cells) in
          match res with
          | Ok sh => inr sh
          | Err e => inl (err_resp 500 e)
          end
      end
  end.

(** * Properties *)

(** The cell of a column: its stored value, [None] for [NULL]. *)
Definition stored_cell (p : Z * row) (k : string) : pyval :=
  if String.eqb k "id" then PInt (fst p) else py_of_db (default DNull (snd p !! k)).

Lemma dedup_first_nodup seen l :
  NoDup l -> Forall (fun x => x ∉ seen) l -> dedup_first seen l = l.
Proof.
  revert seen. induction l as [|x l IH]; intros seen Hnd Hf; [done|].
  apply NoDup_cons in Hnd as [Hx Hnd]. apply Forall_cons in Hf as [Hxs Hf]. cbn [dedup_first].
  rewrite bool_decide_false by done. f_equal. apply IH; [done|].
  apply Forall_forall. intros y Hy. rewrite elem_of_cons.
  intros [-> | Hs]; [done | by apply (proj1 (Forall_forall _ _) Hf y)].
Qed.

Lemma dedup_first_incl seen l k : k ∈ dedup_first seen l -> k ∈ l.
Proof.
  revert seen. induction l as [|x l IH]; intros seen; cbn [dedup_first]; [set_solver|].
  case_bool_decide; [intros Hk; right; eapply IH, Hk|].
  rewrite !elem_of_cons. intros [-> | Hk]; [by left | right; eapply IH, Hk].
Qed.

Lemma attr_names_strs ks : attr_names (map PStr ks) = Ok ks.
Proof. induction ks as [|k ks IH]; cbn [map attr_names]; [done|]. by rewrite IH. Qed.

Lemma export_cell_column p k :
  k ∈ column_names TCadastros -> export_cell p k = Ok (stored_cell p k).
Proof.
  intros Hk. unfold export_cell, stored_cell.
  destruct (String.eqb k "id"); [done|]. by rewrite bool_decide_true.
Qed.

Lemma export_rows_columns rs ks :
  (forall k, k ∈ ks -> k ∈ column_names TCadastros) ->
  export_rows rs ks = Ok (map (fun p => map (stored_cell p) ks) rs).
Proof.
  intros Hks.
  assert (Hc : forall p, export_cells p ks = Ok (map (stored_cell p) ks)).
  { intros p. induction ks as [|k ks IH]; [done|]. cbn [export_cells map].
    rewrite export_cell_column by (apply Hks; left). cbn [res_bind].
    rewrite IH by (intros; apply Hks; by right). done. }
  induction rs as [|p rs IH]; [done|]. cbn [export_rows map]. by rewrite Hc, IH.
Qed.

Lemma column_names_dedup : dedup_first [] (column_names TCadastros) = column_names TCadastros.
Proof. vm_compute. reflexivity. Qed.

(** The sheet of a selection of columns. *)
Lemma exportar_columns body d dados ks :
  json_dict "get" body = Ok dados ->
  colunas_selecionadas dados = PList (map PStr ks) ->
  (forall k, k ∈ ks -> k ∈ column_names TCadastros) ->
  t_rows (cadastros_reurb d) <> [] ->
  exportar_dados body d =
  inr (mkSheet (map friendly_name (dedup_first [] ks))
               (map (fun p => map (stored_cell p) (dedup_first [] ks)) (t_rows (cadastros_reurb d)))).
Proof.
  intros Hj Hc Hks Hne. unfold exportar_dados. rewrite Hj.
  destruct (t_rows (cadastros_reurb d)) as [|p rs] eqn:Hr; [done|].
  rewrite Hc. cbn [iter_items res_bind]. rewrite attr_names_strs. cbn [res_bind].
  rewrite export_rows_columns; [done|]. intros k Hk. apply Hks. eapply dedup_first_incl, Hk.
Qed.

(** C32.  Exporting a selection of columns of the schema from a non-empty
    table gives one row per registration, in storage order, holding the
    stored value of each selected column ([None] for [NULL]), each column
    once, at its first position, under its friendly name. *)
Theorem exportar_selected body d dados ks :
  json_dict "get" body = Ok dados -> dados !! "colunas" = Some (PList (map PStr ks)) -> ks <> [] ->
  (forall k, k ∈ ks -> k ∈ column_names TCadastros) ->
  t_rows (cadastros_reurb d) <> [] ->
  exportar_dados body d =
  inr (mkSheet (map friendly_name (dedup_first [] ks))
               (map (fun p => map (stored_cell p) (dedup_first [] ks)) (t_rows (cadastros_reurb d)))).
Proof.
  intros Hj Hk Hne Hks Hr. apply (exportar_columns _ _ dados); [done | | done | done].
  unfold colunas_selecionadas. rewrite Hk. cbn [default py_truthy].
  destruct ks; [done|]. reflexivity.
Qed.

(** C33.  With no [colunas] (or a falsy one: [[]], [""], [null]) the
    export of a non-empty table has every column of the schema, in
    declaration order, the thirteen of [mapa_nomes_amigaveis] under their
    friendly names, and every stored value. *)
Theorem exportar_all_columns body d dados :
  json_dict "get" body = Ok dados ->
  py_truthy (default (PList []) (dados !! "colunas")) = false ->
  t_rows (cadastros_reurb d) <> [] ->
  exportar_dados body d =
  inr (mkSheet (map friendly_name (column_names TCadastros))
               (map (fun p => map (stored_cell p) (column_names TCadastros)) (t_rows (cadastros_reurb d)))).
Proof.
  intros Hj Hf Hr. rewrite <- column_names_dedup.
  apply (exportar_columns _ _ dados); [done | | | done].
  - unfold colunas_selecionadas. by rewrite Hf.
  - done.
Qed.

(** C34.  For a JSON object body, the export answers "Não há dados para
    exportar." (400) exactly when there is no registration; otherwise it
    sends the sheet or answers 500. *)
Theorem exportar_empty body d dados :
  json_dict "get" body = Ok dados ->
  (exportar_dados body d = inl (bad_request "Não há dados para exportar.") <->
   t_rows (cadastros_reurb d) = []).
Proof.
  intros Hj. unfold exportar_dados. rewrite Hj.
  destruct (t_rows (cadastros_reurb d)); [done|]. split; [|done].
  destruct (res_bind _ _) as [sh|e]; [discriminate | intros [=]].
Qed.

(** The fields whose friendly header the import does not map back. *)
Definition headers_lost_on_reimport : list string :=
  ["req_telefone"; "imovel_logradouro"; "imovel_numero"; "imovel_bairro";
   "imovel_area_total"; "reurb_renda_familiar"; "imovel_uso"].

Lemma header_roundtrip_check :
  forallb (fun k => Bool.eqb (String.eqb (rename_column (friendly_name k)) k)
                             (negb (bool_decide (k ∈ headers_lost_on_reimport))))
          (column_names TCadastros) = true.
Proof. vm_compute. reflexivity. Qed.


(** ** Concrete runs *)

(** Witness of C32: exporting the name and the area of [d_reg]-like data. *)
Definition d_exp : db :=
  (run_tx empty_db [SInsert TCadastros (dict_of_pairs [("req_nome", PStr "Ana");
                                                       ("imovel_area_total", PFloat (Fin 100))])]).2.

Definition sel_body : pyval :=
  PDict [("colunas", PList [PStr "req_nome"; PStr "imovel_area_total"; PStr "req_nome"])].

Definition sel_dados : dict :=
  dict_of_pairs [("colunas", PList [PStr "req_nome"; PStr "imovel_area_total"; PStr "req_nome"])].

Definition sel_cols : list string := ["req_nome"; "imovel_area_total"; "req_nome"].

Lemma exportar_selected_witness :
  json_dict "get" sel_body = Ok sel_dados /\
  exportar_dados sel_body d_exp =
  inr (mkSheet (map friendly_name (dedup_first [] sel_cols))
               (map (fun p => map (stored_cell p) (dedup_first [] sel_cols)) (t_rows (cadastros_reurb d_exp)))).
Proof.
  assert (Hj : json_dict "get" sel_body = Ok sel_dados) by reflexivity.
  split; [exact Hj|].
  apply (exportar_selected _ _ _ _ Hj);
    [vm_compute; reflexivity | discriminate | | apply nonempty_length; vm_compute; lia].
  intros k Hk. unfold sel_cols in Hk. repeat (apply elem_of_cons in Hk as [-> | Hk]); [..| set_solver];
    apply (bool_decide_unpack _); vm_compute; reflexivity.
Defined.


(** Witness of C33: an empty body object. *)
Lemma exportar_all_columns_witness :
  exportar_dados (PDict []) d_exp =
  inr (mkSheet (map friendly_name (column_names TCadastros))
               (map (fun p => map (stored_cell p) (column_names TCadastros)) (t_rows (cadastros_reurb d_exp)))).
Proof.
  apply (exportar_all_columns _ _ ∅); [reflexivity | reflexivity | apply nonempty_length; vm_compute; lia].
Defined.

(** Witness of C34: the empty database. *)
Lemma exportar_empty_witness :
  exportar_dados (PDict []) empty_db = inl (bad_request "Não há dados para exportar.").
Proof. apply (proj2 (exportar_empty (PDict []) empty_db ∅ eq_refl)). reflexivity. Defined.

(** The selection [["req_nome", "imovel_area_total", "req_nome"]] gives two
    columns; a string selection is iterated character by character, each
    character an unknown attribute exported as [""]; the [construcoes]
    relationship cannot be written. *)
Example exportar_runs :
  exportar_dados sel_body d_exp =
    inr (mkSheet ["Nome Completo"; "Área do Lote (m²)"] [[PStr "Ana"; PFloat (Fin 100)]]) /\
  exportar_dados (PDict [("colunas", PStr "id")]) d_exp =
    inr (mkSheet ["i"; "d"] [[PStr ""; PStr ""]]) /\
  exportar_dados (PDict [("colunas", PList [PStr "construcoes"])]) d_exp = inl (err_resp 500 ValueError).
Proof. split; [|split]; vm_compute; reflexivity. Qed.

