(* ===== verification/Usuarios.v ===== *)
(** * User accounts and login ([app.py] 133-201)

    The handlers of the [usuarios] table:
    - [login] (134-144) looks the account up with
      [Usuario.query.filter_by(usuario=...).first()] and answers 200 with
      ["sucesso": True] and the account's [acesso] when the password checks
      against the stored hash, ["sucesso": False] otherwise;
    - [criar_usuario] (147-159) stores the hash of [dados['senha']] with
      [nome], [usuario] and [acesso] and commits (201);
    - [listar_usuarios] (161-170) and [obter_usuario] (191-200) serialize
      [id], [nome], [usuario] and [acesso];
    - [atualizar_usuario] (172-182) sets [nome], [usuario] and [acesso],
      and the hash of [senha] only when the body has a truthy one;
    - [excluir_usuario] (184-189) deletes and commits.
    None of them catches an exception: a missing key, a value of the wrong
    type or a database error is Flask's 500 page (and the session is
    rolled back at the end of the request).  [get_or_404] is Flask's 404
    page.

    Werkzeug's [generate_password_hash] and [check_password_hash] are the
    parameters of the [Section]: a salted hash is not a function of the
    password, and nothing here depends on how it is computed, only on the
    law [check_generated] (a hash checks against the password it was made
    from) and on the length of the hash ([hash_fits]: Werkzeug's hashes
    are well under the 255 characters of [senha]). *)

From S2P Require Import Prelude PyFloat Text PyVal Schema Adapt Db Http Binding.

Section Usuarios.

Context (generate_password_hash : string -> string).
Context (check_password_hash : string -> string -> bool).

(** The password given to Werkzeug must be a string ([password.encode]). *)
Definition hash_arg (v : pyval) : result exn string :=
  match v with
  | PStr s => Ok s
  | _ => Err (AttributeError "encode")
  end.

Definition row_text (r : row) (k : string) : string :=
  match r !! k with Some (DText s) => s | _ => "" end.

(** The dict of lines 164-169 and 194-199. *)
Definition usuario_json (p : Z * row) : pyval :=
  PDict [("id", PInt (fst p));
         ("nome", py_of_db (default DNull (snd p !! "nome")));
         ("usuario", py_of_db (default DNull (snd p !! "usuario")));
         ("acesso", py_of_db (default DNull (snd p !! "acesso")))].

(** ** POST /api/login *)

(** The value compared with [usuarios.usuario] by [filter_by]: [None] is
    [IS NULL] (no account, the column is [NOT NULL]); a number or a
    boolean has no [=] with [varchar]. *)
Definition login_value (v : pyval) : result exn (option string) :=
  match v with
  | PStr s => Ok (Some s)
  | PNone => Ok None
  | PDict _ => Err (DatabaseError CannotAdapt)
  | PList _ => Err (DatabaseError UnmodelledAdaptation)
  | _ => Err (DatabaseError UndefinedFunction)
  end.

(** [Usuario.query.filter_by(usuario=u).first()] *)
Definition find_usuario (d : db) (u : string) : option (Z * row) :=
  first_match (fun p => dbval_eqb (default DNull (snd p !! "usuario")) (DText u)) (t_rows (usuarios d)).

Definition login_ok (acesso : pyval) : response :=
  mkResponse 200 (PDict [("sucesso", PBool true); ("acesso", acesso);
                         ("mensagem", PStr "Login bem-sucedido!")]) None.

Definition login_failed : response :=
  mkResponse 200 (PDict [("sucesso", PBool false);
                         ("mensagem", PStr "Usuário ou senha incorretos.")]) None.

Definition login (body : pyval) (d : db) : response :=
  match json_dict "get" body with
  | Err e => server_error e
  | Ok dados =>
      match login_value (dget dados "usuario") with
      | Err e => server_error e
      | Ok None => login_failed
      | Ok (Some u) =>
          match find_usuario d u with
          | None => login_failed
          | Some p =>
              match hash_arg (dget dados "senha") with
              | Err e => server_error e
              | Ok s =>
                  if check_password_hash (row_text (snd p) "senha") s
                  then login_ok (py_of_db (default DNull (snd p !! "acesso")))
                  else login_failed
              end
          end
      end
  end.

(** ** POST /api/usuarios *)

(** The new [Usuario] of lines 150-156, in the order its arguments are
    evaluated. *)
Definition novo_usuario (body : pyval) : result exn dict :=
  senha <- json_index body "senha" ;;
  s <- hash_arg senha ;;
  nome <- json_index body "nome" ;;
  u <- json_index body "usuario" ;;
  a <- json_index body "acesso" ;;
  Ok (dict_of_pairs [("nome", nome); ("usuario", u);
                     ("senha", PStr (generate_password_hash s)); ("acesso", a)]).

Definition criar_usuario (body : pyval) (d : db) : response * db :=
  match novo_usuario body with
  | Err e => (server_error e, d)
  | Ok obj =>
      match run_tx d [SInsert TUsuarios obj] with
      | (Ok _, d') => (ok_msg 201 "Usuário criado com sucesso!", d')
      | (Err e, d') => (server_error e, d')
      end
  end.

(** ** GET /api/usuarios *)
Definition listar_usuarios (d : db) : response :=
  mkResponse 200 (PList (map usuario_json (t_rows (usuarios d)))) None.

(** ** PUT /api/usuarios/<id> *)

(** Line 178: the password changes only for a truthy [senha]. *)
Definition senha_change (body : pyval) : result exn (list (string * pyval)) :=
  match body with
  | PDict kvs =>
      match dict_of_pairs kvs !! "senha" with
      | Some v =>
          if py_truthy v then s <- hash_arg v ;; Ok [("senha", PStr (generate_password_hash s))]
          else Ok []
      | None => Ok []
      end
  | _ => Ok []
  end.

(** The attributes lines 176-180 set. *)
Definition usuario_changes (body : pyval) : result exn dict :=
  nome <- json_index body "nome" ;;
  u <- json_index body "usuario" ;;
  sc <- senha_change body ;;
  a <- json_index body "acesso" ;;
  Ok (dict_of_pairs ([("nome", nome); ("usuario", u)] ++ sc ++ [("acesso", a)])).

Definition atualizar_usuario (id : Z) (body : pyval) (d : db) : response * db :=
  match get_row d TUsuarios id with
  | None => (abort_404, d)
  | Some _ =>
      match usuario_changes body with
      | Err e => (server_error e, d)
      | Ok ch =>
          match run_tx d [SUpdate TUsuarios id ch] with
          | (Ok _, d') => (ok_msg 200 "Usuário atualizado com sucesso!", d')
          | (Err e, d') => (server_error e, d')
          end
      end
  end.

(** ** DELETE /api/usuarios/<id> *)
Definition excluir_usuario (id : Z) (d : db) : response * db :=
  match get_row d TUsuarios id with
  | None => (abort_404, d)
  | Some _ =>
      match run_tx d [SDelete TUsuarios id] with
      | (Ok _, d') => (ok_msg 200 "Usuário excluído com sucesso!", d')
      | (Err e, d') => (server_error e, d')
      end
  end.

(** ** GET /api/usuarios/<id> *)
Definition obter_usuario (id : Z) (d : db) : response :=
  match get_row d TUsuarios id with
  | None => abort_404
  | Some r => mkResponse 200 (usuario_json (id, r)) None
  end.

(** * Properties *)

Hypothesis check_generated : forall p, check_password_hash (generate_password_hash p) p = true.
Hypothesis hash_fits : forall p, length (chars (generate_password_hash p)) <= 255.

Lemma usuario_names_nodup : NoDup (map col_name (non_key_columns TUsuarios)).
Proof. apply (bool_decide_unpack _). vm_compute. reflexivity. Qed.

Lemma fit_varchar_fits n s : length (chars s) <= n -> fit_varchar (Some n) s = Ok s.
Proof. intros H. unfold fit_varchar. by rewrite (proj2 (Nat.leb_le _ _) H). Qed.

(** A string that fits its [varchar(n)] column is stored as it is. *)
Lemma bind_row_text t obj r c n s :
  NoDup (map col_name (non_key_columns t)) -> bind_row t obj = Ok r ->
  c ∈ non_key_columns t -> col_type c = CString (Some n) ->
  obj !! col_name c = Some (PStr s) -> length (chars s) <= n ->
  r !! col_name c = Some (DText s).
Proof.
  intros Hnd Hb Hc Ht Ho Hl. destruct (bind_cols_spec _ _ _ _ Hnd Hb) as [H1 _].
  destruct (H1 c _ Hc eq_refl) as (dv & Ha & Hr). unfold insert_value in Ha.
  rewrite Ho, Ht in Ha. cbn [adapt] in Ha. rewrite fit_varchar_fits in Ha by done.
  by injection Ha as <-.
Qed.

Lemma check_row_unique d t id r : check_row d t id r = Ok tt -> unique_ok d t id r = true.
Proof.
  unfold check_row. intros H.
  destruct (not_null_ok t r), (unique_ok d t id r); cbn [negb] in H; congruence.
Qed.

Lemma dbval_eqb_text w u : dbval_eqb w (DText u) = true -> w = DText u.
Proof. destruct w; cbn; try discriminate. by intros ->%String.eqb_eq. Qed.

(** No stored account but the new one has the login of an account that
    passed the [UNIQUE] check. *)
Lemma unique_login_absent d id r u :
  unique_ok d TUsuarios id r = true -> has_id d TUsuarios id = false ->
  r !! "usuario" = Some (DText u) ->
  Forall (fun p => dbval_eqb (default DNull (snd p !! "usuario")) (DText u) = false)
         (t_rows (usuarios d)).
Proof.
  intros Hu Hid Hr. unfold unique_ok in Hu.
  apply forallb_forall with (x := mkColumn "usuario" (CString (Some 50)) false true false None) in Hu;
    [|apply list_elem_of_In; right; right; left; reflexivity].
  cbn [col_unique col_name negb orb] in Hu. rewrite Hr in Hu.
  apply List.Forall_forall. intros p Hp.
  apply forallb_forall with (x := p) in Hu; [|done].
  assert (Hne : Z.eqb (fst p) id = false).
  { apply not_true_iff_false. intros <-%Z.eqb_eq. unfold has_id in Hid.
    apply not_true_iff_false in Hid. apply Hid, existsb_exists. exists p. split; [done | apply Z.eqb_refl]. }
  change (usuarios d) with (get_table d TUsuarios). rewrite Hne in Hu. cbn [orb] in Hu.
  destruct (snd p !! "usuario") as [w|]; cbn [default Datatypes.id]; [|done].
  apply not_true_iff_false. intros Hw. apply dbval_eqb_text in Hw. subst w. cbn in Hu. by rewrite String.eqb_refl in Hu.
Qed.

Lemma novo_usuario_lookup body obj u s a :
  novo_usuario body = Ok obj ->
  json_index body "usuario" = Ok u -> json_index body "senha" = Ok (PStr s) ->
  json_index body "acesso" = Ok a ->
  obj !! "usuario" = Some u /\ obj !! "senha" = Some (PStr (generate_password_hash s)) /\
  obj !! "acesso" = Some a.
Proof.
  unfold novo_usuario. intros H Hu Hs Ha. rewrite Hs, Hu, Ha in H. cbn [hash_arg res_bind] in H.
  destruct (json_index body "nome"); [|discriminate]. cbn [res_bind] in H.
  injection H as <-. unfold dict_of_pairs. cbn [fold_left]. by simplify_map_eq.
Qed.

Lemma login_body u s :
  dget (dict_of_pairs [("usuario", PStr u); ("senha", PStr s)]) "usuario" = PStr u /\
  dget (dict_of_pairs [("usuario", PStr u); ("senha", PStr s)]) "senha" = PStr s.
Proof. unfold dget, dict_of_pairs. cbn [fold_left]. split; by simplify_map_eq. Qed.

Lemma usuario_column_in c :
  c ∈ [mkColumn "usuario" (CString (Some 50)) false true false None;
       mkColumn "senha" (CString (Some 255)) false false false None;
       mkColumn "acesso" (CString (Some 20)) false false false (Some (PStr "Usuario"))] ->
  c ∈ non_key_columns TUsuarios.
Proof.
  intros Hc. repeat (apply elem_of_cons in Hc as [-> | Hc]); [..| set_solver];
    apply list_elem_of_In; vm_compute; repeat (first [left; reflexivity | right]).
Qed.

(** C27.  Round trip of an account: after [criar_usuario] answers 201 for
    a body whose login fits its column, [login] with that login and
    password succeeds and answers the account's [acesso]: the new row is
    the only one with that login (the [UNIQUE] check passed) and the
    stored hash checks against the password. *)
Theorem criar_login_roundtrip body d resp d' u s a :
  criar_usuario body d = (resp, d') -> r_status resp = 201%Z ->
  json_index body "usuario" = Ok (PStr u) -> json_index body "senha" = Ok (PStr s) ->
  json_index body "acesso" = Ok (PStr a) ->
  length (chars u) <= 50 -> length (chars a) <= 20 ->
  login (PDict [("usuario", PStr u); ("senha", PStr s)]) d' = login_ok (PStr a).
Proof.
  unfold criar_usuario. destruct (novo_usuario body) as [obj|e] eqn:Hn; [|intros [= <- _]; discriminate].
  destruct (run_tx d _) as [[zs|e] d1] eqn:Hr; intros [= <- <-]; [|discriminate].
  intros _ Hu Hs Ha Hlu Hla.
  destruct (novo_usuario_lookup _ _ _ _ _ Hn Hu Hs Ha) as (Ou & Os & Oa).
  apply run_tx_single in Hr as (z & Hi & _). cbn [exec_stmt] in Hi.
  apply insert_row_ok in Hi as (r & d2 & Hb & Hrows & Hid & Hc & ->).
  assert (Ru : r !! "usuario" = Some (DText u))
    by (apply (bind_row_text _ _ _ (mkColumn "usuario" (CString (Some 50)) false true false None)
                             50 _ usuario_names_nodup Hb);
        [apply usuario_column_in; left | done | done | done]).
  assert (Rs : r !! "senha" = Some (DText (generate_password_hash s)))
    by (apply (bind_row_text _ _ _ (mkColumn "senha" (CString (Some 255)) false false false None)
                             255 _ usuario_names_nodup Hb);
        [apply usuario_column_in; right; left | done | done | apply hash_fits]).
  assert (Ra : r !! "acesso" = Some (DText a))
    by (apply (bind_row_text _ _ _ (mkColumn "acesso" (CString (Some 20)) false false false
                                      (Some (PStr "Usuario"))) 20 _ usuario_names_nodup Hb);
        [apply usuario_column_in; right; right; left | done | done | done]).
  pose proof (unique_login_absent _ _ _ _ (check_row_unique _ _ _ _ Hc) Hid Ru) as Habs.
  destruct (login_body u s) as [Lu Ls].
  unfold login. cbn [json_dict]. rewrite Lu, Ls. cbn [login_value hash_arg].
  unfold find_usuario. change (usuarios ?x) with (get_table x TUsuarios).
  rewrite get_set_rows, bool_decide_true by done.
  change (get_table d2 TUsuarios) with (usuarios d2).
  rewrite first_match_app_r by by apply first_match_None. cbn [first_match snd].
  rewrite Ru. cbn [default Datatypes.id dbval_eqb]. rewrite String.eqb_refl.
  unfold row_text. cbn [snd]. rewrite Rs, check_generated, Ra. reflexivity.
Qed.

(** C36.  Updating an account whose body has no truthy [senha] keeps the
    stored password hash: when [atualizar_usuario] answers 200, the row
    has the same [senha] as before. *)
Theorem atualizar_usuario_keeps_password id kvs d r resp d' :
  get_row d TUsuarios id = Some r ->
  py_truthy (default PNone (dict_of_pairs kvs !! "senha")) = false ->
  atualizar_usuario id (PDict kvs) d = (resp, d') -> r_status resp = 200%Z ->
  exists r', get_row d' TUsuarios id = Some r' /\ r' !! "senha" = r !! "senha".
Proof.
  intros Hr Hs. unfold atualizar_usuario. rewrite Hr.
  destruct (usuario_changes (PDict kvs)) as [ch|e] eqn:Hch; [|intros [= <- _]; discriminate].
  destruct (run_tx d _) as [[zs|e] d1] eqn:Hx; intros [= <- <-]; [|discriminate]. intros _.
  assert (Hk : ch !! "id" = None /\ ch !! "senha" = None).
  { unfold usuario_changes, senha_change in Hch. cbn [json_index] in Hch.
    destruct (dict_of_pairs kvs !! "nome"); [|discriminate].
    destruct (dict_of_pairs kvs !! "usuario"); [|discriminate].
    destruct (dict_of_pairs kvs !! "senha") as [v|]; cbn [default Datatypes.id] in Hs;
      [rewrite Hs in Hch|]; cbn [res_bind] in Hch;
      (destruct (dict_of_pairs kvs !! "acesso"); [|discriminate]); injection Hch as <-;
      unfold dict_of_pairs at 1; cbn [fold_left app]; split; by simplify_map_eq. }
  apply run_tx_single in Hx as (z & Hu & _). cbn [exec_stmt] in Hu.
  apply update_row_inv in Hu as (r0 & r' & Hg & Hb & Hkey & ->).
  rewrite Hr in Hg. injection Hg as <-.
  unfold update_key in Hkey. rewrite (proj1 Hk) in Hkey. injection Hkey as <-.
  exists r'. split; [by apply (get_row_replace _ _ _ r)|].
  destruct (bind_cols_spec _ _ _ _ usuario_names_nodup Hb) as [_ H2].
  apply H2. intros c _ Hne Heq. apply Hne. by rewrite Heq, (proj2 Hk).
Qed.

(** C37.  For a key with no account, [atualizar_usuario],
    [excluir_usuario] and [obter_usuario] answer Flask's 404 page and
    change nothing. *)
Theorem usuarios_missing_404 id body d :
  get_row d TUsuarios id = None ->
  atualizar_usuario id body d = (abort_404, d) /\ excluir_usuario id d = (abort_404, d) /\
  obter_usuario id d = abort_404.
Proof. intros H. unfold atualizar_usuario, excluir_usuario, obter_usuario. by rewrite H. Qed.


End Usuarios.

(** ** Concrete runs *)

(** A hash function satisfying the two laws of the section: a fixed
    digest of constant length, checked by comparison. *)
Definition hash_ex (p : string) : string := "pbkdf2:sha256:600000$salt$" +:+ "digest".

Definition check_ex (h p : string) : bool := String.eqb h (hash_ex p).

Lemma check_ex_generated p : check_ex (hash_ex p) p = true.
Proof. apply String.eqb_refl. Qed.

Lemma hash_ex_fits p : length (chars (hash_ex p)) <= 255.
Proof. vm_compute. lia. Qed.

Definition body_user : pyval :=
  PDict [("nome", PStr "Ana"); ("usuario", PStr "ana"); ("senha", PStr "segredo");
         ("acesso", PStr "Administrador")].

Definition d_user : db := (criar_usuario hash_ex body_user empty_db).2.

(** Witness of C27: Ana's account, then her login. *)
Lemma criar_login_roundtrip_witness :
  r_status (criar_usuario hash_ex body_user empty_db).1 = 201%Z /\
  login check_ex (PDict [("usuario", PStr "ana"); ("senha", PStr "segredo")]) d_user =
    login_ok (PStr "Administrador").
Proof.
  assert (Hs : r_status (criar_usuario hash_ex body_user empty_db).1 = 201%Z)
    by (vm_compute; reflexivity).
  split; [exact Hs|].
  apply (criar_login_roundtrip hash_ex check_ex check_ex_generated hash_ex_fits body_user empty_db
           _ _ "ana" "segredo" "Administrador" (surjective_pairing _) Hs);
    [reflexivity | reflexivity | reflexivity | vm_compute; lia | vm_compute; lia].
Defined.

Definition r_user : row := default ∅ (get_row d_user TUsuarios 1).

Definition kvs_update : list (string * pyval) :=
  [("nome", PStr "Ana Maria"); ("usuario", PStr "ana"); ("senha", PStr ""); ("acesso", PStr "Usuario")].

(** Witness of C36: renaming Ana with an empty password field. *)
Lemma atualizar_usuario_keeps_password_witness :
  get_row d_user TUsuarios 1 = Some r_user /\
  py_truthy (default PNone (dict_of_pairs kvs_update !! "senha")) = false /\
  r_status (atualizar_usuario hash_ex 1 (PDict kvs_update) d_user).1 = 200%Z /\
  exists r', get_row (atualizar_usuario hash_ex 1 (PDict kvs_update) d_user).2 TUsuarios 1 = Some r' /\
             r' !! "senha" = r_user !! "senha".
Proof.
  assert (H1 : get_row d_user TUsuarios 1 = Some r_user) by (vm_compute; reflexivity).
  assert (H2 : py_truthy (default PNone (dict_of_pairs kvs_update !! "senha")) = false)
    by (vm_compute; reflexivity).
  assert (H3 : r_status (atualizar_usuario hash_ex 1 (PDict kvs_update) d_user).1 = 200%Z)
    by (vm_compute; reflexivity).
  split; [exact H1|]. split; [exact H2|]. split; [exact H3|].
  exact (atualizar_usuario_keeps_password hash_ex 1 kvs_update d_user r_user _ _ H1 H2
           (surjective_pairing _) H3).
Defined.

(** Witness of C37: no account 7 in [d_user]. *)
Lemma usuarios_missing_404_witness :
  get_row d_user TUsuarios 7 = None /\
  atualizar_usuario hash_ex 7 body_user d_user = (abort_404, d_user) /\
  excluir_usuario 7 d_user = (abort_404, d_user) /\ obter_usuario 7 d_user = abort_404.
Proof.
  assert (H : get_row d_user TUsuarios 7 = None) by (vm_compute; reflexivity).
  split; [exact H | exact (usuarios_missing_404 hash_ex 7 body_user d_user H)].
Defined.

(** A second account with the same login is refused by the [UNIQUE]
    constraint (the 500 page), a body without [senha] raises [KeyError],
    and a wrong password fails. *)
Example usuarios_runs :
  (criar_usuario hash_ex body_user d_user).1 = server_error (DatabaseError UniqueViolation) /\
  (criar_usuario hash_ex (PDict [("nome", PStr "Bia")]) d_user).1 = server_error (KeyError "senha") /\
  login (fun h p => String.eqb p "segredo") (PDict [("usuario", PStr "ana"); ("senha", PStr "x")]) d_user =
    login_failed.
Proof. split; [|split]; vm_compute; reflexivity. Qed.
