(* ===== verification/Config.v ===== *)
(** * The database URL ([app.py] 17-21)

    Render hands the application a [DATABASE_URL] with the scheme
    [postgres://], which SQLAlchemy 1.4 and later no longer accept; lines
    18-19 rewrite it to [postgresql://] with [str.replace(old, new, 1)].

    [replace_count] is Python's [str.replace] with a count, on the bytes
    of the strings: left to right, without overlap, at most [n] times (for
    a non-empty [old] the bytes of UTF-8 text give the same result as
    code points; an empty [old] inserts [new] between bytes where Python
    inserts it between code points).  Its recursion continues after the
    replaced occurrence, which is not a structural subterm: it is defined
    with Equations by well-founded recursion on the length of the text. *)

From S2P Require Import Prelude Text.
From Equations Require Import Equations.

Equations replace_count (n : nat) (old new s : list ascii) : list ascii by wf (length s) lt :=
  replace_count 0 old new s := s;
  replace_count (S n') [] new [] := new;
  replace_count (S n') [] new (c :: s') := new ++ c :: replace_count n' [] new s';
  replace_count (S n') (o :: os) new [] := [];
  replace_count (S n') (o :: os) new (c :: s') with bool_decide (o = c) && prefixb os s' => {
    | true := new ++ replace_count n' (o :: os) new (drop (length os) s');
    | false := c :: replace_count (S n') (o :: os) new s' }.
Next Obligation. rewrite length_drop. simpl. lia. Qed.

(** [str.replace(old, new, count)] *)
Definition py_replace (s old new : string) (count : nat) : string :=
  string_of_list_ascii (replace_count count (bytes old) (bytes new) (bytes s)).

(** [str.startswith] *)
Definition starts_with (s pre : string) : bool := prefixb (bytes pre) (bytes s).

(** Lines 17-21: [os.environ.get('DATABASE_URL')], rewritten when it is a
    non-empty [postgres://] URL, becomes [SQLALCHEMY_DATABASE_URI]. *)
Definition database_uri (env : option string) : option string :=
  match env with
  | Some url =>
      if negb (String.eqb url "") && starts_with url "postgres://"
      then Some (py_replace url "postgres://" "postgresql://" 1)
      else Some url
  | None => None
  end.

(** * Properties *)

Lemma prefixb_app {A} `{EqDecision A} (w r : list A) : prefixb w (w ++ r) = true.
Proof. apply prefixb_spec. eauto. Qed.

Lemma replace_count_once old new rest :
  old <> [] -> replace_count 1 old new (old ++ rest) = new ++ rest.
Proof.
  destruct old as [|o os]; [done|]. intros _. cbn [app]. simp replace_count. rewrite bool_decide_true, prefixb_app by done. cbn [andb].
  simp replace_count. by rewrite drop_app_length.
Qed.

Lemma starts_with_spec s pre : starts_with s pre = true <-> exists rest, s = pre +:+ rest.
Proof.
  unfold starts_with. rewrite prefixb_spec. split.
  - intros [r Hr]. exists (string_of_list_ascii r).
    apply (f_equal string_of_list_ascii) in Hr. unfold bytes in Hr.
    rewrite string_of_list_ascii_of_string in Hr. rewrite Hr.
    clear Hr. induction pre as [|a pre IH]; cbn; [done | by rewrite IH].
  - intros [r ->]. exists (bytes r). apply bytes_app.
Qed.

(** C39.  The rewrite of lines 18-19 is the scheme swap: a [postgres://]
    URL becomes the [postgresql://] URL with the same rest, every other
    URL (an already rewritten one included) is kept, and an unset
    variable stays unset. *)
Theorem database_uri_swap :
  (forall rest, database_uri (Some ("postgres://" +:+ rest)) = Some ("postgresql://" +:+ rest)) /\
  (forall url, starts_with url "postgres://" = false -> database_uri (Some url) = Some url) /\
  database_uri None = None.
Proof.
  split; [|split; [|done]].
  - intros rest. unfold database_uri.
    assert (Hs : starts_with ("postgres://" +:+ rest) "postgres://" = true)
      by (apply starts_with_spec; eauto).
    rewrite Hs. cbn [String.eqb negb andb append]. f_equal.
    unfold py_replace. rewrite bytes_app, replace_count_once by discriminate.
    rewrite <- bytes_app. apply string_of_list_ascii_of_string.
  - intros url Hn. unfold database_uri. rewrite Hn. by rewrite andb_false_r.
Qed.


(** Witness of C39: Render's URL, and one already rewritten. *)
Lemma database_uri_swap_witness :
  database_uri (Some ("postgres://" +:+ "reurb:pw@db.render.com/reurb")) =
    Some ("postgresql://" +:+ "reurb:pw@db.render.com/reurb") /\
  starts_with "postgresql://reurb@h/db" "postgres://" = false /\
  database_uri (Some "postgresql://reurb@h/db") = Some "postgresql://reurb@h/db".
Proof.
  assert (H : starts_with "postgresql://reurb@h/db" "postgres://" = false) by reflexivity.
  split; [exact (proj1 database_uri_swap _)|]. split; [exact H|].
  exact (proj1 (proj2 database_uri_swap) _ H).
Defined.

(** Python's replace: only the first occurrence when the count is 1, and
    an empty pattern inserted before each character up to the count. *)
Example py_replace_runs :
  py_replace "postgres://postgres://" "postgres://" "postgresql://" 1 =
    "postgresql://postgres://" /\
  py_replace "abc" "" "X" 2 = "XaXbc" /\
  database_uri (Some "") = Some "".
Proof. split; [|split]; vm_compute; reflexivity. Qed.
