(* ===== verification/Listing.v ===== *)
(** * The listing over the database ([app.py] 234-268)

    [listar] reads the registrations and the three reference tables from
    the database state and runs the valuation of [Valuation.v] on them:
    a column is read back as the ORM returns it ([NULL] is [None]).  The
    reference columns it reads are [NOT NULL]; a missing value (which the
    database invariant excludes) reads as [""] or [nan]. *)

From S2P Require Import Prelude PyFloat Text NumText PyVal Schema Adapt Db Http Valuation.

Definition col_text (r : row) (k : string) : option string :=
  match r !! k with Some (DText s) => Some s | _ => None end.

Definition col_float (r : row) (k : string) : option pyfloat :=
  match r !! k with Some (DFloat f) => Some f | _ => None end.

Definition cad_view_of (p : Z * row) : cad_view :=
  let '(id, r) := p in
  mkCadView id (col_text r "req_nome") (col_text r "req_cpf") (col_text r "req_rg")
    (col_text r "req_telefone") (col_text r "req_email")
    (col_text r "imovel_logradouro") (col_text r "imovel_numero")
    (col_text r "inscricao_imobiliaria") (col_float r "imovel_area_total")
    (col_float r "imovel_area_construida") (col_text r "imovel_uso")
    (col_text r "imovel_tipo_construcao") (col_float r "reurb_renda_familiar").

Definition ref_tables_of (d : db) : ref_tables :=
  mkRefTables
    (map (fun '(id, r) => mkValorLogradouro id (default "" (col_text r "logradouro"))
                            (default NaN (col_float r "valor_m2")))
         (t_rows (Db.valores_logradouro d)))
    (map (fun '(id, r) => mkPadraoConstrutivo id (default "" (col_text r "descricao"))
                            (default NaN (col_float r "valor_m2")))
         (t_rows (Db.padroes_construtivos d)))
    (map (fun '(id, r) => mkAliquotaIPTU id (default "" (col_text r "tipo"))
                            (default NaN (col_float r "aliquota")))
         (t_rows (Db.aliquotas_iptu d))).

(** GET /api/novo_cadastro_reurb/listar *)
Definition listar (d : db) : list list_item :=
  listar_cadastros_reurb (ref_tables_of d) (map cad_view_of (t_rows (cadastros_reurb d))).

(** The dict of lines 256-267: an [Optional] column is [None] when it is
    [NULL]. *)
Definition opt_str (o : option string) : pyval :=
  match o with Some s => PStr s | None => PNone end.

Definition opt_float (o : option pyfloat) : pyval :=
  match o with Some f => PFloat f | None => PNone end.

Definition list_item_json (li : list_item) : pyval :=
  PDict [("id", PInt (li_id li)); ("nome", opt_str (li_nome li));
         ("cpf", opt_str (li_cpf li)); ("rg", opt_str (li_rg li));
         ("telefone", opt_str (li_telefone li)); ("email", opt_str (li_email li));
         ("endereco", PStr (li_endereco li));
         ("inscricao_imobiliaria", opt_str (li_inscricao_imobiliaria li));
         ("area_total", opt_float (li_area_total li));
         ("area_construida", opt_float (li_area_construida li));
         ("renda_familiar", opt_float (li_renda_familiar li));
         ("vvt", PFloat (li_vvt li)); ("vvc", PFloat (li_vvc li));
         ("vvi", PFloat (li_vvi li)); ("iptu", PFloat (li_iptu li));
         ("tipo_reurb", PStr (li_tipo_reurb li))].

(** [return jsonify(lista), 200] (268). *)
Definition listar_response (d : db) : response :=
  mkResponse 200 (PList (map list_item_json (listar d))) None.
