(* ===== verification/App.v ===== *)
(** * The application: URL map, dispatch, health check and start-up

    The [@app.route] decorators of [app.py] build Werkzeug's URL map: a
    rule is a path pattern of static parts and converters ([<int:id>],
    [<string:tipo>]) with its methods and its view.  A request is routed
    to the rule whose pattern matches its path and whose methods contain
    its method; a path that some rule matches with none of them is 405
    Method Not Allowed, a path no rule matches is 404.  The view then runs
    on the database state with the converted arguments.

    - [url_map] lists the 19 rules in the order of the source;
      [int_segment] is the [int] converter (one or more ASCII digits, read
      in base 10, never negative), [StrConv] the default [string]
      converter (a non-empty segment).
    - [handle] calls the view of each endpoint, the functions of the other
      files, on the JSON body, the uploaded file or the path arguments;
      [serve] is one request, [serve_all] a sequence of requests in order.
    - [health_check] (203-209) answers 200 when [SELECT 1] succeeds and 500
      otherwise; the outcome of [SELECT 1] is the parameter [select_1].
    - [create_all] (130-131) creates the tables of a fresh database; an
      existing database is kept.  [server_port] is the port of line 512.

    HEAD and OPTIONS, which Flask and flask_cors answer on their own, the
    redirect of a URL with a trailing slash, and digits other than ASCII
    in an [int] segment are not modelled: such requests are outside the
    [request] type or routed as 404.

    ** Properties

    The URL map is unambiguous (at most one rule for a method and a path),
    routes [str(id)] back to [id] and never gives a view a negative key:
    a registration stored under a negative id (the create handler accepts
    an explicit [id]) can be neither read, updated nor deleted.  Serving
    any sequence of requests preserves the database invariant [wf_db]
    from the start-up state (rule induction on [reachable]); and every
    registration with a non-negative key can be deleted through the API,
    so the registrations can always be cleared. *)

From S2P Require Import Prelude PyFloat Text NumText PyVal Schema Adapt Db Http Binding Valuation Cadastro Construcoes PlantaGenerica Importar Exportar Usuarios Config Listing.
From Stdlib Require Import DecimalString DecimalPos.

Inductive meth : Type := GET | POST | PUT | DELETE | PATCH.

#[export] Instance meth_eq_dec : EqDecision meth.
Proof. solve_decision. Defined.

(** A segment of a rule's path. *)
Inductive seg : Type :=
| Lit (s : string)
| IntConv            (** [<int:...>] *)
| StrConv.           (** [<string:...>] *)

Inductive endpoint : Type :=
| ELogin | ECriarUsuario | EListarUsuarios | EAtualizarUsuario | EExcluirUsuario
| EObterUsuario | EHealth | ENovoCadastro | EListarCadastros | EObterCadastro
| EAtualizarCadastro | EExcluirCadastro | EAdicionarConstrucao | EListarConstrucoes
| EExcluirConstrucao | EPlanta | EExcluirPlantaItem | EImportar | EExportar.

#[export] Instance endpoint_eq_dec : EqDecision endpoint.
Proof. solve_decision. Defined.

Record rule := mkRule {
  ru_path : list seg;
  ru_methods : list meth;
  ru_endpoint : endpoint
}.

Definition api (ss : list seg) : list seg := Lit "api" :: ss.

(** The decorators of lines 134-461, in the order of the source. *)
Definition url_map : list rule :=
  [mkRule (api [Lit "login"]) [POST] ELogin;
   mkRule (api [Lit "usuarios"]) [POST] ECriarUsuario;
   mkRule (api [Lit "usuarios"]) [GET] EListarUsuarios;
   mkRule (api [Lit "usuarios"; IntConv]) [PUT] EAtualizarUsuario;
   mkRule (api [Lit "usuarios"; IntConv]) [DELETE] EExcluirUsuario;
   mkRule (api [Lit "usuarios"; IntConv]) [GET] EObterUsuario;
   mkRule (api [Lit "health"]) [GET] EHealth;
   mkRule (api [Lit "novo_cadastro_reurb"]) [POST] ENovoCadastro;
   mkRule (api [Lit "novo_cadastro_reurb"; Lit "listar"]) [GET] EListarCadastros;
   mkRule (api [Lit "novo_cadastro_reurb"; IntConv]) [GET] EObterCadastro;
   mkRule (api [Lit "novo_cadastro_reurb"; IntConv]) [PUT] EAtualizarCadastro;
   mkRule (api [Lit "novo_cadastro_reurb"; IntConv]) [DELETE] EExcluirCadastro;
   mkRule (api [Lit "construcoes"; IntConv]) [POST] EAdicionarConstrucao;
   mkRule (api [Lit "construcoes"; IntConv]) [GET] EListarConstrucoes;
   mkRule (api [Lit "construcoes"; IntConv]) [DELETE] EExcluirConstrucao;
   mkRule (api [Lit "planta_generica"; StrConv]) [GET; POST] EPlanta;
   mkRule (api [Lit "planta_generica"; StrConv; IntConv]) [DELETE] EExcluirPlantaItem;
   mkRule (api [Lit "importar"]) [POST] EImportar;
   mkRule (api [Lit "exportar"]) [POST] EExportar].

(** ** Paths and converters *)

Fixpoint split_on (c : ascii) (bs : list ascii) : list (list ascii) :=
  match bs with
  | [] => [[]]
  | b :: bs' =>
      if bool_decide (b = c) then [] :: split_on c bs'
      else match split_on c bs' with
           | w :: ws => (b :: w) :: ws
           | [] => [[b]]
           end
  end.

(** The segments of a path ["/api/usuarios/5"]. *)
Definition split_path (path : string) : list string :=
  match bytes path with
  | "/"%char :: rest => map string_of_list_ascii (split_on "/"%char rest)
  | _ => []
  end.

(** Werkzeug's [IntegerConverter]: [\d+] read with [int]. *)
Definition int_segment (x : string) : option Z :=
  match digitpart false (bytes x) with
  | Some (ds, []) => Some (from_digits ds)
  | _ => None
  end.

Inductive arg : Type :=
| AInt (z : Z)
| AStr (s : string).

Definition match_seg (sg : seg) (x : string) : option (list arg) :=
  match sg with
  | Lit s => if String.eqb s x then Some [] else None
  | IntConv => z ← int_segment x; Some [AInt z]
  | StrConv => if String.eqb x "" then None else Some [AStr x]
  end.

Fixpoint match_path (p : list seg) (xs : list string) : option (list arg) :=
  match p, xs with
  | [], [] => Some []
  | sg :: p', x :: xs' =>
      a ← match_seg sg x; rest ← match_path p' xs'; Some (a ++ rest)
  | _, _ => None
  end.

Inductive routed : Type :=
| Routed (e : endpoint) (args : list arg)
| MethodNotAllowed
| NoRoute.

Definition match_rule (m : meth) (xs : list string) (r : rule) : option (endpoint * list arg) :=
  if bool_decide (m ∈ ru_methods r) then (fun a => (ru_endpoint r, a)) <$> match_path (ru_path r) xs
  else None.

(** [MapAdapter.match]: the first rule for the method and the path, else
    405 when the path matches some rule, else 404. *)
Definition route (m : meth) (xs : list string) : routed :=
  match head (omap (match_rule m xs) url_map) with
  | Some (e, args) => Routed e args
  | None =>
      if existsb (fun r => bool_decide (is_Some (match_path (ru_path r) xs))) url_map
      then MethodNotAllowed else NoRoute
  end.

(** ** Requests and views *)

Record request := mkRequest {
  rq_method : meth;
  rq_path : string;
  rq_json : pyval;            (** [request.get_json()] *)
  rq_file : option upload     (** [request.files['arquivo']] *)
}.

(** A JSON response, or the workbook of [send_file]. *)
Inductive answer : Type :=
| Json (r : response)
| File (sh : sheet).

Definition status (a : answer) : Z :=
  match a with Json r => r_status r | File _ => 200 end.

(** Werkzeug's 405 page. *)
Definition method_not_allowed : response := mkResponse 405 PNone None.

Section App.

Context (generate_password_hash : string -> string).
Context (check_password_hash : string -> string -> bool).
(** The outcome of [db.session.execute(text('SELECT 1'))] on a state. *)
Context (select_1 : db -> result exn unit).

(** GET /api/health (203-209). *)
Definition health_check (d : db) : response :=
  match select_1 d with
  | Ok _ => mkResponse 200 (PDict [("status", PStr "ok");
                                    ("mensagem", PStr "Conectado ao banco de dados")]) None
  | Err e => mkResponse 500 (PDict [("status", PStr "erro")]) (Some e)
  end.

Definition json_only (p : response * db) : answer * db := (Json p.1, p.2).

(** The view of an endpoint with the arguments its rule converted. *)
Definition handle (m : meth) (e : endpoint) (args : list arg) (rq : request) (d : db)
  : answer * db :=
  let body := rq_json rq in
  match e, args with
  | ELogin, [] => (Json (login check_password_hash body d), d)
  | ECriarUsuario, [] => json_only (criar_usuario generate_password_hash body d)
  | EListarUsuarios, [] => (Json (listar_usuarios d), d)
  | EAtualizarUsuario, [AInt id] => json_only (atualizar_usuario generate_password_hash id body d)
  | EExcluirUsuario, [AInt id] => json_only (excluir_usuario id d)
  | EObterUsuario, [AInt id] => (Json (obter_usuario id d), d)
  | EHealth, [] => (Json (health_check d), d)
  | ENovoCadastro, [] => json_only (novo_cadastro_reurb body d)
  | EListarCadastros, [] => (Json (listar_response d), d)
  | EObterCadastro, [AInt id] => (Json (obter_cadastro_reurb id d), d)
  | EAtualizarCadastro, [AInt id] => json_only (atualizar_cadastro_reurb id body d)
  | EExcluirCadastro, [AInt id] => json_only (excluir_cadastro_reurb id d)
  | EAdicionarConstrucao, [AInt id] => json_only (adicionar_construcao id body d)
  | EListarConstrucoes, [AInt id] => (Json (listar_construcoes id d), d)
  | EExcluirConstrucao, [AInt id] => json_only (excluir_construcao id d)
  | EPlanta, [AStr tipo] =>
      json_only (planta_generica_crud tipo (if bool_decide (m = POST) then PlantaPost body else PlantaGet) d)
  | EExcluirPlantaItem, [AStr tipo; AInt id] => json_only (excluir_planta_generica_item tipo id d)
  | EImportar, [] => json_only (importar_dados (rq_file rq) d)
  | EExportar, [] =>
      (match exportar_dados body d with inl r => Json r | inr sh => File sh end, d)
  | _, _ => (Json (server_error TypeError), d)  (** no rule converts these arguments *)
  end.

(** One request: routing, then the view. *)
Definition serve (rq : request) (d : db) : answer * db :=
  match route (rq_method rq) (split_path (rq_path rq)) with
  | Routed e args => handle (rq_method rq) e args rq d
  | MethodNotAllowed => (Json method_not_allowed, d)
  | NoRoute => (Json abort_404, d)
  end.

(** Requests served one after the other. *)
Fixpoint serve_all (rqs : list request) (d : db) : list answer * db :=
  match rqs with
  | [] => ([], d)
  | rq :: rqs' =>
      let '(a, d1) := serve rq d in
      let '(as_, d2) := serve_all rqs' d1 in (a :: as_, d2)
  end.

End App.

(** ** Start-up *)

(** [db.create_all()] (130-131): the tables of a fresh database; an
    existing one is kept as it is. *)
Definition create_all (existing : option db) : db := default empty_db existing.

(** [int(os.environ.get('PORT', 5000))] (512), with Python's [int] on
    text: surrounding spaces, a sign, digits with single underscores. *)
Definition py_int (s : string) : result exn Z :=
  match strip (bytes s) with
  | [] => Err ValueError
  | a :: r =>
      let '(neg, body) :=
        if bool_decide (a = "-"%char) then (true, r)
        else if bool_decide (a = "+"%char) then (false, r)
        else (false, a :: r) in
      match digitpart true body with
      | Some (ds, []) => Ok (if neg then (- from_digits ds)%Z else from_digits ds)
      | _ => Err ValueError
      end
  end.

(** [app.run(port=...)]: the socket refuses a port outside 0-65535 with
    [OverflowError]. *)
Definition server_port (env : option string) : result exn Z :=
  match env with
  | None => Ok 5000%Z
  | Some s =>
      p <- py_int s ;;
      if ((0 <=? p) && (p <=? 65535))%Z then Ok p else Err OverflowError
  end.

(** * Properties *)

(** ** Every view keeps the database invariant *)

(** A view's state is the one it was given or the state after its
    transaction. *)
Ltac view_wf :=
  repeat (case_match; simplify_eq; cbn [fst snd]); try assumption;
  match goal with
  | H : run_tx ?d ?ss = (_, ?d') |- wf_db ?d' => exact (run_tx_state_wf d ss _ d' H ltac:(assumption))
  end.

Section Views.
Context (gen : string -> string).
Variable d : db.
Hypothesis Hwf : wf_db d.

Lemma criar_usuario_wf body : wf_db (criar_usuario gen body d).2.
Proof. unfold criar_usuario. view_wf. Qed.
Lemma atualizar_usuario_wf id body : wf_db (atualizar_usuario gen id body d).2.
Proof. unfold atualizar_usuario. view_wf. Qed.
Lemma excluir_usuario_wf id : wf_db (excluir_usuario id d).2.
Proof. unfold excluir_usuario. view_wf. Qed.
Lemma novo_cadastro_reurb_wf body : wf_db (novo_cadastro_reurb body d).2.
Proof. unfold novo_cadastro_reurb. view_wf. Qed.
Lemma atualizar_cadastro_reurb_wf id body : wf_db (atualizar_cadastro_reurb id body d).2.
Proof. unfold atualizar_cadastro_reurb. view_wf. Qed.
Lemma excluir_cadastro_reurb_wf id : wf_db (excluir_cadastro_reurb id d).2.
Proof. unfold excluir_cadastro_reurb. view_wf. Qed.
Lemma adicionar_construcao_wf id body : wf_db (adicionar_construcao id body d).2.
Proof. unfold adicionar_construcao. view_wf. Qed.
Lemma excluir_construcao_wf id : wf_db (excluir_construcao id d).2.
Proof. unfold excluir_construcao. view_wf. Qed.
Lemma planta_generica_crud_wf tipo req : wf_db (planta_generica_crud tipo req d).2.
Proof. unfold planta_generica_crud. view_wf. Qed.
Lemma excluir_planta_generica_item_wf tipo id : wf_db (excluir_planta_generica_item tipo id d).2.
Proof. unfold excluir_planta_generica_item. view_wf. Qed.
Lemma importar_dados_wf up : wf_db (importar_dados up d).2.
Proof. unfold importar_dados. view_wf. Qed.
End Views.

Create HintDb views.
#[export] Hint Resolve criar_usuario_wf atualizar_usuario_wf excluir_usuario_wf
  novo_cadastro_reurb_wf atualizar_cadastro_reurb_wf excluir_cadastro_reurb_wf
  adicionar_construcao_wf excluir_construcao_wf planta_generica_crud_wf
  excluir_planta_generica_item_wf importar_dados_wf : views.

Section Server.
Context (gen : string -> string) (chk : string -> string -> bool).
Context (select_1 : db -> result exn unit).

Lemma handle_wf m e args rq d : wf_db d -> wf_db (handle gen chk select_1 m e args rq d).2.
Proof. intros Hwf. unfold handle, json_only. repeat case_match; cbn [fst snd]; eauto with views. Qed.

Lemma serve_wf rq d : wf_db d -> wf_db (serve gen chk select_1 rq d).2.
Proof. intros Hwf. unfold serve. case_match; [by apply handle_wf | done | done]. Qed.

(** The states the server can be in: the tables [create_all] made on a
    fresh database, then any request served. *)
Inductive reachable : db -> Prop :=
| reach_start : reachable (create_all None)
| reach_serve rq d : reachable d -> reachable (serve gen chk select_1 rq d).2.


End Server.

(** ** Routing *)
Local Set Warnings "-clear-no-such-hyp".

Lemma from_digits_nonneg ds : (0 <= from_digits ds)%Z.
Proof.
  unfold from_digits. assert (H : forall acc, (0 <= acc)%Z ->
    (0 <= fold_left (fun acc d => 10 * acc + Z.of_nat d) ds acc)%Z).
  { induction ds as [|k ds IH]; intros acc Hacc; simpl; [done|]. apply IH. lia. }
  by apply H.
Qed.

Lemma int_segment_nonneg x z : int_segment x = Some z -> (0 <= z)%Z.
Proof. unfold int_segment. repeat case_match; intros; simplify_eq. apply from_digits_nonneg. Qed.

Lemma match_path_nonneg p xs args z :
  match_path p xs = Some args -> AInt z ∈ args -> (0 <= z)%Z.
Proof.
  revert xs args. induction p as [|sg p IH]; intros [|x xs] args; simpl; try congruence.
  { intros [= <-]. set_solver. }
  destruct (match_seg sg x) as [a|] eqn:Hs; [|done]. cbn.
  destruct (match_path p xs) as [rest|] eqn:Hp; [|done]. intros [= <-] [Ha | Hr]%elem_of_app.
  - destruct sg; simpl in Hs.
    + destruct (String.eqb _ _); simplify_eq. set_solver.
    + destruct (int_segment x) as [k|] eqn:Hi; simplify_eq/=.
      apply list_elem_of_singleton in Ha as [= ->]. by eapply int_segment_nonneg.
    + destruct (String.eqb _ _); simplify_eq. set_solver.
  - by eapply IH.
Qed.

Lemma route_rule m xs e args :
  route m xs = Routed e args ->
  exists r, r ∈ url_map /\ m ∈ ru_methods r /\
            ru_endpoint r = e /\ match_path (ru_path r) xs = Some args.
Proof.
  unfold route. destruct (head _) as [[e' a']|] eqn:Hh; [|by case_match].
  intros [= -> ->]. apply head_Some_elem_of, list_elem_of_omap in Hh as (r & Hr & Hm).
  exists r. unfold match_rule in Hm. case_bool_decide; [|done].
  destruct (match_path _ _) eqn:Hp; simplify_eq/=. done.
Qed.


(** Two segments some path segment matches both of. *)
Definition seg_overlap (s1 s2 : seg) : bool :=
  match s1, s2 with
  | Lit a, Lit b => String.eqb a b
  | Lit a, IntConv | IntConv, Lit a => bool_decide (is_Some (int_segment a))
  | Lit a, StrConv | StrConv, Lit a => negb (String.eqb a "")
  | _, _ => true
  end.

Fixpoint path_overlap (p1 p2 : list seg) : bool :=
  match p1, p2 with
  | [], [] => true
  | s1 :: p1', s2 :: p2' => seg_overlap s1 s2 && path_overlap p1' p2'
  | _, _ => false
  end.

(** Two rules no request can match both of: no common method or no
    common path. *)
Definition rules_disjoint (r1 r2 : rule) : bool :=
  forallb (fun m => bool_decide (m ∉ ru_methods r2)) (ru_methods r1) ||
  negb (path_overlap (ru_path r1) (ru_path r2)).

Fixpoint unambiguous (rs : list rule) : bool :=
  match rs with
  | [] => true
  | r :: rs' => forallb (rules_disjoint r) rs' && unambiguous rs'
  end.

Lemma match_seg_overlap s1 s2 x a1 a2 :
  match_seg s1 x = Some a1 -> match_seg s2 x = Some a2 -> seg_overlap s1 s2 = true.
Proof.
  destruct s1 as [a| |], s2 as [b| |]; simpl;
    repeat match goal with
           | |- context [String.eqb ?u ?v] => destruct (String.eqb_spec u v)
           | |- context [int_segment ?u] => destruct (int_segment u) eqn:?
           end; simpl; intros; simplify_eq; try done;
    try (by apply String.eqb_eq); try (by rewrite bool_decide_true by eauto);
    try (by apply negb_true_iff, String.eqb_neq).
Qed.

Lemma match_path_overlap p1 p2 xs a1 a2 :
  match_path p1 xs = Some a1 -> match_path p2 xs = Some a2 -> path_overlap p1 p2 = true.
Proof.
  revert p2 xs a1 a2. induction p1 as [|s1 p1 IH]; intros [|s2 p2] [|x xs] a1 a2; simpl; try done.
  destruct (match_seg s1 x) eqn:H1, (match_seg s2 x) eqn:H2; simpl; try done.
  destruct (match_path p1 xs) eqn:H3, (match_path p2 xs) eqn:H4; simpl; try done.
  intros _ _. rewrite (match_seg_overlap s1 s2 x _ _ H1 H2). simpl. by eapply IH.
Qed.

Lemma rules_disjoint_match r1 r2 m xs :
  rules_disjoint r1 r2 = true -> is_Some (match_rule m xs r1) -> match_rule m xs r2 = None.
Proof.
  unfold rules_disjoint, match_rule. intros Hd [x Hx].
  case_bool_decide as Hm1; [|done]. case_bool_decide as Hm2; [|done].
  destruct (match_path (ru_path r1) xs) eqn:Hp1; [|done].
  destruct (match_path (ru_path r2) xs) eqn:Hp2; [|done]. exfalso.
  apply orb_true_iff in Hd as [Hf | Ho].
  - rewrite forallb_forall in Hf. specialize (Hf m (proj1 (list_elem_of_In _ _) Hm1)).
    by apply bool_decide_eq_true in Hf.
  - rewrite (match_path_overlap _ _ _ _ _ Hp1 Hp2) in Ho. discriminate.
Qed.

Lemma omap_none {A B} (f : A -> option B) l : Forall (fun x => f x = None) l -> omap f l = [].
Proof. induction 1 as [|x l Hx _ IH]; simpl; [done|]. by rewrite Hx. Qed.

Lemma unambiguous_omap rs m xs :
  unambiguous rs = true -> length (omap (match_rule m xs) rs) <= 1.
Proof.
  induction rs as [|r rs IH]; simpl; [lia|]. intros [Hf Hu]%andb_true_iff.
  destruct (match_rule m xs r) eqn:Hr; simpl; [|by apply IH].
  rewrite omap_none; [simpl; lia|]. apply Forall_forall. intros r' Hr'.
  apply (rules_disjoint_match r r'); [|by rewrite Hr].
  rewrite forallb_forall in Hf. exact (Hf r' (proj1 (list_elem_of_In _ _) Hr')).
Qed.

Lemma url_map_unambiguous : unambiguous url_map = true.
Proof. vm_compute. reflexivity. Qed.

(** C30.  The URL map is unambiguous: for every method and path at most
    one rule applies, so the order of the decorators does not matter
    (the three rules of [/api/usuarios/<int:id>] and of
    [/api/construcoes/<int:...>] are told apart by their methods,
    [listar] is not an [int]). *)
Theorem route_unambiguous m xs : length (omap (match_rule m xs) url_map) <= 1.
Proof. apply unambiguous_omap, url_map_unambiguous. Qed.

(** ** [str(id)] in a path *)

Fixpoint uint_digits (u : Decimal.uint) : list nat :=
  match u with
  | Decimal.Nil => []
  | Decimal.D0 u => 0 :: uint_digits u | Decimal.D1 u => 1 :: uint_digits u
  | Decimal.D2 u => 2 :: uint_digits u | Decimal.D3 u => 3 :: uint_digits u
  | Decimal.D4 u => 4 :: uint_digits u | Decimal.D5 u => 5 :: uint_digits u
  | Decimal.D6 u => 6 :: uint_digits u | Decimal.D7 u => 7 :: uint_digits u
  | Decimal.D8 u => 8 :: uint_digits u | Decimal.D9 u => 9 :: uint_digits u
  end%nat.

Lemma more_digits_uint u :
  more_digits false (bytes (NilEmpty.string_of_uint u)) = (uint_digits u, []).
Proof. unfold bytes. induction u; simpl; try rewrite IHu; reflexivity. Qed.

Lemma of_uint_acc_digits u acc :
  Zpos (Pos.of_uint_acc u acc) =
  fold_left (fun a d => 10 * a + Z.of_nat d)%Z (uint_digits u) (Zpos acc).
Proof.
  revert acc. induction u; intros acc; cbn [Pos.of_uint_acc uint_digits fold_left];
    try rewrite IHu; try reflexivity; f_equal; rewrite ?Pos2Z.inj_add, Pos2Z.inj_mul; lia.
Qed.

Lemma of_uint_digits u : Z.of_N (Pos.of_uint u) = from_digits (uint_digits u).
Proof. unfold from_digits. induction u; simpl; rewrite ?of_uint_acc_digits; done. Qed.

Lemma digitpart_uint u :
  u <> Decimal.Nil -> digitpart false (bytes (NilEmpty.string_of_uint u)) = Some (uint_digits u, []).
Proof.
  destruct u as [|u|u|u|u|u|u|u|u|u|u]; intros Hn; [done|..];
    pose proof (more_digits_uint u) as H; unfold bytes in *; simpl; rewrite H; reflexivity.
Qed.

(** [str(z)] read back by the [int] converter. *)
Lemma int_segment_z_text z : (0 <= z)%Z -> int_segment (z_text z) = Some z.
Proof.
  intros Hz. unfold int_segment. destruct z as [|p|p]; [reflexivity | | lia].
  unfold z_text. cbn [Z.to_int NilEmpty.string_of_int].
  rewrite digitpart_uint by apply Unsigned.to_uint_nonnil.
  by rewrite <- of_uint_digits, Unsigned.of_to.
Qed.

Lemma more_digits_all bs ds : more_digits false bs = (ds, []) -> Forall (fun a => is_Some (digit_val a)) bs.
Proof.
  revert ds. induction bs as [|a bs IH]; intros ds; simpl; [constructor|].
  destruct (digit_val a) eqn:Ha; [|done].
  destruct (more_digits false bs) eqn:Hm. intros [= _ ->]. constructor; [by eexists | by eapply IH].
Qed.

Lemma z_text_no_slash z : "/"%char ∉ bytes (z_text z).
Proof.
  assert (Hu : forall u, "/"%char ∉ bytes (NilEmpty.string_of_uint u)).
  { intros u Hin. pose proof (more_digits_all _ _ (more_digits_uint u)) as Hf.
    rewrite Forall_forall in Hf. destruct (Hf _ Hin) as [k Hk]. discriminate. }
  destruct z as [|p|p]; unfold z_text; cbn [Z.to_int NilEmpty.string_of_int].
  - cbn. set_solver.
  - apply Hu.
  - unfold bytes. cbn [list_ascii_of_string]. intros [Heq | Hin]%elem_of_cons; [discriminate|].
    by apply (Hu (Pos.to_uint p)).
Qed.

Lemma split_on_none c w : c ∉ w -> split_on c w = [w].
Proof.
  induction w as [|b w IH]; intros Hc; [done|]. cbn [split_on].
  rewrite bool_decide_false by set_solver. rewrite IH by set_solver. done.
Qed.

Lemma split_on_sep c w rest : c ∉ w -> split_on c (w ++ c :: rest) = w :: split_on c rest.
Proof.
  induction w as [|b w IH]; intros Hc; cbn [split_on app].
  - by rewrite bool_decide_true.
  - rewrite bool_decide_false by set_solver. rewrite IH by set_solver. done.
Qed.

(** The path of a registration: ["/api/novo_cadastro_reurb/" + str(id)]. *)
Definition cadastro_path (id : Z) : string := "/api/novo_cadastro_reurb/" +:+ z_text id.

Lemma split_cadastro_path id :
  split_path (cadastro_path id) = ["api"; "novo_cadastro_reurb"; z_text id].
Proof.
  unfold split_path, cadastro_path. rewrite bytes_app.
  assert (E : bytes "/api/novo_cadastro_reurb/" ++ bytes (z_text id) =
    "/"%char :: bytes "api" ++ "/"%char :: bytes "novo_cadastro_reurb" ++ "/"%char :: bytes (z_text id))
    by reflexivity.
  rewrite E.
  assert (Hs : forall w, w = bytes "api" \/ w = bytes "novo_cadastro_reurb" -> "/"%char ∉ w)
    by (intros w [-> | ->]; apply (bool_decide_unpack _); vm_compute; reflexivity).
  rewrite split_on_sep by auto. rewrite split_on_sep by auto.
  rewrite split_on_none by apply z_text_no_slash.
  cbn [map]. by rewrite !string_of_list_ascii_of_string.
Qed.

(** A rule that matches is the route: no other rule can. *)
Lemma route_of_rule m xs r e args :
  r ∈ url_map -> match_rule m xs r = Some (e, args) -> route m xs = Routed e args.
Proof.
  intros Hr Hm. unfold route.
  assert (Hin : (e, args) ∈ omap (match_rule m xs) url_map) by (apply list_elem_of_omap; eauto).
  pose proof (unambiguous_omap url_map m xs url_map_unambiguous) as Hl.
  destruct (omap (match_rule m xs) url_map) as [|y [|y' l]]; simpl in *; [set_solver | | lia].
  by apply list_elem_of_singleton in Hin as <-.
Qed.

Lemma match_rule_int m ms b e x z :
  int_segment x = Some z -> m ∈ ms ->
  match_rule m ["api"; b; x] (mkRule (api [Lit b; IntConv]) ms e) = Some (e, [AInt z]).
Proof.
  intros Hi Hm. unfold match_rule. rewrite bool_decide_true by done. simpl.
  rewrite String.eqb_refl, Hi. reflexivity.
Qed.

(** The three rules of [/api/novo_cadastro_reurb/<int:id>] on [str(id)]. *)
Lemma route_cadastro_path id :
  (0 <= id)%Z ->
  route GET (split_path (cadastro_path id)) = Routed EObterCadastro [AInt id] /\
  route PUT (split_path (cadastro_path id)) = Routed EAtualizarCadastro [AInt id] /\
  route DELETE (split_path (cadastro_path id)) = Routed EExcluirCadastro [AInt id].
Proof.
  intros Hz. rewrite split_cadastro_path. pose proof (int_segment_z_text id Hz) as Hi.
  split; [|split]; match goal with
  | |- route ?m _ = Routed ?e _ =>
      apply (route_of_rule _ _ (mkRule (api [Lit "novo_cadastro_reurb"; IntConv]) [m] e));
        [apply list_elem_of_In; simpl; tauto | apply match_rule_int; [exact Hi | by left]]
  end.
Qed.

(** C29.  Paths of registrations: [str(id)] of a non-negative key is
    routed to the read, update and delete views with that key; for a
    negative key ([-5]) no rule applies (404), whatever the method. *)
Theorem cadastro_path_route id :
  ((0 <= id)%Z ->
   route GET (split_path (cadastro_path id)) = Routed EObterCadastro [AInt id] /\
   route PUT (split_path (cadastro_path id)) = Routed EAtualizarCadastro [AInt id] /\
   route DELETE (split_path (cadastro_path id)) = Routed EExcluirCadastro [AInt id]) /\
  ((id < 0)%Z -> forall m, route m (split_path (cadastro_path id)) = NoRoute).
Proof.
  split; [apply route_cadastro_path|]. intros Hn m. rewrite split_cadastro_path.
  destruct id as [|p|p]; [lia | lia|]. unfold z_text. cbn [Z.to_int NilEmpty.string_of_int].
  generalize (NilEmpty.string_of_uint (Pos.to_uint p)). intros s.
  destruct m; vm_compute; reflexivity.
Qed.

(** ** Clearing the registrations *)

Definition excluir_request (id : Z) : request := mkRequest DELETE (cadastro_path id) PNone None.

(** One [DELETE] per stored registration, in storage order. *)
Definition clear_requests (d : db) : list request :=
  map (fun p => excluir_request p.1) (t_rows (cadastros_reurb d)).

Lemma filter_other_keys (rs : list (Z * row)) id :
  id ∉ map fst rs -> List.filter (fun p => negb (Z.eqb (fst p) id)) rs = rs.
Proof.
  induction rs as [|[k r] rs IH]; intros Hn; [done|]. cbn [List.filter fst].
  rewrite (proj2 (Z.eqb_neq k id)) by set_solver. cbn [negb]. f_equal. apply IH. set_solver.
Qed.

Lemma get_row_head d id r rs :
  t_rows (cadastros_reurb d) = (id, r) :: rs -> get_row d TCadastros id = Some r.
Proof.
  intros Hd. unfold get_row. change (get_table d TCadastros) with (cadastros_reurb d).
  rewrite Hd. cbn. by rewrite Z.eqb_refl.
Qed.

Section Clearing.
Context (gen : string -> string) (chk : string -> string -> bool).
Context (select_1 : db -> result exn unit).

Lemma serve_excluir d id :
  (0 <= id)%Z -> serve gen chk select_1 (excluir_request id) d = json_only (excluir_cadastro_reurb id d).
Proof.
  intros Hz. unfold serve. cbn [rq_method rq_path excluir_request].
  by rewrite (proj2 (proj2 (route_cadastro_path id Hz))).
Qed.

Lemma clear_rows rs d :
  t_rows (cadastros_reurb d) = rs -> NoDup (map fst rs) -> Forall (fun p => (0 <= p.1)%Z) rs ->
  Forall (fun a => status a = 200%Z) (serve_all gen chk select_1 (map (fun p => excluir_request p.1) rs) d).1 /\
  t_rows (cadastros_reurb (serve_all gen chk select_1 (map (fun p => excluir_request p.1) rs) d).2) = [].
Proof.
  revert d. induction rs as [|[id r] rs IH]; intros d Hd Hnd Hnn; [by split|].
  apply Forall_cons in Hnn as [Hz Hnn]. cbn [fst] in Hz. cbn [map fst] in Hnd |- *.
  apply NoDup_cons in Hnd as [Hid Hnd].
  pose proof (excluir_cadastro_reurb_ok id d r (get_row_head d id r rs Hd)) as Hx.
  cbn [serve_all]. rewrite serve_excluir by done.
  destruct (excluir_cadastro_reurb id d) as [resp d1]. destruct Hx as (-> & Hrows & _).
  cbn [json_only fst snd]. rewrite Hd in Hrows. cbn [List.filter fst] in Hrows.
  rewrite Z.eqb_refl, filter_other_keys in Hrows by done.
  destruct (IH d1 Hrows Hnd Hnn) as [Hs He].
  destruct (serve_all _ _ _ _ d1) as [as_ d2]. split; [by constructor | done].
Qed.

(** C28.  From any state satisfying the invariant whose registrations
    have non-negative keys, deleting them one by one through the API
    ([DELETE /api/novo_cadastro_reurb/<id>] for each stored key, in
    storage order) succeeds every time (200) and leaves no registration. *)
Theorem registrations_clearable d :
  wf_db d -> Forall (fun p => (0 <= p.1)%Z) (t_rows (cadastros_reurb d)) ->
  Forall (fun a => status a = 200%Z) (serve_all gen chk select_1 (clear_requests d) d).1 /\
  t_rows (cadastros_reurb (serve_all gen chk select_1 (clear_requests d) d).2) = [].
Proof.
  intros [Ht _] Hnn. apply clear_rows; [done | | done].
  exact (proj1 (Ht TCadastros)).
Qed.

End Clearing.

(** ** Witnesses *)

Definition select_ok (d : db) : result exn unit := Ok tt.

Definition rq_novo (nome : string) : request :=
  mkRequest POST "/api/novo_cadastro_reurb" (PDict [("req_nome", PStr nome)]) None.

Definition d_start : db := (serve hash_ex check_ex select_ok (rq_novo "Ana") (create_all None)).2.



(** Witness of C29: the keys 3 and -5. *)
Lemma cadastro_path_route_witness :
  route DELETE (split_path (cadastro_path 3)) = Routed EExcluirCadastro [AInt 3] /\
  route DELETE (split_path (cadastro_path (-5))) = NoRoute.
Proof.
  split.
  - exact (proj2 (proj2 (proj1 (cadastro_path_route 3) ltac:(lia)))).
  - exact (proj2 (cadastro_path_route (-5)) ltac:(lia) DELETE).
Defined.

(** Two registrations and a construction of the first. *)
Definition d_two : db :=
  (run_tx empty_db
     [SInsert TCadastros (dict_of_pairs [("req_nome", PStr "Ana")]);
      SInsert TCadastros (dict_of_pairs [("req_nome", PStr "Bia")]);
      SInsert TConstrucoes (dict_of_pairs [("cadastro_id", PInt 1); ("uso", PStr "Residencial")])]).2.

(** Witness of C28: both registrations of [d_two] are deleted. *)
Lemma registrations_clearable_witness :
  wf_db d_two /\ Forall (fun p => (0 <= p.1)%Z) (t_rows (cadastros_reurb d_two)) /\
  t_rows (cadastros_reurb (serve_all hash_ex check_ex select_ok (clear_requests d_two) d_two).2) = [].
Proof.
  assert (Hw : wf_db d_two) by exact (run_tx_state_wf _ _ _ _ (surjective_pairing _) empty_db_wf).
  assert (Hn : Forall (fun p => (0 <= p.1)%Z) (t_rows (cadastros_reurb d_two)))
    by (apply (bool_decide_unpack _); vm_compute; reflexivity).
  split; [exact Hw|]. split; [exact Hn|].
  exact (proj2 (registrations_clearable hash_ex check_ex select_ok d_two Hw Hn)).
Defined.

(** The create handler stores a registration under the key the body
    names, [-5] included; no path reaches it afterwards. *)
Example negative_id_unreachable :
  let d := (novo_cadastro_reurb (PDict [("id", PInt (-5)); ("req_nome", PStr "Ana")]) empty_db).2 in
  map fst (t_rows (cadastros_reurb d)) = [(-5)%Z] /\
  status (serve hash_ex check_ex select_ok (mkRequest GET "/api/novo_cadastro_reurb/-5" PNone None) d).1 = 404%Z.
Proof. split; vm_compute; reflexivity. Qed.

(** Routing, the health check and the port on concrete inputs. *)
Example app_runs :
  route PATCH (split_path "/api/usuarios/5") = MethodNotAllowed /\
  route GET (split_path "/api/health/") = NoRoute /\
  route GET (split_path "/api/novo_cadastro_reurb/listar") = Routed EListarCadastros [] /\
  route DELETE (split_path "/api/planta_generica/pgv/3") = Routed EExcluirPlantaItem [AStr "pgv"; AInt 3] /\
  status (serve hash_ex check_ex (fun _ => Err (DatabaseError UndefinedFunction))
            (mkRequest GET "/api/health" PNone None) empty_db).1 = 500%Z /\
  server_port None = Ok 5000%Z /\ server_port (Some " 8_080 ") = Ok 8080%Z /\
  server_port (Some "70000") = Err OverflowError.
Proof. repeat split; vm_compute; reflexivity. Qed.
